(** * SpaceNet wrapper API: demand models and analysis endpoints

    A shallow embedding of the two source files of the service:

    - [app/demands_analysis.py]: the pydantic models ([ResourceType],
      [Location], [Element], [Resource], [RawDemand], [RawDemandsAnalysis],
      [NodeDemand], [EdgeDemand], [AggregatedDemandsAnalysis]);
    - [app/main.py]: start-up configuration and the two endpoints
      [analyze_raw_demands] and [analyze_aggregated_demands].

    The models are declarations: each class lists its fields, their types and
    whether they are required.  They are embedded as data ([Pydantic.ty]) and
    given meaning by one validator that follows pydantic 1.x ([parse_raw],
    [parse_obj], field aliases, defaults, lax scalar coercion).  The endpoints
    are embedded as programs in a small exception/state monad over a model of
    the file system and of the child process. *)

From Stdlib Require Import List String Ascii ZArith QArith Bool Lia.
From Stdlib Require Import PrimFloat FloatOps SpecFloat.
From Stdlib Require DecimalString.
From Stdlib Require Import Permutation.
Import ListNotations.

#[local] Set Warnings "-register-all".
#[local] Open Scope Z_scope.
#[local] Open Scope string_scope.
#[local] Open Scope list_scope.

(* ================================================================== *)
(** * Python values *)
(* ================================================================== *)

Module Py.

(** What [json.loads] produces, which is also the shape of the keyword
    arguments a model is constructed from: [None], [bool], [int], [float],
    [str], [list] and [dict] with string keys.  A [str] is kept as its UTF-8
    bytes.  A [JDict] lists the items of a dictionary in insertion order; its
    keys are distinct and [get] returns the entry of a key. *)
Inductive json : Type :=
| JNull
| JBool (b : bool)
| JInt (n : Z)
| JFloat (x : float)
| JStr (s : string)
| JList (l : list json)
| JDict (d : list (string * json)).

(** [d.get(k)] *)
Fixpoint get (k : string) (d : list (string * json)) : option json :=
  match d with
  | [] => None
  | (k', v) :: d' => if String.eqb k k' then Some v else get k d'
  end.

(** [d[k] = v]: replaces the value of an existing key in place, appends a
    new key. *)
Fixpoint set (k : string) (v : json) (d : list (string * json))
  : list (string * json) :=
  match d with
  | [] => [(k, v)]
  | (k', v') :: d' =>
      if String.eqb k k' then (k, v) :: d' else (k', v') :: set k v d'
  end.

(** The built-in conversions between scalars and between values and text.
    The theorems below hold for every such interpreter; [CPython] further
    down gives the one used to run examples.  [None] stands for the
    exception the conversion raises. *)
Class Builtins : Type := {
  int_of_str : string -> option Z;        (* int(s): ValueError *)
  int_of_float : float -> option Z;       (* int(x): ValueError, OverflowError *)
  float_of_int : Z -> option float;       (* float(n): OverflowError *)
  float_of_str : string -> option float;  (* float(s): ValueError *)
  str_of_int : Z -> option string;        (* str(n): ValueError past the digit limit *)
  str_of_float : float -> string;         (* str(x) *)
  json_loads : string -> option json;     (* json.loads(text): ValueError *)
  json_too_deep : string -> bool;
    (* json.loads(text) raises RecursionError: the text nests too deeply *)
  json_dumps : json -> option string      (* json.dumps(obj): ValueError past the digit limit *)
}.

(** The errors of the operating system that matter here. *)
Inductive errno : Type :=
| ENOENT    (* FileNotFoundError *)
| ENOTDIR   (* NotADirectoryError *)
| EISDIR    (* IsADirectoryError *)
| EEXIST    (* FileExistsError *)
| ENAMETOOLONG.

(** Built-in exceptions. *)
Inductive builtin_exception : Type :=
| TypeError
| ValueError
| UnicodeDecodeError   (* a ValueError *)
| OverflowError
| RuntimeError (msg : string)
| RecursionError       (* a RuntimeError *)
| OSError (e : errno) (filename : string).

(** ** Strings as sequences of characters *)

(** A byte [10xxxxxx] continues the character started before it. *)
Definition is_continuation (c : ascii) : bool :=
  let n := nat_of_ascii c in (128 <=? n)%nat && (n <? 192)%nat.

Definition continues (s : string) : bool :=
  match s with String c _ => is_continuation c | EmptyString => false end.

(** [list(s)]: the characters of [s], each as a string. *)
Fixpoint chars (s : string) : list string :=
  match s with
  | EmptyString => []
  | String c r =>
      match chars r with
      | h :: t =>
          if continues r then String c h :: t
          else String c EmptyString :: h :: t
      | [] => [String c EmptyString]
      end
  end.

(** [len(s)] *)
Definition len (s : string) : nat := List.length (chars s).

(** ** [dict(obj)] and keyword arguments *)

Inductive kwargs : Type :=
| IsDict (kw : list (string * json))  (* a dict whose keys are all strings *)
| NonStrKeys                          (* a dict with a key that is no string *)
| NotDictable.                        (* dict(obj) raises TypeError or ValueError *)

(** One element of the iterable given to [dict]: a sequence of exactly two
    items, the key and the value.  Iterating a string yields its characters,
    iterating a dict its keys. *)
Definition as_pair (item : json) : option (json * json) :=
  match item with
  | JList [k; v] => Some (k, v)
  | JStr s => match chars s with [a; b] => Some (JStr a, JStr b) | _ => None end
  | JDict [(k1, _); (k2, _)] => Some (JStr k1, JStr k2)
  | _ => None
  end.

Definition hashable (k : json) : bool :=
  match k with JList _ | JDict _ => false | _ => true end.

(** The dictionary built from a list of items: [None] when an item is no
    pair or its key cannot be hashed; otherwise the entries with string keys
    and whether every key was a string. *)
Fixpoint dict_of_items (items : list json) (acc : list (string * json))
    (all_str : bool) : option (list (string * json) * bool) :=
  match items with
  | [] => Some (acc, all_str)
  | item :: rest =>
      match as_pair item with
      | Some (JStr k, v) => dict_of_items rest (set k v acc) all_str
      | Some (k, _) =>
          if hashable k then dict_of_items rest acc false else None
      | None => None
      end
  end.

Definition to_kwargs (obj : json) : kwargs :=
  match obj with
  | JDict d => IsDict d
  | JList items =>
      match dict_of_items items [] true with
      | Some (d, true) => IsDict d
      | Some (_, false) => NonStrKeys
      | None => NotDictable
      end
  | JStr s => match s with EmptyString => IsDict [] | _ => NotDictable end
  | JNull | JBool _ | JInt _ | JFloat _ => NotDictable
  end.

End Py.

Import Py.

(* ================================================================== *)
(** * pydantic 1.x: field types, validation, serialisation *)
(* ================================================================== *)

Module Pydantic.

(** ** Validated values *)

(** What a validated field holds: [None], an [int], a [float], a [str], a
    member of a string enumeration (kept by its value), a list, or a model
    instance with its attributes by field name. *)
Inductive value : Type :=
| VNone
| VInt (n : Z)
| VFloat (x : float)
| VStr (s : string)
| VEnum (label : string)
| VList (l : list value)
| VModel (attrs : list (string * value)).

(** [obj.name] *)
Fixpoint attr (name : string) (attrs : list (string * value)) : option value :=
  match attrs with
  | [] => None
  | (n, v) :: rest => if String.eqb name n then Some v else attr name rest
  end.

Definition getattr (obj : value) (name : string) : option value :=
  match obj with VModel attrs => attr name attrs | _ => None end.

(** ** Field declarations *)

(** The first argument of [Field(...)]: [...] marks a required field, any
    other value is the default. *)
Inductive default : Type :=
| Required
| Default (v : value).

(** The annotation of a field.  A model lists its fields in declaration
    order as (name, (annotation, default)). *)
Inductive ty : Type :=
| int_
| float_
| str_
| Enum (members : list (string * string))   (* class E(str, Enum): name = "value" *)
| List_ (elem : ty)
| Optional (t : ty)
| CamelModel (fields : list (string * (ty * default))).

Definition field (name : string) (t : ty) (d : default)
  : string * (ty * default) := (name, (t, d)).

(** ** Errors *)

Inductive loc_item : Type :=
| Key (k : string)
| Idx (i : nat).

(** The [type] of an entry of [ValidationError.errors()]. *)
Inductive error_type : Type :=
| value_error_missing         (* field required *)
| type_error_none_not_allowed (* none is not an allowed value *)
| type_error_integer
| type_error_float
| type_error_str
| type_error_enum
| type_error_list
| type_error_dict
| type_error                  (* a TypeError raised while validating *)
| value_error.                (* a ValueError raised while validating or decoding *)

Record error : Type := mk_error { loc : list loc_item; type_ : error_type }.

(** Outcome of validating a value: the validated value, the collected
    errors of a [ValidationError], or another exception that escapes. *)
Inductive result (A : Type) : Type :=
| Ok (a : A)
| Invalid (errors : list error)
| Raises (e : builtin_exception).

Arguments Ok {A} a.
Arguments Invalid {A} errors.
Arguments Raises {A} e.

Definition fail {A} (t : error_type) : result A :=
  Invalid [mk_error [] t].

Definition of_option {A} (t : error_type) (o : option A) : result A :=
  match o with Some a => Ok a | None => fail t end.

Definition map_result {A B} (f : A -> B) (r : result A) : result B :=
  match r with
  | Ok a => Ok (f a)
  | Invalid es => Invalid es
  | Raises e => Raises e
  end.

(** Errors of a sub-value are reported under the location of the field or
    index that holds it. *)
Definition under (i : loc_item) (e : error) : error :=
  mk_error (i :: loc e) (type_ e).

Definition at_loc {A} (i : loc_item) (r : result A) : result A :=
  match r with
  | Ok a => Ok a
  | Invalid es => Invalid (map (under i) es)
  | Raises e => Raises e
  end.

(** Validation goes through the fields (or items) in order and collects the
    errors of all of them; an escaping exception stops it where it occurs. *)
Definition collect {A B} (r : result A) (rest : result (list B))
    (add : A -> list B -> list B) : result (list B) :=
  match r with
  | Raises e => Raises e
  | Ok a =>
      match rest with
      | Ok l => Ok (add a l)
      | Invalid es => Invalid es
      | Raises e => Raises e
      end
  | Invalid es =>
      match rest with
      | Ok _ => Invalid es
      | Invalid es' => Invalid (es ++ es')
      | Raises e => Raises e
      end
  end.

(** ** Aliases: [alias_generator = camelize] *)

(** The separators of words: hyphen, underscore and the white space of
    ASCII. *)
Definition is_sep (c : ascii) : bool :=
  let n := nat_of_ascii c in
  (n =? 45)%nat || (n =? 95)%nat || (n =? 32)%nat
  || ((9 <=? n)%nat && (n <=? 13)%nat) || ((28 <=? n)%nat && (n <=? 31)%nat).

Definition is_upper (c : ascii) : bool :=
  let n := nat_of_ascii c in (65 <=? n)%nat && (n <=? 90)%nat.

Definition is_lower (c : ascii) : bool :=
  let n := nat_of_ascii c in (97 <=? n)%nat && (n <=? 122)%nat.

Definition is_digit (c : ascii) : bool :=
  let n := nat_of_ascii c in (48 <=? n)%nat && (n <=? 57)%nat.

Definition upper (c : ascii) : ascii :=
  if is_lower c then ascii_of_nat (nat_of_ascii c - 32) else c.

Definition lower (c : ascii) : ascii :=
  if is_upper c then ascii_of_nat (nat_of_ascii c + 32) else c.

Fixpoint all_chars (p : ascii -> bool) (s : string) : bool :=
  match s with
  | EmptyString => true
  | String c r => p c && all_chars p r
  end.

Fixpoint any_char (p : ascii -> bool) (s : string) : bool :=
  match s with
  | EmptyString => false
  | String c r => p c || any_char p r
  end.

(** [s.isupper()]: some cased character and no lower-case one. *)
Definition isupper (s : string) : bool :=
  any_char is_upper s && negb (any_char is_lower s).

(** [s.isnumeric()] *)
Definition isnumeric (s : string) : bool :=
  match s with EmptyString => false | _ => all_chars is_digit s end.

(** Each run of separators that follows a character and is followed by one
    is dropped and the character after it put in upper case. *)
Fixpoint camel_runs (after_char : bool) (run : string) (s : string) : string :=
  match s with
  | EmptyString => run
  | String c r =>
      if is_sep c then camel_runs after_char (run ++ String c EmptyString) r
      else
        match run with
        | EmptyString => String c (camel_runs true EmptyString r)
        | _ =>
            if after_char then String (upper c) (camel_runs true EmptyString r)
            else run ++ String c (camel_runs true EmptyString r)
        end
  end.

(** [humps.camelize] on a string of ASCII characters: a string in upper
    case or of digits is left as it is; otherwise the first letter is put in
    lower case, unless the first two characters are in upper case, and the
    words are joined. *)
Definition camelize (s : string) : string :=
  if isupper s || isnumeric s then s
  else
    let s' :=
      match s with
      | String a (String b _) =>
          if isupper (String a (String b EmptyString)) then s
          else match s with String c r => String (lower c) r | _ => s end
      | String c r => String (lower c) r
      | EmptyString => s
      end in
    camel_runs false EmptyString s'.

(** ** Validators *)

Section Validation.

Context {py : Builtins}.

(** [int_validator]: an [int] that is no [bool] is kept; anything else goes
    through [int(v)], a string only when it has at most 4300 characters. *)
Definition int_validator (v : json) : result value :=
  match v with
  | JInt n => Ok (VInt n)
  | JBool b => Ok (VInt (if b then 1 else 0))
  | JFloat x => of_option type_error_integer (option_map VInt (int_of_float x))
  | JStr s =>
      if (4300 <? len s)%nat then fail type_error_integer
      else of_option type_error_integer (option_map VInt (int_of_str s))
  | JNull | JList _ | JDict _ => fail type_error_integer
  end.

(** [float_validator]: a [float] is kept as it is; anything else goes
    through [float(v)], whose [OverflowError] is not caught. *)
Definition float_validator (v : json) : result value :=
  match v with
  | JFloat x => Ok (VFloat x)
  | JInt n =>
      match float_of_int n with
      | Some x => Ok (VFloat x)
      | None => Raises OverflowError
      end
  | JBool b => Ok (VFloat (if b then one else zero))
  | JStr s => of_option type_error_float (option_map VFloat (float_of_str s))
  | JNull | JList _ | JDict _ => fail type_error_float
  end.

(** [str_validator]: a [str] is kept; a number goes through [str(v)]. *)
Definition str_validator (v : json) : result value :=
  match v with
  | JStr s => Ok (VStr s)
  | JInt n => of_option value_error (option_map VStr (str_of_int n))
  | JBool b => Ok (VStr (if b then "True" else "False"))
  | JFloat x => Ok (VStr (str_of_float x))
  | JNull | JList _ | JDict _ => fail type_error_str
  end.

(** [enum_member_validator]: the member whose value equals [v]. *)
Definition enum_member_validator (members : list (string * string))
    (v : json) : result value :=
  match v with
  | JStr s =>
      if existsb (fun m => String.eqb s (snd m)) members then Ok (VEnum s)
      else fail type_error_enum
  | _ => fail type_error_enum
  end.

(** A field is looked up by its alias and, with
    [allow_population_by_field_name], by its name when the alias is absent. *)
Definition lookup (alias name : string) (kw : list (string * json))
  : option json :=
  match get alias kw with
  | Some v => Some v
  | None => get name kw
  end.

(** [ModelField.validate].  [None] is accepted by an [Optional] field only
    and refused before any other check.  A list field takes a [list] and
    validates its items under their index.  A model field takes a [dict], or
    what [dict(v)] accepts, and validates the fields of the model in
    declaration order under their alias: a required field that is absent is
    an error, an absent field with a default takes the default without
    validating it, and keys that name no field are ignored. *)
Fixpoint validate (t : ty) (v : json) {struct t} : result value :=
  match v with
  | JNull =>
      match t with
      | Optional _ => Ok VNone
      | _ => fail type_error_none_not_allowed
      end
  | _ =>
      match t with
      | int_ => int_validator v
      | float_ => float_validator v
      | str_ => str_validator v
      | Enum members => enum_member_validator members v
      | Optional t' => validate t' v
      | List_ elem =>
          match v with
          | JList items =>
              map_result VList
                ((fix each (i : nat) (items : list json)
                    : result (list value) :=
                    match items with
                    | [] => Ok []
                    | x :: rest =>
                        collect (at_loc (Idx i) (validate elem x))
                                (each (S i) rest) cons
                    end) 0%nat items)
          | _ => fail type_error_list
          end
      | CamelModel fields =>
          match to_kwargs v with
          | IsDict kw =>
              map_result VModel
                ((fix each (fs : list (string * (ty * default)))
                    : result (list (string * value)) :=
                    match fs with
                    | [] => Ok []
                    | (name, (ft, d)) :: rest =>
                        let alias := camelize name in
                        collect
                          match lookup alias name kw, d with
                          | Some x, _ => at_loc (Key alias) (validate ft x)
                          | None, Required =>
                              Invalid [mk_error [Key alias] value_error_missing]
                          | None, Default dv => Ok dv
                          end
                          (each rest) (fun a l => (name, a) :: l)
                    end) fields)
          | NonStrKeys => fail type_error
          | NotDictable => fail type_error_dict
          end
      end
  end.

(** Construction from keyword arguments: the class called on [kw]. *)
Definition construct (cls : ty) (kw : list (string * json)) : result value :=
  validate cls (JDict kw).

(** [cls.parse_obj(obj)] *)
Definition parse_obj (cls : ty) (obj : json) : result value :=
  match to_kwargs obj with
  | IsDict kw => construct cls kw
  | NonStrKeys => Raises TypeError
  | NotDictable => Invalid [mk_error [Key "__root__"] type_error]
  end.

(** [cls.parse_raw(b)]: the [ValueError] of [json.loads] becomes a
    [ValidationError]; its [RecursionError] is not caught. *)
Definition parse_raw (cls : ty) (b : string) : result value :=
  match json_loads b with
  | Some obj => parse_obj cls obj
  | None =>
      if json_too_deep b then Raises RecursionError
      else Invalid [mk_error [Key "__root__"] value_error]
  end.

End Validation.

(** ** Serialisation *)

(** [obj.dict(by_alias=True)], as [json.dumps] then sees it: a member of a
    string enumeration is written as its value. *)
Fixpoint dict_by_alias (v : value) : json :=
  match v with
  | VNone => JNull
  | VInt n => JInt n
  | VFloat x => JFloat x
  | VStr s => JStr s
  | VEnum label => JStr label
  | VList l => JList (map dict_by_alias l)
  | VModel attrs =>
      JDict (map (fun a => (camelize (fst a), dict_by_alias (snd a))) attrs)
  end.


(** [obj.dict()], as [json.dumps] then sees it: the attributes under their
    field names. *)
Fixpoint dict_by_name (v : value) : json :=
  match v with
  | VNone => JNull
  | VInt n => JInt n
  | VFloat x => JFloat x
  | VStr s => JStr s
  | VEnum label => JStr label
  | VList l => JList (map dict_by_name l)
  | VModel attrs => JDict (map (fun a => (fst a, dict_by_name (snd a))) attrs)
  end.

(** ** Equality *)



End Pydantic.

(* ================================================================== *)
(** * app/demands_analysis.py *)
(* ================================================================== *)

Module demands_analysis.

Import Pydantic.

(** Type of resource type *)
Definition ResourceTypeType : ty :=
  Enum [ ("generic", "Generic");
         ("continuous", "Continuous");
         ("discrete", "Discrete") ].

(** Stowage environment *)
Definition Environment : ty :=
  Enum [ ("pressurized", "Pressurized");
         ("unpressurized", "Unpressurized") ].

(** Type of resource *)
Definition ResourceType : ty :=
  CamelModel [
    field "type" ResourceTypeType Required;
    field "name" str_ Required;
    field "class_of_supply" int_ Required;
    field "environment" Environment Required;
    field "units" str_ Required;
    field "unit_mass" float_ Required;
    field "unit_volume" float_ Required;
    field "packing_factor" float_ Required ].

(** Spatial location in a scenario *)
Definition Location : ty :=
  CamelModel [
    field "id" int_ Required;
    field "name" str_ Required ].

(** Persistent element taking part in a scenario *)
Definition Element : ty :=
  CamelModel [
    field "id" int_ Required;
    field "name" str_ Required ].

(** A defined quantity of a resource type. *)
Definition Resource : ty :=
  CamelModel [
    field "resource" ResourceType Required;
    field "amount" float_ Required;
    field "mass" float_ Required;
    field "volume" float_ Required ].

(** Set of demands aggregated to a moment in time *)
Definition RawDemand : ty :=
  CamelModel [
    field "time" float_ Required;
    field "location" Location Required;
    field "element" (Optional Element) (Default VNone);
    field "consumption" (List_ Resource) (Default (VList []));
    field "production" (List_ Resource) (Default (VList []));
    field "total_mass" float_ Required;
    field "total_volume" float_ Required ].

(** Set of demands aggregated to a moment in time *)
Definition RawDemandsAnalysis : ty :=
  CamelModel [
    field "demands" (List_ RawDemand) (Default (VList [])) ].

(** Demands aggregated to a supply node *)
Definition NodeDemand : ty :=
  CamelModel [
    field "time" float_ Required;
    field "location" Location Required;
    field "consumption" (List_ Resource) (Default (VList []));
    field "production" (List_ Resource) (Default (VList []));
    field "total_mass" float_ Required;
    field "total_volume" float_ Required ].

(** Demands aggregated to a supply edge *)
Definition EdgeDemand : ty :=
  CamelModel [
    field "start_time" float_ Required;
    field "end_time" float_ Required;
    field "origin" Location Required;
    field "destination" Location Required;
    field "location" Location Required;
    field "consumption" (List_ Resource) (Default (VList []));
    field "production" (List_ Resource) (Default (VList []));
    field "total_mass" float_ Required;
    field "total_volume" float_ Required;
    field "max_cargo_mass" float_ Required;
    field "net_cargo_mass" float_ Required;
    field "max_cargo_volume" float_ Required;
    field "net_cargo_volume" float_ Required ].

(** List of demands aggregated to supply nodes and edges *)
Definition AggregatedDemandsAnalysis : ty :=
  CamelModel [
    field "nodes" (List_ NodeDemand) (Default (VList []));
    field "edges" (List_ EdgeDemand) (Default (VList [])) ].

End demands_analysis.

(* ================================================================== *)
(** * The operating system: paths, files, child processes *)
(* ================================================================== *)

Module posixpath.

Definition sep : ascii := "/"%char.

Definition startswith_sep (s : string) : bool :=
  match s with String c _ => Ascii.eqb c sep | EmptyString => false end.

Fixpoint endswith_sep (s : string) : bool :=
  match s with
  | EmptyString => false
  | String c EmptyString => Ascii.eqb c sep
  | String _ r => endswith_sep r
  end.

(** [os.path.join(a, b)]: an absolute [b] replaces [a]; otherwise [b] is
    appended to [a], after a separator unless [a] is empty or ends with one. *)
Definition join (a b : string) : string :=
  if startswith_sep b then b
  else if (match a with EmptyString => true | _ => false end) || endswith_sep a
       then a ++ b
       else a ++ String sep b.

(** [path.split("/")] *)
Fixpoint split (path : string) : list string :=
  match path with
  | EmptyString => [EmptyString]
  | String c r =>
      if Ascii.eqb c sep then EmptyString :: split r
      else match split r with
           | h :: t => String c h :: t
           | [] => [String c EmptyString]
           end
  end.

End posixpath.

Module OS.

(** A location in the directory tree: the names from the root down. *)
Definition node : Type := list string.

Definition node_eqb (p q : node) : bool :=
  if list_eq_dec string_dec p q then true else false.

Fixpoint is_prefix (p q : node) : bool :=
  match p, q with
  | [], _ => true
  | a :: p', b :: q' => String.eqb a b && is_prefix p' q'
  | _ :: _, [] => false
  end.

(** The directory tree: which nodes are directories, and the bytes of the
    nodes that are regular files.  Links, permissions and the limit on space
    are left out. *)
Record FileSystem : Type := {
  is_dir : node -> bool;
  file : node -> option string
}.

Definition exists_ (fs : FileSystem) (p : node) : bool :=
  is_dir fs p || match file fs p with Some _ => true | None => false end.

(** One step of path resolution from the node [cur], kept leaf first. *)
Definition step (cur : list string) (name : string) : list string :=
  if String.eqb name "" || String.eqb name "." then cur
  else if String.eqb name ".." then tl cur
  else name :: cur.

(** The limits of Linux on the bytes of a name and of a path, the latter
    with its final NUL. *)
Definition NAME_MAX : nat := 255.

Definition PATH_MAX : nat := 4096.

(** What looking a name up in the node [p] fails with when [p] is no
    directory. *)
Definition not_a_directory (fs : FileSystem) (p : node) : errno :=
  match file fs p with
  | Some _ => ENOTDIR
  | None => ENOENT
  end.

(** Resolution of the components of a path: every component is looked up
    in a directory that exists, and is no longer than [NAME_MAX]. *)
Fixpoint walk (fs : FileSystem) (cur : list string) (names : list string)
  : errno + list string :=
  match names with
  | [] => inr cur
  | name :: rest =>
      if is_dir fs (rev cur) then
        if (NAME_MAX <? String.length name)%nat then inl ENAMETOOLONG
        else walk fs (step cur name) rest
      else inl (not_a_directory fs (rev cur))
  end.

(** Where the resolution of a path starts: at the root for an absolute
    path, at the working directory [cwd] for a relative one. *)
Definition start (cwd : node) (path : string) : list string :=
  if posixpath.startswith_sep path then [] else rev cwd.

(** The node a path names.  The empty path names none, and a path of
    [PATH_MAX] bytes or more is refused. *)
Definition namei (fs : FileSystem) (cwd : node) (path : string)
  : errno + node :=
  match path with
  | EmptyString => inl ENOENT
  | _ =>
      if (PATH_MAX <=? String.length path)%nat then inl ENAMETOOLONG
      else
        match walk fs (start cwd path) (posixpath.split path) with
        | inl e => inl e
        | inr p => inr (rev p)
        end
  end.

(** The components of a path without the empty ones at its end. *)
Fixpoint without_trailing (names : list string) : list string :=
  match names with
  | [] => []
  | name :: rest =>
      match without_trailing rest with
      | [] => if String.eqb name "" then [] else [name]
      | rest' => name :: rest'
      end
  end.

(** What creating a file fails with at a path that ends with a separator:
    the path is resolved up to the directory of its last name, and what it
    names is then taken to be a directory. *)
Definition creat_trailing (fs : FileSystem) (cwd : node) (path : string)
  : errno :=
  if (PATH_MAX <=? String.length path)%nat then ENAMETOOLONG
  else
    let names := without_trailing (posixpath.split path) in
    match rev names with
    | [] => EISDIR
    | last :: before =>
        if String.eqb last "." || String.eqb last ".." then
          match walk fs (start cwd path) names with
          | inl e => e
          | inr _ => EISDIR
          end
        else
          match walk fs (start cwd path) (rev before) with
          | inl e => e
          | inr p =>
              if is_dir fs (rev p) then EISDIR
              else not_a_directory fs (rev p)
          end
    end.

(** Universal newlines, as a stream opened in text mode reads them: [\r\n]
    and [\r] are read as [\n]. *)
Fixpoint universal_newlines (s : string) : string :=
  match s with
  | EmptyString => EmptyString
  | String c r =>
      if Ascii.eqb c "013"%char then
        String "010"%char
          match r with
          | String c' r' =>
              if Ascii.eqb c' "010"%char then universal_newlines r'
              else universal_newlines r
          | EmptyString => EmptyString
          end
      else String c (universal_newlines r)
  end.

(** A string with a NUL character names nothing for the operating system:
    Python raises [ValueError: embedded null byte] before any system call. *)
Fixpoint embedded_null (s : string) : bool :=
  match s with
  | EmptyString => false
  | String c r => Ascii.eqb c Ascii.zero || embedded_null r
  end.

Definition mkdir (fs : FileSystem) (p : node) : FileSystem :=
  {| is_dir := fun q => node_eqb p q || is_dir fs q; file := file fs |}.

Definition write (fs : FileSystem) (p : node) (data : string) : FileSystem :=
  {| is_dir := is_dir fs;
     file := fun q => if node_eqb p q then Some data else file fs q |}.

(** [shutil.rmtree]: the node and everything below it are gone. *)
Definition rmtree (fs : FileSystem) (p : node) : FileSystem :=
  {| is_dir := fun q => negb (is_prefix p q) && is_dir fs q;
     file := fun q => if is_prefix p q then None else file fs q |}.

(** A child process, from its start to its end: how long it runs ([None]:
    it never exits by itself), its exit status, the characters it wrote to
    its standard output and error, the file system it leaves when it exits,
    and the file system it leaves when it is killed after some seconds.
    The output is text: a child that writes bytes which are no text in the
    encoding of the locale is not described. *)
Record Process : Type := {
  duration : option Q;
  returncode : Z;
  output : string;
  fs_exit : FileSystem;
  fs_killed : Q -> FileSystem
}.

(** The machine the service runs on: the working directory of the service,
    the name [mkdtemp] picks for a new directory, what a command does when it
    is run on a file system ([None]: the program cannot be started), and the
    text that the bytes of a file are in the encoding of the locale ([None]:
    they are no text, a [UnicodeDecodeError]). *)
Record Machine : Type := {
  cwd : node;
  mkdtemp : FileSystem -> string;
  run : list string -> FileSystem -> option Process;
  decode : string -> option string
}.

End OS.

(* ================================================================== *)
(** * app/main.py *)
(* ================================================================== *)

Module main.

Import Pydantic OS demands_analysis.

(** ** Exceptions and effects *)

Inductive exception : Type :=
| Builtin (e : builtin_exception)
| ValidationError (errors : list error)
| CalledProcessError (returncode : Z) (output : string)
| TimeoutExpired
| HTTPException (status_code : Z) (detail : string).

Inductive outcome (A : Type) : Type :=
| Return (a : A)
| Raise (e : exception).

Arguments Return {A} a.
Arguments Raise {A} e.

(** What a computation acts on: the file system, and the commands started
    as child processes so far, oldest first. *)
Record World : Type := {
  fs : FileSystem;
  spawned : list (list string)
}.

Definition with_fs (w : World) (fs' : FileSystem) : World :=
  {| fs := fs'; spawned := spawned w |}.

(** A computation runs on the world and returns or raises. *)
Definition M (A : Type) : Type := World -> outcome A * World.

Definition ret {A} (a : A) : M A := fun w => (Return a, w).

Definition raise {A} (e : exception) : M A := fun w => (Raise e, w).

Definition bind {A B} (c : M A) (k : A -> M B) : M B :=
  fun w =>
    match c w with
    | (Return a, w') => k a w'
    | (Raise e, w') => (Raise e, w')
    end.

(** [try: c  except ...: handler] *)
Definition try_except {A} (c : M A) (handler : exception -> M A) : M A :=
  fun w =>
    match c w with
    | (Return a, w') => (Return a, w')
    | (Raise e, w') => handler e w'
    end.

Notation "x <- c ;; k" := (bind c (fun x => k))
  (at level 61, c at next level, right associativity).
Notation "c ;; k" := (bind c (fun _ => k))
  (at level 61, right associativity).

(** The outcome of validation as the outcome of the call. *)
Definition of_result {A} (r : result A) : M A :=
  match r with
  | Ok a => ret a
  | Invalid errors => raise (ValidationError errors)
  | Raises e => raise (Builtin e)
  end.

(** ** Configuration read when the module is loaded *)

(** [os.environ], after [load_dotenv()]. *)
Definition environ : Type := list (string * string).

Fixpoint getenv (env : environ) (key : string) : option string :=
  match env with
  | [] => None
  | (k, v) :: rest => if String.eqb key k then Some v else getenv rest key
  end.

(** What [os.getenv(key, 10)] returns: the string of the environment, or
    the default, an [int]. *)
Inductive env_value : Type :=
| EnvStr (s : string)
| EnvInt (n : Z).

Record Settings : Type := {
  spacenet_path : string;
  spacenet_timeout : env_value
}.

Section Service.

Context {py : Builtins}.
Variable m : Machine.

(** [os.path.exists(path)] *)
Definition path_exists (files : FileSystem) (path : string) : bool :=
  if embedded_null path then false
  else match namei files (cwd m) path with
       | inr p => exists_ files p
       | inl _ => false
       end.

(** Lines 18 to 23: the path of the SpaceNet JAR must name an existing file
    ([os.path.exists(None)] is a [TypeError]); the timeout is the value of
    [SPACENET_TIMEOUT] as the environment holds it, or 10. *)
Definition load_settings (env : environ) : M Settings :=
  fun w =>
    match getenv env "SPACENET_PATH" with
    | None => (Raise (Builtin TypeError), w)
    | Some path =>
        if path_exists (fs w) path then
          (Return {| spacenet_path := path;
                     spacenet_timeout :=
                       match getenv env "SPACENET_TIMEOUT" with
                       | Some s => EnvStr s
                       | None => EnvInt 10
                       end |}, w)
        else
          (Raise (Builtin (RuntimeError ("SpaceNet JAR not found at: " ++ path))), w)
    end.

(** ** Files and processes *)

(** [with TemporaryDirectory() as tempdir: body]: the directory is made
    before the body runs and removed with all it holds when the body is
    left, by return or by exception. *)
Definition TemporaryDirectory {A} (body : string -> M A) : M A :=
  fun w =>
    let tempdir := mkdtemp m (fs w) in
    match namei (fs w) (cwd m) tempdir with
    | inl e => (Raise (Builtin (OSError e tempdir)), w)
    | inr p =>
        if exists_ (fs w) p then (Raise (Builtin (OSError EEXIST tempdir)), w)
        else
          let (r, w') := body tempdir (with_fs w (mkdir (fs w) p)) in
          (r, with_fs w' (rmtree (fs w') p))
    end.

(** [open(path, "wb")] followed by [write(data)]. *)
Definition write_file (path : string) (data : string) : M unit :=
  fun w =>
    if embedded_null path then (Raise (Builtin ValueError), w)
    else if posixpath.endswith_sep path then
      (Raise (Builtin (OSError (creat_trailing (fs w) (cwd m) path) path)), w)
    else
      match namei (fs w) (cwd m) path with
      | inl e => (Raise (Builtin (OSError e path)), w)
      | inr p =>
          if is_dir (fs w) p then (Raise (Builtin (OSError EISDIR path)), w)
          else (Return tt, with_fs w (write (fs w) p data))
      end.

(** [open(path, "r")] followed by [read()]: the bytes of the file are
    decoded in the encoding of the locale and read with universal
    newlines. *)
Definition read_file (path : string) : M string :=
  fun w =>
    if embedded_null path then (Raise (Builtin ValueError), w)
    else
      match namei (fs w) (cwd m) path with
      | inl e => (Raise (Builtin (OSError e path)), w)
      | inr p =>
          match file (fs w) p with
          | Some data =>
              match decode m data with
              | Some text => (Return (universal_newlines text), w)
              | None => (Raise (Builtin UnicodeDecodeError), w)
              end
          | None =>
              (Raise (Builtin (OSError (if is_dir (fs w) p then EISDIR
                                        else ENOENT) path)), w)
          end
      end.

(** [subprocess.check_output(args, stderr=STDOUT, universal_newlines=True,
    timeout=timeout)].  No argument may hold a NUL.  The child is started;
    the deadline is the current time plus [timeout], which is a [TypeError]
    when [timeout] is a string, and the child is killed at once.  A child
    still running at the deadline is killed.  The output of a child that
    ends in time is read as text with universal newlines. *)
Definition check_output (args : list string) (timeout : env_value) : M string :=
  fun w =>
    if existsb embedded_null args then (Raise (Builtin ValueError), w) else
    match run m args (fs w) with
    | None => (Raise (Builtin (OSError ENOENT (hd "" args))), w)
    | Some p =>
        let started (files : FileSystem) : World :=
          {| fs := files; spawned := spawned w ++ [args] |} in
        match timeout with
        | EnvStr _ => (Raise (Builtin TypeError), started (fs_killed p 0%Q))
        | EnvInt t =>
            match duration p with
            | Some d =>
                if Qle_bool d (inject_Z t) then
                  if Z.eqb (returncode p) 0
                  then (Return (universal_newlines (output p)),
                        started (fs_exit p))
                  else (Raise (CalledProcessError
                                 (returncode p)
                                 (universal_newlines (output p))),
                        started (fs_exit p))
                else (Raise TimeoutExpired, started (fs_killed p (inject_Z t)))
            | None => (Raise TimeoutExpired, started (fs_killed p (inject_Z t)))
            end
        end
    end.

(** [f"{value}"] *)
Definition format (v : env_value) : M string :=
  match v with
  | EnvStr s => ret s
  | EnvInt n =>
      match str_of_int n with
      | Some s => ret s
      | None => raise (Builtin ValueError)
      end
  end.

(** ** The endpoints *)

Record UploadFile : Type := {
  filename : string;
  content : string
}.

Variable settings : Settings.

(** [POST /demands-raw] *)
Definition analyze_raw_demands (scenario_file : UploadFile)
    (consume_resources : bool) : M value :=
  results <-
    TemporaryDirectory (fun tempdir =>
      let scenario_path := posixpath.join tempdir (filename scenario_file) in
      let results_path := posixpath.join tempdir "results.json" in
      write_file scenario_path (content scenario_file) ;;
      try_except
        (check_output
           [ "java";
             "-jar";
             spacenet_path settings;
             "-h";
             "demands-raw";
             "-i";
             scenario_path;
             "-o";
             results_path;
             if consume_resources then "-c" else "" ]
           (spacenet_timeout settings))
        (fun e =>
           match e with
           | CalledProcessError _ output => raise (HTTPException 422 output)
           | TimeoutExpired =>
               t <- format (spacenet_timeout settings) ;;
               raise (HTTPException 422 ("Timeout exceeded (" ++ t ++ " s)"))
           | _ => raise e
           end) ;;
      read_file results_path) ;;
  of_result (parse_raw RawDemandsAnalysis results).

(** [POST /demands-agg] *)
Definition analyze_aggregated_demands (scenario_file : UploadFile)
    (consume_resources : bool) : M value :=
  results <-
    TemporaryDirectory (fun tempdir =>
      let scenario_path := posixpath.join tempdir (filename scenario_file) in
      let results_path := posixpath.join tempdir "results.json" in
      write_file scenario_path (content scenario_file) ;;
      try_except
        (check_output
           [ "java";
             "-jar";
             spacenet_path settings;
             "-h";
             "demands-agg";
             "-i";
             scenario_path;
             "-o";
             results_path;
             if consume_resources then "-c" else "" ]
           (spacenet_timeout settings))
        (fun e =>
           match e with
           | CalledProcessError _ output => raise (HTTPException 422 output)
           | TimeoutExpired =>
               t <- format (spacenet_timeout settings) ;;
               raise (HTTPException 422 ("Timeout exceeded (" ++ t ++ " s)"))
           | _ => raise e
           end) ;;
      read_file results_path) ;;
  of_result (parse_raw AggregatedDemandsAnalysis results).

End Service.

(** ** Responses *)

(** The status of the error response for the outcome of an endpoint: that
    of an [HTTPException], and 500 for any other exception that leaves the
    endpoint.  [None] when the endpoint returns. *)
Definition error_status {A} (r : outcome A) : option Z :=
  match r with
  | Return _ => None
  | Raise (HTTPException status_code _) => Some status_code
  | Raise _ => Some 500
  end.

End main.

(* ================================================================== *)
(** * A reference interpreter

    The conversions of CPython 3.11, written out so that the models can be
    run on concrete documents.  Text is a sequence of UTF-8 bytes; the white
    space and the digits that [int] and [float] accept are those of ASCII. *)
(* ================================================================== *)

Module CPython.

Import Py.

#[local] Open Scope Z_scope.

(** ** Characters and digits *)

Definition code (c : ascii) : Z := Z.of_nat (nat_of_ascii c).

Definition chr (n : Z) : ascii := ascii_of_nat (Z.to_nat n).

Definition is_digit (c : ascii) : bool := (48 <=? code c) && (code c <=? 57).

(** White space that [int] and [float] strip from both ends. *)
Definition is_space (c : ascii) : bool :=
  Z.eqb (code c) 32 || ((9 <=? code c) && (code c <=? 13)).

Fixpoint lstrip (s : string) : string :=
  match s with
  | String c r => if is_space c then lstrip r else s
  | EmptyString => s
  end.

Fixpoint rstrip (s : string) : string :=
  match s with
  | String c r =>
      match rstrip r with
      | EmptyString => if is_space c then EmptyString else String c EmptyString
      | r' => String c r'
      end
  | EmptyString => s
  end.

Definition strip (s : string) : string := rstrip (lstrip s).

Definition starts_with_digit (s : string) : bool :=
  match s with String c _ => is_digit c | EmptyString => false end.

(** The longest run of digits at the start of [s], most significant first,
    and what follows it.  With [us], one underscore may stand between two
    digits. *)
Fixpoint take_digits (us after_digit : bool) (s : string) : list Z * string :=
  match s with
  | String c r =>
      if is_digit c then
        let (ds, rest) := take_digits us true r in (code c - 48 :: ds, rest)
      else if us && after_digit && Z.eqb (code c) 95 && starts_with_digit r
      then take_digits us false r
      else ([], s)
  | EmptyString => ([], s)
  end.

Definition number (ds : list Z) : Z := fold_left (fun n d => 10 * n + d) ds 0.

(** An optional sign: whether it is a minus, and what follows it. *)
Definition take_sign (s : string) : bool * string :=
  match s with
  | String c r =>
      if Z.eqb (code c) 45 then (true, r)
      else if Z.eqb (code c) 43 then (false, r)
      else (false, s)
  | EmptyString => (false, s)
  end.

(** The limit on the digits of an [int] converted from or to text. *)
Definition max_str_digits : nat := 4300.

(** ** [int] *)

(** [int(s)]: white space, a sign, digits. *)
Definition int_of_str (s : string) : option Z :=
  let (neg, r) := take_sign (strip s) in
  match take_digits true false r with
  | (d :: ds, EmptyString) =>
      if (max_str_digits <? List.length (d :: ds))%nat then None
      else Some (if neg then - number (d :: ds) else number (d :: ds))
  | _ => None
  end.

(** [int(x)]: the integral part of a finite [x]. *)
Definition int_of_float (x : float) : option Z :=
  match Prim2SF x with
  | S754_zero _ => Some 0
  | S754_finite s m e =>
      let n := if Z.leb 0 e then Z.pos m * 2 ^ e else Z.pos m / 2 ^ (- e) in
      Some (if s then - n else n)
  | S754_infinity _ | S754_nan => None
  end.

(** [str(n)] *)
Definition str_of_int (n : Z) : option string :=
  let s := DecimalString.NilZero.string_of_int (Z.to_int n) in
  let digits := if Z.ltb n 0 then (String.length s - 1)%nat else String.length s in
  if (max_str_digits <? digits)%nat then None else Some s.

(** ** [float] *)

(** The double nearest to [m * 10 ^ e], ties to even, for [m > 0]. *)
Definition nearest (neg : bool) (m : positive) (e : Z) : spec_float :=
  if Z.leb 0 e then
    binary_normalize prec emax
      (if neg then Z.neg m * 10 ^ e else Z.pos m * 10 ^ e) 0 false
  else
    SFdiv prec emax (S754_finite neg m 0)
          (S754_finite false (Z.to_pos (10 ^ (- e))) 0).

Definition decimal_to_float (neg : bool) (m : Z) (e : Z) : float :=
  match m with
  | Zpos p => SF2Prim (nearest neg p e)
  | _ => if neg then neg_zero else zero
  end.

(** [float(n)]: the nearest double, unless it is out of range. *)
Definition float_of_int (n : Z) : option float :=
  match binary_normalize prec emax n 0 false with
  | S754_infinity _ => None
  | x => Some (SF2Prim x)
  end.

Definition lower (c : ascii) : ascii :=
  if (65 <=? code c) && (code c <=? 90) then chr (code c + 32) else c.

Fixpoint lowercase (s : string) : string :=
  match s with
  | String c r => String (lower c) (lowercase r)
  | EmptyString => s
  end.

(** The exponent part of a decimal literal: [e], a sign, digits. *)
Definition take_exponent (us : bool) (s : string) : option (Z * string) :=
  match s with
  | String c r =>
      if Z.eqb (code (lower c)) 101 then
        let (neg, r') := take_sign r in
        match take_digits us false r' with
        | (d :: ds, rest) =>
            Some (if neg then - number (d :: ds) else number (d :: ds), rest)
        | _ => None
        end
      else None
  | EmptyString => None
  end.

(** [float(s)]: white space, a sign, then [inf], [infinity], [nan] or a
    decimal literal. *)
Definition float_of_str (s : string) : option float :=
  let (neg, r) := take_sign (strip s) in
  let word := lowercase r in
  if String.eqb word "inf" || String.eqb word "infinity"
  then Some (if neg then neg_infinity else infinity)
  else if String.eqb word "nan" then Some nan
  else
    let (ip, r1) := take_digits true false r in
    let (fp, r2) :=
      match r1 with
      | String c r' =>
          if Z.eqb (code c) 46 then take_digits true false r' else ([], r1)
      | EmptyString => ([], r1)
      end in
    match ip ++ fp with
    | [] => None
    | ds =>
        let frac := Z.of_nat (List.length fp) in
        match r2 with
        | EmptyString => Some (decimal_to_float neg (number ds) (- frac))
        | _ =>
            match take_exponent true r2 with
            | Some (e, EmptyString) =>
                Some (decimal_to_float neg (number ds) (e - frac))
            | _ => None
            end
        end
    end.

(** ** [repr] of a float *)

Fixpoint digits_of (fuel : nat) (n : Z) (acc : string) : string :=
  match fuel with
  | O => acc
  | S fuel' =>
      let acc' := String (chr (48 + n mod 10)) acc in
      if n <? 10 then acc' else digits_of fuel' (n / 10) acc'
  end.

(** The decimal digits of [n >= 0]. *)
Definition decimal (n : Z) : string :=
  digits_of (S (Z.to_nat (Z.log2 n))) n EmptyString.

Fixpoint strip_zeros (s : string) : string :=
  match s with
  | String c r =>
      match strip_zeros r with
      | EmptyString => if Z.eqb (code c) 48 then EmptyString else String c EmptyString
      | r' => String c r'
      end
  | EmptyString => s
  end.

(** [num / den] scaled by [10 ^ (- p)], as a fraction. *)
Definition scaled (num den p : Z) : Z * Z :=
  if Z.leb 0 p then (num, den * 10 ^ p) else (num * 10 ^ (- p), den).

(** The [k] with [10 ^ k <= num / den < 10 ^ (k + 1)], from an estimate. *)
Fixpoint adjust (fuel : nat) (num den k : Z) : Z :=
  match fuel with
  | O => k
  | S fuel' =>
      let (a, b) := scaled num den k in
      if a <? b then adjust fuel' num den (k - 1)
      else if 10 * b <=? a then adjust fuel' num den (k + 1)
      else k
  end.

Definition log10_floor (num den : Z) : Z :=
  adjust 8 num den ((Z.log2 num - Z.log2 den) * 30103 / 100000).

(** The shortest decimal numbers that convert back to the positive double
    [x = num / den], with [n] digits tried first: the digits and the
    position of the decimal point after the first of them. *)
Fixpoint shortest (fuel : nat) (n : Z) (x : float) (num den k : Z)
  : string * Z :=
  let p := k - (n - 1) in
  let (a, b) := scaled num den p in
  let lo := a / b in
  let hi := lo + 1 in
  let ok c := PrimFloat.eqb (decimal_to_float false c p) x in
  let pick c := (strip_zeros (decimal c), if Z.eqb c (10 ^ n) then k + 1 else k) in
  match fuel with
  | O => pick (if 2 * (a mod b) <? b then lo else hi)
  | S fuel' =>
      match ok lo, ok hi with
      | true, true =>
          match 2 * (a mod b) ?= b with
          | Lt => pick lo
          | Gt => pick hi
          | Eq => pick (if Z.even lo then lo else hi)
          end
      | true, false => pick lo
      | false, true => pick hi
      | false, false => shortest fuel' (n + 1) x num den k
      end
  end.

Fixpoint zeros (n : nat) : string :=
  match n with O => EmptyString | S n' => String "0"%char (zeros n') end.

Fixpoint take (n : nat) (s : string) : string :=
  match n, s with
  | S n', String c r => String c (take n' r)
  | _, _ => EmptyString
  end.

Fixpoint drop (n : nat) (s : string) : string :=
  match n, s with
  | S n', String _ r => drop n' r
  | _, _ => s
  end.

(** The digits [ds] with the decimal point after the first [k + 1] of
    them, in the notation [repr] uses. *)
Definition layout (ds : string) (k : Z) : string :=
  let nd := Z.of_nat (String.length ds) in
  if (k <? -4) || (16 <=? k) then
    take 1 ds
    ++ (if 1 <? nd then String "."%char (drop 1 ds) else EmptyString)
    ++ (if k <? 0 then "e-" else "e+")
    ++ (if Z.abs k <? 10 then "0" else "") ++ decimal (Z.abs k)
  else if k <? 0 then
    "0." ++ zeros (Z.to_nat (- k - 1)) ++ ds
  else if nd <=? k + 1 then
    ds ++ zeros (Z.to_nat (k + 1 - nd)) ++ ".0"
  else
    take (Z.to_nat (k + 1)) ds ++ String "."%char (drop (Z.to_nat (k + 1)) ds).

(** [repr(x)], which is [str(x)]. *)
Definition str_of_float (x : float) : string :=
  match Prim2SF x with
  | S754_nan => "nan"
  | S754_infinity s => if s then "-inf" else "inf"
  | S754_zero s => if s then "-0.0" else "0.0"
  | S754_finite s m e =>
      let num := if Z.leb 0 e then Z.pos m * 2 ^ e else Z.pos m in
      let den := if Z.leb 0 e then 1 else 2 ^ (- e) in
      let (ds, k) :=
        shortest 17 1 (PrimFloat.abs x) num den (log10_floor num den) in
      (if s then "-" else "") ++ layout ds k
  end.

(** ** Text as characters *)

(** The code point of one character, given as its UTF-8 bytes. *)
Definition ord (ch : string) : Z :=
  match ch with
  | EmptyString => 0
  | String c EmptyString => code c
  | String c r =>
      let k := Z.of_nat (String.length r) in
      fold_left (fun n b => 64 * n + code b mod 64) (list_ascii_of_string r)
                (code c mod 2 ^ (6 - k))
  end.

(** The UTF-8 bytes of a code point. *)
Definition utf8 (n : Z) : string :=
  let cont x := chr (128 + x mod 64) in
  if n <? 128 then String (chr n) EmptyString
  else if n <? 2048 then
    String (chr (192 + n / 64)) (String (cont n) EmptyString)
  else if n <? 65536 then
    String (chr (224 + n / 4096))
      (String (cont (n / 64)) (String (cont n) EmptyString))
  else
    String (chr (240 + n / 262144))
      (String (cont (n / 4096))
         (String (cont (n / 64)) (String (cont n) EmptyString))).

Definition hex_digit (n : Z) : ascii :=
  if n <? 10 then chr (48 + n) else chr (87 + n).

Definition hex_value (c : ascii) : option Z :=
  let n := code c in
  if (48 <=? n) && (n <=? 57) then Some (n - 48)
  else if (97 <=? n) && (n <=? 102) then Some (n - 87)
  else if (65 <=? n) && (n <=? 70) then Some (n - 55)
  else None.

(** ** [json.dumps] *)

Definition escape_unit (n : Z) : string :=
  String "\"%char
    (String "u"%char
       (String (hex_digit (n / 4096))
          (String (hex_digit (n / 256 mod 16))
             (String (hex_digit (n / 16 mod 16))
                (String (hex_digit (n mod 16)) EmptyString))))).

(** One character of a string literal, with [ensure_ascii]. *)
Definition escape (ch : string) : string :=
  let n := ord ch in
  if n =? 34 then String "\"%char (String (chr 34) EmptyString)
  else if n =? 92 then "\\"
  else if n =? 10 then "\n"
  else if n =? 13 then "\r"
  else if n =? 9 then "\t"
  else if n =? 8 then "\b"
  else if n =? 12 then "\f"
  else if (32 <=? n) && (n <? 127) then ch
  else if n <? 65536 then escape_unit n
  else escape_unit (55296 + (n - 65536) / 1024)
       ++ escape_unit (56320 + (n - 65536) mod 1024).

Definition quote (s : string) : string :=
  String (chr 34) (String.concat "" (map escape (chars s)))
  ++ String (chr 34) EmptyString.

Definition dumps_float (x : float) : string :=
  if PrimFloat.is_nan x then "NaN"
  else if PrimFloat.eqb x infinity then "Infinity"
  else if PrimFloat.eqb x neg_infinity then "-Infinity"
  else str_of_float x.

(** The texts of the items of a container, when each has one. *)
Fixpoint all_some (l : list (option string)) : option (list string) :=
  match l with
  | [] => Some []
  | Some s :: r => option_map (cons s) (all_some r)
  | None :: _ => None
  end.

(** [json.dumps(obj)] with the default separators. *)
Fixpoint json_dumps (obj : json) : option string :=
  match obj with
  | JNull => Some "null"
  | JBool b => Some (if b then "true" else "false")
  | JInt n => str_of_int n
  | JFloat x => Some (dumps_float x)
  | JStr s => Some (quote s)
  | JList l =>
      option_map (fun items => ("[" ++ String.concat ", " items ++ "]")%string)
                 (all_some (map json_dumps l))
  | JDict d =>
      option_map (fun items => ("{" ++ String.concat ", " items ++ "}")%string)
        (all_some
           (map (fun kv =>
                   option_map (fun v => (quote (fst kv) ++ ": " ++ v)%string)
                              (json_dumps (snd kv))) d))
  end.

(** ** [json.loads] *)

Definition is_ws (c : ascii) : bool :=
  let n := code c in (n =? 32) || (n =? 9) || (n =? 10) || (n =? 13).

Fixpoint skip_ws (s : string) : string :=
  match s with
  | String c r => if is_ws c then skip_ws r else s
  | EmptyString => s
  end.

(** What follows the prefix [p] of [s]. *)
Fixpoint after (p s : string) : option string :=
  match p, s with
  | EmptyString, _ => Some s
  | String a p', String b s' => if Ascii.eqb a b then after p' s' else None
  | _, EmptyString => None
  end.

(** Four hexadecimal digits. *)
Definition take_hex4 (s : string) : option (Z * string) :=
  match s with
  | String a (String b (String c (String d r))) =>
      match hex_value a, hex_value b, hex_value c, hex_value d with
      | Some x, Some y, Some z, Some w =>
          Some (4096 * x + 256 * y + 16 * z + w, r)
      | _, _, _, _ => None
      end
  | _ => None
  end.

(** The character a [\u] escape denotes and what follows it: a high
    surrogate followed by the escape of a low one makes one character. *)
Definition take_unicode (s : string) : option (string * string) :=
  match take_hex4 s with
  | Some (u, r) =>
      let single := Some (utf8 u, r) in
      if (55296 <=? u) && (u <=? 56319) then
        match after "\u" r with
        | Some r' =>
            match take_hex4 r' with
            | Some (u2, r'') =>
                if (56320 <=? u2) && (u2 <=? 57343)
                then Some (utf8 (65536 + (1024 * (u - 55296) + (u2 - 56320))), r'')
                else single
            | None => single
            end
        | None => single
        end
      else single
  | None => None
  end.

(** The content of a string literal after its opening quote, and what
    follows its closing quote. *)
Fixpoint scan_string (fuel : nat) (s : string) : option (string * string) :=
  match fuel, s with
  | S fuel', String c r =>
      let n := code c in
      if n =? 34 then Some (EmptyString, r)
      else if n <? 32 then None
      else
        let more (head : string) (rest : string) :=
          match scan_string fuel' rest with
          | Some (body, rest') => Some ((head ++ body)%string, rest')
          | None => None
          end in
        if n =? 92 then
          match r with
          | String e r' =>
              let lit (x : Z) := more (String (chr x) EmptyString) r' in
              let m := code e in
              if m =? 34 then lit 34
              else if m =? 92 then lit 92
              else if m =? 47 then lit 47
              else if m =? 98 then lit 8
              else if m =? 102 then lit 12
              else if m =? 110 then lit 10
              else if m =? 114 then lit 13
              else if m =? 116 then lit 9
              else if m =? 117 then
                match take_unicode r' with
                | Some (ch, r'') => more ch r''
                | None => None
                end
              else None
          | EmptyString => None
          end
        else more (String c EmptyString) r
  | _, _ => None
  end.

(** A number at the start of [s]: the integer part is [0] or starts with
    another digit; a fraction or an exponent makes it a [float]. *)
Definition scan_number (s : string) : option (json * string) :=
  let (neg, r) :=
    match s with
    | String c r' => if code c =? 45 then (true, r') else (false, s)
    | EmptyString => (false, s)
    end in
  let (ip, r1) :=
    match r with
    | String c r' =>
        if code c =? 48 then ([0], r') else take_digits false false r
    | EmptyString => ([], r)
    end in
  match ip with
  | [] => None
  | _ =>
      let (fp, r2) :=
        match r1 with
        | String c r' =>
            if (code c =? 46) && starts_with_digit r'
            then take_digits false false r' else ([], r1)
        | EmptyString => ([], r1)
        end in
      let frac := Z.of_nat (List.length fp) in
      match take_exponent false r2, fp with
      | Some (e, r3), _ =>
          Some (JFloat (decimal_to_float neg (number (ip ++ fp)) (e - frac)), r3)
      | None, _ :: _ =>
          Some (JFloat (decimal_to_float neg (number (ip ++ fp)) (- frac)), r2)
      | None, [] =>
          if (max_str_digits <? List.length ip)%nat then None
          else Some (JInt (if neg then - number ip else number ip), r2)
      end
  end.

(** A value at the start of [s], and what follows it. *)
Fixpoint scan_value (fuel : nat) (s : string) : option (json * string) :=
  match fuel with
  | O => None
  | S fuel' =>
      let constant (word : string) (v : json) (otherwise : option (json * string)) :=
        match after word s with
        | Some r => Some (v, r)
        | None => otherwise
        end in
      match s with
      | EmptyString => None
      | String c r =>
          let n := code c in
          if n =? 34 then
            match scan_string fuel' r with
            | Some (body, r') => Some (JStr body, r')
            | None => None
            end
          else if n =? 91 then
            match skip_ws r with
            | String c' r' =>
                if code c' =? 93 then Some (JList [], r')
                else
                  (fix items (fuel : nat) (s : string) : option (json * string) :=
                     match fuel with
                     | O => None
                     | S fuel' =>
                         match scan_value fuel' s with
                         | Some (v, rest) =>
                             match skip_ws rest with
                             | String d rest' =>
                                 if code d =? 93 then Some (JList [v], rest')
                                 else if code d =? 44 then
                                   match items fuel' (skip_ws rest') with
                                   | Some (JList l, rest'') => Some (JList (v :: l), rest'')
                                   | _ => None
                                   end
                                 else None
                             | EmptyString => None
                             end
                         | None => None
                         end
                     end) fuel' (String c' r')
            | EmptyString => None
            end
          else if n =? 123 then
            match skip_ws r with
            | String c' r' =>
                if code c' =? 125 then Some (JDict [], r')
                else
                  (fix pairs (fuel : nat) (d : list (string * json)) (s : string)
                     : option (json * string) :=
                     match fuel, s with
                     | S (S fuel'), String q s' =>
                         if code q =? 34 then
                           match scan_string fuel' s' with
                           | Some (key, rest) =>
                               match skip_ws rest with
                               | String colon rest' =>
                                   if code colon =? 58 then
                                     match scan_value fuel' (skip_ws rest') with
                                     | Some (v, rest'') =>
                                         match skip_ws rest'' with
                                         | String e rest3 =>
                                             if code e =? 125
                                             then Some (JDict (set key v d), rest3)
                                             else if code e =? 44
                                             then pairs fuel' (set key v d) (skip_ws rest3)
                                             else None
                                         | EmptyString => None
                                         end
                                     | None => None
                                     end
                                   else None
                               | EmptyString => None
                               end
                           | None => None
                           end
                         else None
                     | _, _ => None
                     end) fuel' [] (String c' r')
            | EmptyString => None
            end
          else
            constant "null" JNull
              (constant "true" (JBool true)
                 (constant "false" (JBool false)
                    (match scan_number s with
                     | Some v => Some v
                     | None =>
                         constant "NaN" (JFloat nan)
                           (constant "Infinity" (JFloat infinity)
                              (constant "-Infinity" (JFloat neg_infinity) None))
                     end)))
      end
  end.

(** A document: one value, white space around it, nothing else. *)
Definition scan_document (text : string) : option json :=
  match scan_value (2 * String.length text + 2) (skip_ws text) with
  | Some (v, rest) =>
      match skip_ws rest with
      | EmptyString => Some v
      | _ => None
      end
  | None => None
  end.

(** How deeply the lists and dictionaries of a value nest. *)
Fixpoint depth (v : json) : nat :=
  match v with
  | JList l =>
      S ((fix each (l : list json) : nat :=
            match l with
            | [] => O
            | x :: r => Nat.max (depth x) (each r)
            end) l)
  | JDict d =>
      S ((fix each (d : list (string * json)) : nat :=
            match d with
            | [] => O
            | kv :: r => Nat.max (depth (snd kv)) (each r)
            end) d)
  | _ => O
  end.

(** How deeply the brackets of a text nest outside its string literals:
    the most that are open at once, given how many are open now. *)
Fixpoint nesting (in_string escaped : bool) (open most : nat) (s : string)
  : nat :=
  match s with
  | EmptyString => most
  | String c r =>
      let n := code c in
      if in_string then
        if escaped then nesting true false open most r
        else if n =? 92 then nesting true true open most r
        else if n =? 34 then nesting false false open most r
        else nesting true false open most r
      else if n =? 34 then nesting true false open most r
      else if (n =? 91) || (n =? 123)
      then nesting false false (S open) (Nat.max (S open) most) r
      else if (n =? 93) || (n =? 125)
      then nesting false false (Nat.pred open) most r
      else nesting false false open most r
  end.

(** The nesting that the scanner can follow before the interpreter runs
    out of stack.  It is what is left of the recursion limit of 1000 where
    [json.loads] is called; 900 is taken here. *)
Definition depth_limit : nat := 900.

(** [json.loads(text)] raises [RecursionError]: the document nests deeper
    than the scanner can follow, or the text is no document and its brackets
    do. *)
Definition json_too_deep (text : string) : bool :=
  match scan_document text with
  | Some v => (depth_limit <? depth v)%nat
  | None => (depth_limit <? nesting false false 0 0 text)%nat
  end.

(** [json.loads(text)] *)
Definition json_loads (text : string) : option json :=
  if json_too_deep text then None else scan_document text.

(** ** Bytes as text *)

(** The bytes are UTF-8: every character in its shortest form, no
    surrogate, nothing beyond U+10FFFF. *)
Fixpoint utf8_valid (s : string) : bool :=
  match s with
  | EmptyString => true
  | String a r =>
      let x := code a in
      let cont (c : ascii) := (128 <=? code c) && (code c <=? 191) in
      if x <? 128 then utf8_valid r
      else if (194 <=? x) && (x <=? 223) then
        match r with
        | String b r' => cont b && utf8_valid r'
        | _ => false
        end
      else if (224 <=? x) && (x <=? 239) then
        match r with
        | String b (String c r') =>
            (if x =? 224 then 160 <=? code b else true)
            && (if x =? 237 then code b <=? 159 else true)
            && cont b && cont c && utf8_valid r'
        | _ => false
        end
      else if (240 <=? x) && (x <=? 244) then
        match r with
        | String b (String c (String d r')) =>
            (if x =? 240 then 144 <=? code b else true)
            && (if x =? 244 then code b <=? 143 else true)
            && cont b && cont c && cont d && utf8_valid r'
        | _ => false
        end
      else false
  end.

(** [bytes.decode("utf-8")]: text is kept as its UTF-8 bytes. *)
Definition decode (b : string) : option string :=
  if utf8_valid b then Some b else None.

#[export] Instance builtins : Builtins := {|
  Py.int_of_str := int_of_str;
  Py.int_of_float := int_of_float;
  Py.float_of_int := float_of_int;
  Py.float_of_str := float_of_str;
  Py.str_of_int := str_of_int;
  Py.str_of_float := str_of_float;
  Py.json_loads := json_loads;
  Py.json_too_deep := json_too_deep;
  Py.json_dumps := json_dumps
|}.

End CPython.

(* ================================================================== *)
(** * Notions the properties are stated with *)
(* ================================================================== *)

Module Spec.

Import Pydantic OS main demands_analysis.

(** ** Instances of a model *)

(** [isinstance(v, t)] for a validated value: it has the shape the
    annotation describes.  Nothing is asked of a number but its type. *)
Fixpoint isinstance (t : ty) (v : value) {struct t} : bool :=
  match t, v with
  | int_, VInt _ => true
  | float_, VFloat _ => true
  | str_, VStr _ => true
  | Enum members, VEnum s => existsb (fun m => String.eqb s (snd m)) members
  | List_ elem, VList l => forallb (isinstance elem) l
  | Optional _, VNone => true
  | Optional t', _ => isinstance t' v
  | CamelModel fields, VModel attrs =>
      (fix each (fs : list (string * (ty * default)))
           (attrs : list (string * value)) : bool :=
         match fs, attrs with
         | [], [] => true
         | (name, (ft, _)) :: fs', (n, a) :: attrs' =>
             String.eqb name n && isinstance ft a && each fs' attrs'
         | _, _ => false
         end) fields attrs
  | _, _ => false
  end.

Fixpoint distinct (l : list string) : bool :=
  match l with
  | [] => true
  | a :: r => negb (existsb (String.eqb a) r) && distinct r
  end.

(** A sound declaration: within a model no two fields share an alias, and a
    default is an instance of the annotation of its field. *)
Fixpoint well_formed (t : ty) : bool :=
  match t with
  | int_ | float_ | str_ | Enum _ => true
  | List_ elem => well_formed elem
  | Optional t' => well_formed t'
  | CamelModel fields =>
      distinct (map (fun f => camelize (fst f)) fields)
      && (fix each (fs : list (string * (ty * default))) : bool :=
            match fs with
            | [] => true
            | (_, (ft, d)) :: fs' =>
                well_formed ft
                && match d with
                   | Required => true
                   | Default dv => isinstance ft dv
                   end
                && each fs'
            end) fields
  end.


(** ** Validation, field by field *)

Section Steps.

Context {py : Builtins}.

(** The outcome for one field of a model, and for the fields in order. *)
Definition field_result (kw : list (string * json))
    (f : string * (ty * default)) : result value :=
  match lookup (camelize (fst f)) (fst f) kw, snd (snd f) with
  | Some x, _ => at_loc (Key (camelize (fst f))) (validate (fst (snd f)) x)
  | None, Required =>
      Invalid [mk_error [Key (camelize (fst f))] value_error_missing]
  | None, Default dv => Ok dv
  end.

Fixpoint validate_fields (kw : list (string * json))
    (fs : list (string * (ty * default))) : result (list (string * value)) :=
  match fs with
  | [] => Ok []
  | f :: rest =>
      collect (field_result kw f) (validate_fields kw rest)
              (fun a l => (fst f, a) :: l)
  end.

(** The outcome for the items of a list from index [i] on. *)
Fixpoint validate_items (elem : ty) (i : nat) (items : list json)
  : result (list value) :=
  match items with
  | [] => Ok []
  | x :: rest =>
      collect (at_loc (Idx i) (validate elem x))
              (validate_items elem (S i) rest) cons
  end.

End Steps.

(** The fields of a model and the attributes of an object, side by side. *)
Fixpoint instances (fs : list (string * (ty * default)))
    (attrs : list (string * value)) : bool :=
  match fs, attrs with
  | [], [] => true
  | f :: fs', a :: attrs' =>
      String.eqb (fst f) (fst a) && isinstance (fst (snd f)) (snd a)
      && instances fs' attrs'
  | _, _ => false
  end.

Fixpoint fields_well_formed (fs : list (string * (ty * default))) : bool :=
  match fs with
  | [] => true
  | f :: fs' =>
      well_formed (fst (snd f))
      && match snd (snd f) with
         | Required => true
         | Default dv => isinstance (fst (snd f)) dv
         end
      && fields_well_formed fs'
  end.

(** ** Documents that do not fit a model *)






(** ** The working area *)

(** The path names a node below the directory, for the names as the file
    system resolves them. *)
Definition inside (files : FileSystem) (cwd : node) (directory path : string)
  : bool :=
  match namei files cwd directory, namei files cwd path with
  | inr d, inr p => is_prefix d p && negb (node_eqb d p)
  | _, _ => false
  end.

(** A file name that is a single component of a path: not empty and no
    longer than [NAME_MAX], without separator and without NUL, neither [.]
    nor [..]. *)
Definition plain (name : string) : bool :=
  negb (String.eqb name "") && negb (String.eqb name ".")
  && negb (String.eqb name "..")
  && negb (any_char (Ascii.eqb posixpath.sep) name)
  && negb (embedded_null name)
  && (String.length name <=? NAME_MAX)%nat.

(** ** One operation for both modes *)

Section Operation.

Context {py : Builtins}.
Variable m : Machine.
Variable settings : Settings.

(** The command line of the engine for a mode. *)
Definition command (mode scenario_path results_path : string)
    (consume_resources : bool) : list string :=
  [ "java"; "-jar"; spacenet_path settings; "-h"; mode;
    "-i"; scenario_path; "-o"; results_path;
    if consume_resources then "-c" else "" ].

(** Staging: the content of the upload is written under its file name in
    the working area. *)
Definition stage (tempdir : string) (scenario_file : UploadFile) : M unit :=
  write_file m (posixpath.join tempdir (filename scenario_file))
             (content scenario_file).

(** Invocation and classification of the outcome: a non-zero exit and a
    timeout become status 422, anything else is left as it is. *)
Definition invoke (mode : string) (tempdir : string)
    (scenario_file : UploadFile) (consume_resources : bool) : M string :=
  try_except
    (check_output m
       (command mode (posixpath.join tempdir (filename scenario_file))
                (posixpath.join tempdir "results.json") consume_resources)
       (spacenet_timeout settings))
    (fun e =>
       match e with
       | CalledProcessError _ output => raise (HTTPException 422 output)
       | TimeoutExpired =>
           t <- format (spacenet_timeout settings) ;;
           raise (HTTPException 422 ("Timeout exceeded (" ++ t ++ " s)"))
       | _ => raise e
       end).

(** Reading of the result. *)
Definition read_results (tempdir : string) : M string :=
  read_file m (posixpath.join tempdir "results.json").

(** The analysis operation for a mode selector and a result model: stage,
    invoke, classify and read in a working area, then parse. *)
Definition analyze (mode : string) (model : ty) (scenario_file : UploadFile)
    (consume_resources : bool) : M value :=
  results <-
    TemporaryDirectory m (fun tempdir =>
      stage tempdir scenario_file ;;
      invoke mode tempdir scenario_file consume_resources ;;
      read_results tempdir) ;;
  of_result (parse_raw model results).

End Operation.

(** A computation that starts no process. *)
Definition quiet {A} (c : M A) : Prop :=
  forall w, spawned (snd (c w)) = spawned w.

(** ** The models and their fields *)

(** The model classes of [app/demands_analysis.py]. *)
Definition models : list ty :=
  [ ResourceType; Location; Element; Resource; RawDemand; RawDemandsAnalysis;
    NodeDemand; EdgeDemand; AggregatedDemandsAnalysis ].

(** The alias of a field, and the aliases of the fields of a model. *)
Definition alias (f : string * (ty * default)) : string := camelize (fst f).

Definition aliases (fs : list (string * (ty * default))) : list string :=
  map alias fs.

(** The aliases of the required fields, in declaration order. *)
Fixpoint required (fs : list (string * (ty * default))) : list string :=
  match fs with
  | [] => []
  | (name, (_, Required)) :: rest => camelize name :: required rest
  | (_, (_, Default _)) :: rest => required rest
  end.

(** The object with every field at its default, for the fields that have
    one. *)
Fixpoint default_attrs (fs : list (string * (ty * default)))
  : list (string * value) :=
  match fs with
  | [] => []
  | (_, (_, Required)) :: rest => default_attrs rest
  | (name, (_, Default dv)) :: rest => (name, dv) :: default_attrs rest
  end.

(** Field names that can stand for their aliases: within a model no two
    fields share a name, and the alias of a field is its own name or the
    name of no field. *)
Fixpoint names_apart (t : ty) : bool :=
  match t with
  | int_ | float_ | str_ | Enum _ => true
  | List_ elem => names_apart elem
  | Optional t' => names_apart t'
  | CamelModel fields =>
      distinct (map fst fields)
      && forallb (fun f =>
                    String.eqb (camelize (fst f)) (fst f)
                    || negb (existsb (String.eqb (camelize (fst f)))
                                     (map fst fields))) fields
      && (fix each (fs : list (string * (ty * default))) : bool :=
            match fs with
            | [] => true
            | (_, (ft, _)) :: fs' => names_apart ft && each fs'
            end) fields
  end.

(** ** The endpoints, by mode *)

Section Endpoints.

Context {py : Builtins}.
Variable m : Machine.
Variable settings : Settings.

(** The endpoint for raw demands ([raw = true]) or aggregated demands, its
    mode selector and its result model. *)
Definition endpoint (raw : bool) : UploadFile -> bool -> M value :=
  if raw then analyze_raw_demands m settings
  else analyze_aggregated_demands m settings.

Definition mode_of (raw : bool) : string :=
  if raw then "demands-raw" else "demands-agg".

Definition model_of (raw : bool) : ty :=
  if raw then RawDemandsAnalysis else AggregatedDemandsAnalysis.

(** The paths and the command line of a request that starts on the world
    [w]. *)
Definition scenario_path_of (scenario_file : UploadFile) (w : World) : string :=
  posixpath.join (mkdtemp m (fs w)) (filename scenario_file).

Definition results_path_of (w : World) : string :=
  posixpath.join (mkdtemp m (fs w)) "results.json".

Definition command_of (raw : bool) (scenario_file : UploadFile)
    (consume_resources : bool) (w : World) : list string :=
  [ "java"; "-jar"; spacenet_path settings; "-h"; mode_of raw; "-i";
    scenario_path_of scenario_file w; "-o"; results_path_of w;
    if consume_resources then "-c" else "" ].

(** The working area [d] of a request that starts on [w] is made: the name
    [mkdtemp] picks resolves to [d], where nothing is yet. *)
Definition working_area (w : World) (d : node) : Prop :=
  namei (fs w) (cwd m) (mkdtemp m (fs w)) = inr d
  /\ exists_ (fs w) d = false.

(** The request is staged: the working area is made and the scenario is
    written in it, which leaves the world [w1]. *)
Definition staged_in (scenario_file : UploadFile) (w w1 : World) (d : node)
  : Prop :=
  working_area w d
  /\ write_file m (scenario_path_of scenario_file w) (content scenario_file)
                (with_fs w (mkdir (fs w) d)) = (Return tt, w1).

(** The request gets as far as the engine: it is staged, no argument of the
    command holds a NUL, and the command starts the process [p]. *)
Definition engine_started (raw : bool) (scenario_file : UploadFile)
    (consume_resources : bool) (w w1 : World) (d : node) (p : Process)
  : Prop :=
  staged_in scenario_file w w1 d
  /\ existsb embedded_null
              (command_of raw scenario_file consume_resources w) = false
  /\ run m (command_of raw scenario_file consume_resources w) (fs w1)
     = Some p.

(** What a request raises when the process is still running at the
    deadline of [t] seconds, as the handler of [TimeoutExpired] leaves it:
    status 422 with the timeout in the detail, for a [t] that [str] can
    print. *)
Definition timeout_exceeded (t : Z) : exception :=
  match str_of_int t with
  | Some text => HTTPException 422 ("Timeout exceeded (" ++ text ++ " s)")
  | None => Builtin ValueError
  end.

(** The process ends by itself within the timeout of [t] seconds. *)
Definition in_time (p : Process) (t : Z) : Prop :=
  exists seconds,
    duration p = Some seconds /\ Qle_bool seconds (inject_Z t) = true.

End Endpoints.

End Spec.

(* ================================================================== *)
(** * A machine and documents to run the models on *)
(* ================================================================== *)

Module Demo.

Import Pydantic OS main demands_analysis Spec.

(** A disk with [/tmp], [/etc] and the SpaceNet JAR in [/opt]. *)
Definition disk : FileSystem :=
  {| is_dir := fun p => existsb (node_eqb p) [ []; ["tmp"]; ["etc"]; ["opt"] ];
     file := fun p =>
       if node_eqb p ["opt"; "spacenet.jar"] then Some "PK" else None |}.

(** The argument that follows a flag on a command line. *)
Fixpoint argument (flag : string) (args : list string) : string :=
  match args with
  | a :: rest =>
      if String.eqb a flag then hd "" rest else argument flag rest
  | [] => ""
  end.

(** A process that runs for some seconds, prints [out], exits with [code]
    and, given a [result], leaves it in the file named after [-o].  Killed
    before its end it has written nothing. *)
Definition process (seconds : Q) (code : Z) (out : string)
    (result : option string) (args : list string) (files : FileSystem)
  : Process :=
  {| duration := Some seconds;
     returncode := code;
     output := out;
     fs_exit :=
       match result, namei files [] (argument "-o" args) with
       | Some text, inr p => write files p text
       | _, _ => files
       end;
     fs_killed := fun _ => files |}.

(** An engine that always starts and behaves as [process]. *)
Definition engine (seconds : Q) (code : Z) (out : string)
    (result : option string) (args : list string) (files : FileSystem)
  : option Process :=
  Some (process seconds code out result args files).

Definition machine (run : list string -> FileSystem -> option Process)
  : Machine :=
  {| cwd := []; mkdtemp := fun _ => "/tmp/tmpk3x9"; run := run;
     decode := CPython.decode |}.

Definition boot : World := {| fs := disk; spawned := [] |}.

Definition defaults : Settings :=
  {| spacenet_path := "/opt/spacenet.jar"; spacenet_timeout := EnvInt 10 |}.

(** The environment with a timeout of two seconds. *)
Definition configured : environ :=
  [ ("SPACENET_PATH", "/opt/spacenet.jar"); ("SPACENET_TIMEOUT", "2") ].

(** A ten-byte placeholder scenario. *)
Definition upload (name : string) : UploadFile :=
  {| filename := name; content := "<scenario>" |}.

(** The working area of a request on [boot], and the world once
    [scenario.xml] is staged in it. *)
Definition area : node := ["tmp"; "tmpk3x9"].

Definition staged : World :=
  with_fs (with_fs boot (mkdir disk area))
          (write (mkdir disk area) (area ++ ["scenario.xml"]) "<scenario>").

(** The command line of a raw analysis of [scenario.xml]. *)
Definition raw_command (last : string) : list string :=
  [ "java"; "-jar"; "/opt/spacenet.jar"; "-h"; "demands-raw"; "-i";
    "/tmp/tmpk3x9/scenario.xml"; "-o"; "/tmp/tmpk3x9/results.json"; last ].


(** ** Documents *)

Definition key (k : string) : string := CPython.quote k ++ ": ".

Definition str (s : string) : string := CPython.quote s.

(** [{"demands": []}] *)
Definition no_demands : string := "{" ++ key "demands" ++ "[]}".


Definition location_KSC : string :=
  "{" ++ key "id" ++ "1, " ++ key "name" ++ str "KSC" ++ "}".

(** A resource of 2.5 units of a resource type of the given kind. *)
Definition resource_of_type (kind : string) : string :=
  "{" ++ key "resource"
  ++ "{" ++ key "type" ++ str kind ++ ", " ++ key "name" ++ str "Water"
  ++ ", " ++ key "classOfSupply" ++ "201, "
  ++ key "environment" ++ str "Unpressurized" ++ ", "
  ++ key "units" ++ str "kg" ++ ", " ++ key "unitMass" ++ "1.0, "
  ++ key "unitVolume" ++ "0.125, " ++ key "packingFactor" ++ "0.5}, "
  ++ key "amount" ++ "2.5, " ++ key "mass" ++ "2.5, "
  ++ key "volume" ++ "0.3125}".

(** One raw demand at KSC, of no element, consuming one resource. *)
Definition demands_of (time resource total_mass total_volume : string)
  : string :=
  "{" ++ key "demands" ++ "[{" ++ key "time" ++ time ++ ", "
  ++ key "location" ++ location_KSC ++ ", "
  ++ key "element" ++ "null, "
  ++ key "consumption" ++ "[" ++ resource ++ "], "
  ++ key "production" ++ "[], "
  ++ key "totalMass" ++ total_mass ++ ", "
  ++ key "totalVolume" ++ total_volume ++ "}]}".


(** A result whose time and totals are not finite. *)
Definition not_finite : string :=
  demands_of "NaN" (resource_of_type "Generic") "Infinity" "-Infinity".

(** ** Objects *)

Definition KSC : value := VModel [("id", VInt 1); ("name", VStr "KSC")].

Definition water (kind : string) : value :=
  VModel [
    ("resource",
      VModel [ ("type", VEnum kind); ("name", VStr "Water");
               ("class_of_supply", VInt 201);
               ("environment", VEnum "Unpressurized");
               ("units", VStr "kg"); ("unit_mass", VFloat 1);
               ("unit_volume", VFloat 0.125);
               ("packing_factor", VFloat 0.5) ]);
    ("amount", VFloat 2.5); ("mass", VFloat 2.5);
    ("volume", VFloat 0.3125) ].

(** The analysis with the one raw demand of [demands_of]. *)
Definition demand_at (time : float) (resource : value)
    (total_mass total_volume : float) : value :=
  VModel [
    ("demands",
      VList [ VModel [
        ("time", VFloat time);
        ("location", KSC);
        ("element", VNone);
        ("consumption", VList [resource]);
        ("production", VList []);
        ("total_mass", VFloat total_mass);
        ("total_volume", VFloat total_volume) ] ]) ].

(** Keyword arguments of an edge that arrives before it leaves, with a
    negative total mass and more cargo left than its carriers can hold. *)
Definition impossible_edge : list (string * json) :=
  [ ("start_time", JFloat 5); ("end_time", JFloat 1);
    ("origin", JDict [("id", JInt 1); ("name", JStr "KSC")]);
    ("destination", JDict [("id", JInt 2); ("name", JStr "LEO")]);
    ("location", JDict [("id", JInt 3); ("name", JStr "KSC-LEO")]);
    ("total_mass", JFloat (-1)); ("total_volume", JFloat 0);
    ("max_cargo_mass", JFloat 100); ("net_cargo_mass", JFloat 500);
    ("max_cargo_volume", JFloat 10); ("net_cargo_volume", JFloat 50) ].

(** The edge these arguments describe. *)
Definition overloaded_edge : value :=
  VModel [
    ("start_time", VFloat 5); ("end_time", VFloat 1);
    ("origin", KSC);
    ("destination", VModel [("id", VInt 2); ("name", VStr "LEO")]);
    ("location", VModel [("id", VInt 3); ("name", VStr "KSC-LEO")]);
    ("consumption", VList []); ("production", VList []);
    ("total_mass", VFloat (-1)); ("total_volume", VFloat 0);
    ("max_cargo_mass", VFloat 100); ("net_cargo_mass", VFloat 500);
    ("max_cargo_volume", VFloat 10); ("net_cargo_volume", VFloat 50) ].

(** The attribute of an object that is a float. *)
Definition float_attr (obj : value) (name : string) : float :=
  match getattr obj name with
  | Some (VFloat x) => x
  | _ => nan
  end.

End Demo.

(* ================================================================== *)
(** * Validation, step by step *)
(* ================================================================== *)

Import Pydantic OS main demands_analysis Spec.

Section Validation_facts.

Context {py : Builtins}.

Lemma validate_model_dict fields kw :
  validate (CamelModel fields) (JDict kw)
  = map_result VModel (validate_fields kw fields).
Proof.
  simpl. f_equal.
  induction fields as [|[name [ft d]] rest IH]; simpl; [reflexivity|].
  rewrite IH. reflexivity.
Qed.

Lemma validate_model fields v kw :
  to_kwargs v = IsDict kw ->
  validate (CamelModel fields) v = validate (CamelModel fields) (JDict kw).
Proof.
  intros H. destruct v; try discriminate H.
  - simpl in H. destruct s; [|discriminate H]. injection H as <-.
    reflexivity.
  - cbn [validate]. rewrite H. reflexivity.
  - simpl in H. injection H as <-. reflexivity.
Qed.

Lemma validate_list elem items :
  validate (List_ elem) (JList items)
  = map_result VList (validate_items elem 0 items).
Proof.
  simpl. f_equal. generalize 0%nat.
  induction items as [|x rest IH]; intros i; simpl; [reflexivity|].
  rewrite IH. reflexivity.
Qed.

Lemma validate_optional t v :
  v <> JNull -> validate (Optional t) v = validate t v.
Proof. destruct v; intros H; try reflexivity. contradiction. Qed.

Lemma collect_ok {A B} (r : result A) (rest : result (list B)) add l :
  collect r rest add = Ok l ->
  exists a l', r = Ok a /\ rest = Ok l' /\ l = add a l'.
Proof.
  destruct r as [a|es|e], rest as [l'|es'|e']; simpl; try discriminate.
  intros [= <-]. eauto.
Qed.

End Validation_facts.
(* ================================================================== *)
(** * Instances are what validation accepts *)
(* ================================================================== *)

Section Instances.

Context {py : Builtins}.

(** Induction over annotations, with the property at hand for the
    annotation of every field of a model. *)
Lemma ty_nested_ind (P : ty -> Prop) :
  P int_ -> P float_ -> P str_ ->
  (forall members, P (Enum members)) ->
  (forall elem, P elem -> P (List_ elem)) ->
  (forall t, P t -> P (Optional t)) ->
  (forall fields,
      Forall (fun f => P (fst (snd f))) fields -> P (CamelModel fields)) ->
  forall t, P t.
Proof.
  intros Hint Hfloat Hstr Henum Hlist Hopt Hmodel.
  fix IH 1. intros [ | | | members | elem | t | fields].
  - exact Hint.
  - exact Hfloat.
  - exact Hstr.
  - apply Henum.
  - apply Hlist, IH.
  - apply Hopt, IH.
  - apply Hmodel. revert fields.
    fix IHfields 1. intros [|[name [ft d]] rest].
    + constructor.
    + constructor; [apply IH | apply IHfields].
Qed.

Lemma isinstance_model fields attrs :
  isinstance (CamelModel fields) (VModel attrs) = instances fields attrs.
Proof.
  simpl. revert attrs.
  induction fields as [|[name [ft d]] rest IH]; intros [|[n a] attrs];
    simpl; try reflexivity.
  rewrite IH. reflexivity.
Qed.

Lemma well_formed_model fields :
  well_formed (CamelModel fields)
  = distinct (map (fun f => camelize (fst f)) fields)
    && fields_well_formed fields.
Proof.
  simpl. f_equal.
  induction fields as [|[name [ft d]] rest IH]; simpl; [reflexivity|].
  rewrite IH. reflexivity.
Qed.

Lemma distinct_cons a l :
  distinct (a :: l) = true ->
  (forall b, In b l -> a <> b) /\ distinct l = true.
Proof.
  simpl. intros H. apply andb_prop in H as [Ha Hl]. split; [|exact Hl].
  intros b Hb ->. apply negb_true_iff in Ha.
  assert (existsb (String.eqb b) l = true) as Hex.
  { apply existsb_exists. exists b. split; [exact Hb | apply String.eqb_refl]. }
  congruence.
Qed.

Lemma dict_by_alias_null v : dict_by_alias v = JNull -> v = VNone.
Proof. destruct v; simpl; intros H; congruence. Qed.

(** An object yields, under the alias of each field, the serialised
    attribute of that field. *)
Lemma get_aligned fs attrs :
  instances fs attrs = true ->
  distinct (map (fun f => camelize (fst f)) fs) = true ->
  forall f a, In (f, a) (combine fs attrs) ->
    get (camelize (fst f))
        (map (fun a => (camelize (fst a), dict_by_alias (snd a))) attrs)
    = Some (dict_by_alias (snd a)).
Proof.
  revert attrs.
  induction fs as [|f0 rest IH]; intros [|a0 attrs] Hinst Hd f a Hin;
    simpl in *; try contradiction; try discriminate.
  apply andb_prop in Hinst as [Hinst Hrest].
  apply andb_prop in Hinst as [Hname _].
  apply String.eqb_eq in Hname.
  change (negb (existsb (String.eqb (camelize (fst f0)))
                        (map (fun f => camelize (fst f)) rest))
          && distinct (map (fun f => camelize (fst f)) rest) = true) in Hd.
  pose proof (distinct_cons _ _ Hd) as [Hfresh Hd'].
  destruct Hin as [[= <- <-]|Hin].
  - rewrite Hname, String.eqb_refl. reflexivity.
  - assert (camelize (fst f) <> camelize (fst a0)) as Hne.
    { rewrite <- Hname. intros E. apply (Hfresh (camelize (fst f))); [|auto].
      apply in_map_iff. exists f. split; [reflexivity|].
      apply in_combine_l in Hin. exact Hin. }
    apply String.eqb_neq in Hne. rewrite Hne.
    apply IH; assumption.
Qed.

Lemma fields_roundtrip kw fs attrs :
  Forall (fun f => forall v, isinstance (fst (snd f)) v = true ->
                             validate (fst (snd f)) (dict_by_alias v) = Ok v) fs ->
  instances fs attrs = true ->
  (forall f a, In (f, a) (combine fs attrs) ->
     get (camelize (fst f)) kw = Some (dict_by_alias (snd a))) ->
  validate_fields kw fs = Ok attrs.
Proof.
  intros Hall. revert attrs.
  induction Hall as [|f rest Hf _ IH]; intros [|[n x] attrs] Hinst Hget;
    simpl in *; try discriminate; [reflexivity|].
  apply andb_prop in Hinst as [Hinst Hrest].
  apply andb_prop in Hinst as [Hname Hx].
  apply String.eqb_eq in Hname.
  unfold field_result, lookup.
  rewrite (Hget f (n, x) (or_introl eq_refl)). simpl.
  rewrite (Hf x Hx). simpl.
  rewrite (IH attrs Hrest (fun f' a' H => Hget f' a' (or_intror H))).
  simpl. rewrite Hname. reflexivity.
Qed.

Lemma items_roundtrip elem l :
  (forall v, isinstance elem v = true ->
             validate elem (dict_by_alias v) = Ok v) ->
  forallb (isinstance elem) l = true ->
  forall i, validate_items elem i (map dict_by_alias l) = Ok l.
Proof.
  intros Helem. induction l as [|x l IH]; intros Hall i; simpl in *;
    [reflexivity|].
  apply andb_prop in Hall as [Hx Hl].
  rewrite (Helem x Hx). simpl. rewrite (IH Hl). reflexivity.
Qed.

Lemma fields_well_formed_forall fs (P : ty -> Prop) :
  Forall (fun f => well_formed (fst (snd f)) = true -> P (fst (snd f))) fs ->
  fields_well_formed fs = true ->
  Forall (fun f => P (fst (snd f))) fs.
Proof.
  induction 1 as [|f rest Hf _ IH]; simpl; intros H; constructor.
  - apply Hf. apply andb_prop in H as [H _]. apply andb_prop in H as [H _].
    exact H.
  - apply IH. apply andb_prop in H as [_ H]. exact H.
Qed.

(** Validating the serialisation of an instance gives the instance back,
    whatever numbers it holds. *)
Lemma validate_dict_by_alias t :
  well_formed t = true ->
  forall v, isinstance t v = true -> validate t (dict_by_alias v) = Ok v.
Proof.
  induction t as [ | | | members | elem IH | t IH | fields IH]
    using ty_nested_ind; intros Hwf v Hv.
  - destruct v; try discriminate Hv. reflexivity.
  - destruct v; try discriminate Hv. reflexivity.
  - destruct v; try discriminate Hv. reflexivity.
  - destruct v; try discriminate Hv. simpl in *. rewrite Hv. reflexivity.
  - destruct v as [ | | | | | l | ]; try discriminate Hv.
    cbn [dict_by_alias]. rewrite validate_list.
    rewrite (items_roundtrip elem l (IH Hwf) Hv). reflexivity.
  - destruct v; try reflexivity;
      (rewrite validate_optional; [apply (IH Hwf), Hv | discriminate]).
  - destruct v as [ | | | | | | attrs]; try discriminate Hv.
    rewrite isinstance_model in Hv. rewrite well_formed_model in Hwf.
    apply andb_prop in Hwf as [Hd Hfs].
    cbn [dict_by_alias]. rewrite validate_model_dict.
    rewrite (fields_roundtrip _ fields attrs); [reflexivity| |exact Hv|].
    + apply (fields_well_formed_forall fields
               (fun t => forall v, isinstance t v = true ->
                                   validate t (dict_by_alias v) = Ok v));
        assumption.
    + apply get_aligned; assumption.
Qed.

End Instances.

Section Constructed.

Context {py : Builtins}.

Lemma at_loc_ok {A} i (r : result A) a : at_loc i r = Ok a -> r = Ok a.
Proof. destruct r; simpl; intros H; try discriminate H; exact H. Qed.

Lemma map_result_ok {A B} (f : A -> B) r b :
  map_result f r = Ok b -> exists a, r = Ok a /\ b = f a.
Proof. destruct r; simpl; intros [=]; eauto. Qed.

Lemma of_option_ok {A} t (o : option A) a :
  of_option t o = Ok a -> o = Some a.
Proof. destruct o; simpl; intros H; try discriminate H. injection H as <-. reflexivity. Qed.

Lemma option_map_some {A B} (f : A -> B) o b :
  option_map f o = Some b -> exists a, o = Some a /\ b = f a.
Proof. destruct o; simpl; intros [=]; eauto. Qed.

(** What a model accepts is a dictionary, or what [dict] turns into one. *)
Lemma validate_model_ok fields j v :
  validate (CamelModel fields) j = Ok v ->
  exists kw attrs,
    to_kwargs j = IsDict kw /\ validate_fields kw fields = Ok attrs
    /\ v = VModel attrs.
Proof.
  intros H.
  destruct (to_kwargs j) as [kw| |] eqn:E.
  - rewrite (validate_model fields j kw E), validate_model_dict in H.
    apply map_result_ok in H as (attrs & H & ->). eauto.
  - destruct j; try discriminate E; cbn [validate] in H; rewrite E in H;
      discriminate H.
  - destruct j; try discriminate H; cbn [validate] in H; rewrite E in H;
      discriminate H.
Qed.

Lemma validate_list_ok elem j v :
  validate (List_ elem) j = Ok v ->
  exists items l,
    j = JList items /\ validate_items elem 0 items = Ok l /\ v = VList l.
Proof.
  intros H. destruct j; try discriminate H.
  rewrite validate_list in H.
  apply map_result_ok in H as (l' & H & ->). eauto.
Qed.

Lemma items_instances elem :
  (forall j v, validate elem j = Ok v -> isinstance elem v = true) ->
  forall items i l,
    validate_items elem i items = Ok l -> forallb (isinstance elem) l = true.
Proof.
  intros Helem. induction items as [|x rest IH]; intros i l H; simpl in H.
  - injection H as <-. reflexivity.
  - apply collect_ok in H as (a & l' & Ha & Hl & ->).
    apply at_loc_ok in Ha. simpl.
    rewrite (Helem _ _ Ha), (IH _ _ Hl). reflexivity.
Qed.

Lemma fields_instances kw fs :
  Forall (fun f => forall j v, validate (fst (snd f)) j = Ok v ->
                               isinstance (fst (snd f)) v = true) fs ->
  fields_well_formed fs = true ->
  forall attrs, validate_fields kw fs = Ok attrs -> instances fs attrs = true.
Proof.
  induction 1 as [|f rest Hf _ IH]; intros Hwf attrs H; simpl in H.
  - injection H as <-. reflexivity.
  - simpl in Hwf. apply andb_prop in Hwf as [Hwf Hrest].
    apply andb_prop in Hwf as [_ Hdefault].
    apply collect_ok in H as (a & l' & Ha & Hl & ->). simpl.
    rewrite String.eqb_refl, (IH Hrest _ Hl), andb_true_r. simpl.
    unfold field_result in Ha.
    destruct (lookup (camelize (fst f)) (fst f) kw) as [x|].
    + apply at_loc_ok in Ha. exact (Hf _ _ Ha).
    + destruct (snd (snd f)) as [|dv]; [discriminate Ha|].
      injection Ha as <-. exact Hdefault.
Qed.

(** What validation returns is an instance of the annotation. *)
Lemma validate_isinstance t :
  well_formed t = true ->
  forall j v, validate t j = Ok v -> isinstance t v = true.
Proof.
  induction t as [ | | | members | elem IH | t IH | fields IH]
    using ty_nested_ind; intros Hwf j v H.
  - destruct j; simpl in H; try discriminate H.
    + injection H as <-. reflexivity.
    + injection H as <-. reflexivity.
    + apply of_option_ok, option_map_some in H as (n & _ & ->). reflexivity.
    + destruct (4300 <? len s)%nat; [discriminate H|].
      apply of_option_ok, option_map_some in H as (n & _ & ->). reflexivity.
  - destruct j; simpl in H; try discriminate H.
    + injection H as <-. reflexivity.
    + destruct (float_of_int n); [|discriminate H].
      injection H as <-. reflexivity.
    + injection H as <-. reflexivity.
    + apply of_option_ok, option_map_some in H as (x & _ & ->). reflexivity.
  - destruct j; simpl in H; try discriminate H.
    + injection H as <-. reflexivity.
    + apply of_option_ok, option_map_some in H as (x & _ & ->). reflexivity.
    + injection H as <-. reflexivity.
    + injection H as <-. reflexivity.
  - destruct j; simpl in H; try discriminate H.
    destruct (existsb _ members) eqn:E; [|discriminate H].
    injection H as <-. exact E.
  - apply validate_list_ok in H as (items & l & -> & H & ->).
    simpl. exact (items_instances elem (IH Hwf) _ _ _ H).
  - destruct j;
      try (rewrite validate_optional in H by discriminate;
           apply (IH Hwf) in H; destruct v; try reflexivity; exact H).
    simpl in H. injection H as <-. reflexivity.
  - apply validate_model_ok in H as (kw & attrs & _ & H & ->).
    rewrite isinstance_model. rewrite well_formed_model in Hwf.
    apply andb_prop in Hwf as [_ Hfs].
    refine (fields_instances kw fields _ Hfs attrs H).
    apply (fields_well_formed_forall fields
             (fun t => forall j v, validate t j = Ok v -> isinstance t v = true));
      assumption.
Qed.

(** ** Equality of an instance with itself *)





End Constructed.

(* ================================================================== *)
(** * Documents that are refused *)
(* ================================================================== *)

Section Refusal.

Context {py : Builtins}.










End Refusal.

(* ================================================================== *)
(** * The conversions on examples

    What [humps.camelize] and CPython 3.11 return on the same inputs. *)
(* ================================================================== *)

Import Demo.

(** The aliases of the fields of the models. *)
Example aliases_of_fields :
  map camelize
    [ "type"; "name"; "class_of_supply"; "environment"; "units"; "unit_mass";
      "unit_volume"; "packing_factor"; "id"; "resource"; "amount"; "mass";
      "volume"; "time"; "location"; "element"; "consumption"; "production";
      "total_mass"; "total_volume"; "demands"; "start_time"; "end_time";
      "origin"; "destination"; "max_cargo_mass"; "net_cargo_mass";
      "max_cargo_volume"; "net_cargo_volume"; "nodes"; "edges" ]
  = [ "type"; "name"; "classOfSupply"; "environment"; "units"; "unitMass";
      "unitVolume"; "packingFactor"; "id"; "resource"; "amount"; "mass";
      "volume"; "time"; "location"; "element"; "consumption"; "production";
      "totalMass"; "totalVolume"; "demands"; "startTime"; "endTime";
      "origin"; "destination"; "maxCargoMass"; "netCargoMass";
      "maxCargoVolume"; "netCargoVolume"; "nodes"; "edges" ].
Proof. vm_compute. reflexivity. Qed.

Example int_of_str_examples :
  map CPython.int_of_str [ " +1_000 "; "-0"; "1__0"; "0x10"; ""; "12a" ]
  = [ Some 1000; Some 0; None; None; None; None ].
Proof. vm_compute. reflexivity. Qed.

Example float_of_str_examples :
  map CPython.float_of_str
    [ "0.1"; "1e400"; "-inf"; " 1_0.5 "; ".5"; "5."; "Infinity"; "1e-400";
      "1e"; "0x1p3" ]
  = [ Some 0x1.999999999999ap-4%float; Some infinity; Some neg_infinity;
      Some 10.5%float; Some 0.5%float; Some 5%float; Some infinity;
      Some 0%float; None; None ].
Proof. vm_compute. reflexivity. Qed.

Example str_of_float_examples :
  map CPython.str_of_float
    [ 0x1.999999999999ap-4; 0x1.1c37937e08p+53; 0x1.0f0cf064dd592p+73;
      0x1.a36e2eb1c432dp-14; 0x1.4f8b588e368f1p-17; 0x1.b69b4ba630f35p+56;
      0x0.0000000000001p-1022; (-0); 0x1.fffffffffffffp+1023; 2.5;
      0x1.5555555555555p-2; nan; neg_infinity ]%float
  = [ "0.1"; "1e+16"; "1e+22"; "0.0001"; "1e-05"; "1.2345678901234568e+17";
      "5e-324"; "-0.0"; "1.7976931348623157e+308"; "2.5";
      "0.3333333333333333"; "nan"; "-inf" ].
Proof. vm_compute. reflexivity. Qed.

(** [{"a": [1, 2.5, "x", null, true], "b": {}, "a": -Infinity}]: the last
    value of a repeated key stays, at the place of the first. *)
Example json_loads_examples :
  CPython.json_loads
    ("{" ++ key "a" ++ "[1, 2.5, " ++ str "x" ++ ", null, true], "
     ++ key "b" ++ "{}, " ++ key "a" ++ "-Infinity}")%string
  = Some (JDict [("a", JFloat neg_infinity); ("b", JDict [])])
  /\ map CPython.json_loads
       [ " [1]  "; "1e5"; "-0"; "[1,]"; "01"; "1."; ".5"; "+1"; "nan";
         "[1] x"; "" ]
     = [ Some (JList [JInt 1]); Some (JFloat 100000); Some (JInt 0);
         None; None; None; None; None; None; None; None ].
Proof. vm_compute. split; reflexivity. Qed.

Example json_dumps_examples :
  CPython.json_dumps
    (JDict [("a", JList [JInt 1; JFloat 2.5; JStr "x"; JNull; JBool true;
                         JFloat nan]);
            ("b", JDict [])])
  = Some ("{" ++ key "a" ++ "[1, 2.5, " ++ str "x" ++ ", null, true, NaN], "
          ++ key "b" ++ "{}}")%string.
Proof. vm_compute. reflexivity. Qed.

(* ================================================================== *)
(** * The models of app/demands_analysis.py *)
(* ================================================================== *)

Lemma models_well_formed :
  forallb well_formed
    [ ResourceType; Location; Element; Resource; RawDemand;
      RawDemandsAnalysis; NodeDemand; EdgeDemand;
      AggregatedDemandsAnalysis ] = true.
Proof. vm_compute. reflexivity. Qed.

Lemma listed_well_formed cls l :
  forallb well_formed l = true -> In cls l -> well_formed cls = true.
Proof. intros H Hin. exact (proj1 (forallb_forall _ _) H cls Hin). Qed.

(** An instance of a model is a dictionary when serialised, and both
    constructing from it and parsing it give the instance. *)
Lemma construct_dict_by_alias {py : Builtins} fields v :
  well_formed (CamelModel fields) = true ->
  isinstance (CamelModel fields) v = true ->
  exists kw,
    dict_by_alias v = JDict kw
    /\ construct (CamelModel fields) kw = Ok v
    /\ parse_obj (CamelModel fields) (dict_by_alias v) = Ok v.
Proof.
  intros Hwf Hv.
  pose proof (validate_dict_by_alias _ Hwf v Hv) as H.
  destruct v as [ | | | | | | attrs]; try discriminate Hv.
  eexists. split; [reflexivity|]. split; exact H.
Qed.

(** ** Construction *)

(** C1 (amended).  Construction checks no range and no order.  Every
    instance of [ResourceType], [Resource], [RawDemand], [NodeDemand] or
    [EdgeDemand] is constructed from its own field values and comes out
    unchanged, whatever its numbers are: [isinstance] asks of a mass, a
    volume, an amount, a time or a cargo capacity only that it is a float,
    so negative masses, an end before the start and more cargo left than
    the carriers hold are all constructed. *)
Theorem construction_checks_no_range (py : Builtins) (cls : ty) (v : value) :
  In cls [ResourceType; Resource; RawDemand; NodeDemand; EdgeDemand] ->
  isinstance cls v = true ->
  exists kw, dict_by_alias v = JDict kw /\ construct cls kw = Ok v.
Proof.
  intros Hcls Hv.
  assert (well_formed cls = true) as Hwf.
  { apply (listed_well_formed cls _ models_well_formed).
    simpl in *. intuition. }
  simpl in Hcls.
  destruct Hcls as [<-|[<-|[<-|[<-|[<-|[]]]]]];
    destruct (construct_dict_by_alias _ v Hwf Hv) as (kw & Hkw & Hc & _);
    exists kw; split; assumption.
Qed.

Lemma construction_checks_no_range_witness :
  In EdgeDemand [ResourceType; Resource; RawDemand; NodeDemand; EdgeDemand]
  /\ isinstance EdgeDemand overloaded_edge = true
  /\ exists kw,
       dict_by_alias overloaded_edge = JDict kw
       /\ @construct CPython.builtins EdgeDemand kw = Ok overloaded_edge.
Proof.
  assert (In EdgeDemand
            [ResourceType; Resource; RawDemand; NodeDemand; EdgeDemand]) as H1
    by (simpl; tauto).
  assert (isinstance EdgeDemand overloaded_edge = true) as H2
    by (vm_compute; reflexivity).
  split; [exact H1|]. split; [exact H2|].
  exact (construction_checks_no_range CPython.builtins EdgeDemand
           overloaded_edge H1 H2).
Defined.

(** C1, as stated, fails: an [EdgeDemand] with a negative total mass, with
    [end_time < start_time] and with [net_cargo > max_cargo] for mass and
    volume is constructed. *)
Lemma impossible_edge_is_constructed :
  @construct CPython.builtins EdgeDemand impossible_edge = Ok overloaded_edge
  /\ PrimFloat.ltb (float_attr overloaded_edge "total_mass") 0 = true
  /\ PrimFloat.ltb (float_attr overloaded_edge "end_time")
                   (float_attr overloaded_edge "start_time") = true
  /\ PrimFloat.leb (float_attr overloaded_edge "net_cargo_mass")
                   (float_attr overloaded_edge "max_cargo_mass") = false
  /\ PrimFloat.leb (float_attr overloaded_edge "net_cargo_volume")
                   (float_attr overloaded_edge "max_cargo_volume") = false.
Proof. vm_compute. repeat split; reflexivity. Qed.

(** ** Decoding *)

Section Escapes.

Context {py : Builtins}.













End Escapes.





(** C6 (amended).  Numbers that are not finite are accepted.  Engine
    output that is the serialisation of an instance of the result model
    parses into that instance, whatever floats the instance holds: NaN and
    the two infinities are carried into the domain object like any other
    float. *)
Theorem non_finite_numbers_are_kept (py : Builtins) (cls : ty) (v : value)
    (text : string) :
  In cls [RawDemandsAnalysis; AggregatedDemandsAnalysis] ->
  isinstance cls v = true ->
  json_loads text = Some (dict_by_alias v) ->
  parse_raw cls text = Ok v.
Proof.
  intros Hcls Hv Hloads. unfold parse_raw. rewrite Hloads.
  assert (well_formed cls = true) as Hwf.
  { apply (listed_well_formed cls _ models_well_formed).
    simpl in *. intuition. }
  simpl in Hcls. destruct Hcls as [<-|[<-|[]]];
    destruct (construct_dict_by_alias _ v Hwf Hv) as (kw & _ & _ & H);
    exact H.
Qed.

Lemma non_finite_numbers_are_kept_witness :
  In RawDemandsAnalysis [RawDemandsAnalysis; AggregatedDemandsAnalysis]
  /\ isinstance RawDemandsAnalysis
       (demand_at nan (water "Generic") infinity neg_infinity) = true
  /\ @json_loads CPython.builtins not_finite
     = Some (dict_by_alias
               (demand_at nan (water "Generic") infinity neg_infinity))
  /\ @parse_raw CPython.builtins RawDemandsAnalysis not_finite
     = Ok (demand_at nan (water "Generic") infinity neg_infinity).
Proof.
  assert (In RawDemandsAnalysis
            [RawDemandsAnalysis; AggregatedDemandsAnalysis]) as H1
    by (simpl; tauto).
  assert (isinstance RawDemandsAnalysis
            (demand_at nan (water "Generic") infinity neg_infinity) = true)
    as H2 by (vm_compute; reflexivity).
  assert (@json_loads CPython.builtins not_finite
          = Some (dict_by_alias
                    (demand_at nan (water "Generic") infinity neg_infinity)))
    as H3 by (vm_compute; reflexivity).
  split; [exact H1|]. split; [exact H2|]. split; [exact H3|].
  exact (non_finite_numbers_are_kept CPython.builtins RawDemandsAnalysis
           _ not_finite H1 H2 H3).
Defined.

(** C6, as stated, fails: engine output with NaN as time and infinite
    totals parses into a demand that carries them. *)
Lemma not_finite_is_parsed :
  exists demand,
    @parse_raw CPython.builtins RawDemandsAnalysis not_finite
    = Ok (VModel [("demands", VList [demand])])
    /\ PrimFloat.is_nan (float_attr demand "time") = true
    /\ float_attr demand "total_mass" = infinity
    /\ float_attr demand "total_volume" = neg_infinity.
Proof. eexists. vm_compute. repeat split; reflexivity. Qed.




(** C9.  Absent fields take their defaults.  The text [{}] parses into a
    [RawDemandsAnalysis] without demands and into an
    [AggregatedDemandsAnalysis] without nodes and edges.  In a [RawDemand]
    that is constructed, a missing [element] is [None] and a missing
    [consumption] or [production] is the empty list; a record with none of
    the three is constructed. *)
Theorem absent_fields_take_defaults (py : Builtins) (text : string) :
  json_loads text = Some (JDict []) ->
  parse_raw RawDemandsAnalysis text = Ok (VModel [("demands", VList [])])
  /\ parse_raw AggregatedDemandsAnalysis text
     = Ok (VModel [("nodes", VList []); ("edges", VList [])])
  /\ (forall kw v,
        parse_obj RawDemand (JDict kw) = Ok v ->
        (get "element" kw = None -> getattr v "element" = Some VNone)
        /\ (get "consumption" kw = None ->
            getattr v "consumption" = Some (VList []))
        /\ (get "production" kw = None ->
            getattr v "production" = Some (VList [])))
  /\ (forall (time total_mass total_volume : float) (id : Z) (name : string),
        parse_obj RawDemand
          (JDict [ ("time", JFloat time);
                   ("location", JDict [("id", JInt id); ("name", JStr name)]);
                   ("totalMass", JFloat total_mass);
                   ("totalVolume", JFloat total_volume) ])
        = Ok (VModel [ ("time", VFloat time);
                       ("location",
                         VModel [("id", VInt id); ("name", VStr name)]);
                       ("element", VNone);
                       ("consumption", VList []);
                       ("production", VList []);
                       ("total_mass", VFloat total_mass);
                       ("total_volume", VFloat total_volume) ])).
Proof.
  intros Hloads. unfold parse_raw. rewrite Hloads.
  split; [reflexivity|]. split; [reflexivity|]. split.
  - intros kw v H. unfold parse_obj, construct in H. simpl to_kwargs in H.
    unfold RawDemand in H. rewrite validate_model_dict in H.
    apply map_result_ok in H as (attrs & H & ->).
    cbn [validate_fields] in H.
    repeat (apply collect_ok in H as (? & ? & ? & H & ->)).
    injection H as <-.
    repeat match goal with
           | E : field_result _ _ = Ok _ |- _ =>
               unfold field_result, field, lookup in E; cbn [fst snd] in E
           end.
    change (camelize "element") with "element" in *.
    change (camelize "consumption") with "consumption" in *.
    change (camelize "production") with "production" in *.
    repeat split; intros Hget;
      match goal with
      | E : context [get _ kw] |- _ =>
          rewrite Hget in E; injection E as <-; reflexivity
      end.
  - intros. reflexivity.
Qed.

Lemma absent_fields_take_defaults_witness :
  @json_loads CPython.builtins "{}" = Some (JDict [])
  /\ @parse_raw CPython.builtins RawDemandsAnalysis "{}"
     = Ok (VModel [("demands", VList [])])
  /\ @parse_raw CPython.builtins AggregatedDemandsAnalysis "{}"
     = Ok (VModel [("nodes", VList []); ("edges", VList [])]).
Proof.
  assert (@json_loads CPython.builtins "{}" = Some (JDict [])) as H
    by (vm_compute; reflexivity).
  split; [exact H|].
  pose proof (absent_fields_take_defaults CPython.builtins "{}" H)
    as (H1 & H2 & _).
  split; [exact H1 | exact H2].
Defined.

(* ================================================================== *)
(** * The endpoints of app/main.py *)
(* ================================================================== *)

(** ** Both endpoints are one operation *)

Lemma analyze_raw_demands_eq {py : Builtins} m settings :
  analyze_raw_demands m settings
  = analyze m settings "demands-raw" RawDemandsAnalysis.
Proof. reflexivity. Qed.

Lemma analyze_aggregated_demands_eq {py : Builtins} m settings :
  analyze_aggregated_demands m settings
  = analyze m settings "demands-agg" AggregatedDemandsAnalysis.
Proof. reflexivity. Qed.

(** C10.  The two endpoints are the same operation, [analyze]: the same
    staging, invocation, classification of the outcome and reading of the
    result, for the mode selector [demands-raw] and the model
    [RawDemandsAnalysis] in one, [demands-agg] and
    [AggregatedDemandsAnalysis] in the other. *)
Theorem endpoints_differ_in_mode_and_model (py : Builtins) (m : Machine)
    (settings : Settings) (scenario_file : UploadFile)
    (consume_resources : bool) :
  analyze_raw_demands m settings scenario_file consume_resources
  = analyze m settings "demands-raw" RawDemandsAnalysis
            scenario_file consume_resources
  /\ analyze_aggregated_demands m settings scenario_file consume_resources
     = analyze m settings "demands-agg" AggregatedDemandsAnalysis
               scenario_file consume_resources.
Proof.
  rewrite analyze_raw_demands_eq, analyze_aggregated_demands_eq.
  split; reflexivity.
Qed.

(** ** The command line *)

Section Commands.

Context {py : Builtins}.
Variable m : Machine.
Variable settings : Settings.

Lemma quiet_ret {A} (a : A) : quiet (ret a).
Proof. intros w. reflexivity. Qed.

Lemma quiet_raise {A} e : quiet (@raise A e).
Proof. intros w. reflexivity. Qed.

Lemma quiet_bind {A B} (c : M A) (k : A -> M B) :
  quiet c -> (forall a, quiet (k a)) -> quiet (bind c k).
Proof.
  intros Hc Hk w. unfold bind. specialize (Hc w).
  destruct (c w) as [[a|e] w']; simpl in *; [|exact Hc].
  rewrite (Hk a w'). exact Hc.
Qed.

Lemma quiet_write_file path data : quiet (write_file m path data).
Proof.
  intros w. unfold write_file.
  destruct (embedded_null path); [reflexivity|].
  destruct (posixpath.endswith_sep path); [reflexivity|].
  destruct (namei (fs w) (cwd m) path) as [e|p]; [reflexivity|].
  destruct (is_dir (fs w) p); reflexivity.
Qed.

Lemma quiet_read_file path : quiet (read_file m path).
Proof.
  intros w. unfold read_file.
  destruct (embedded_null path); [reflexivity|].
  destruct (namei (fs w) (cwd m) path) as [e|p]; [reflexivity|].
  destruct (file (fs w) p) as [data|]; [|reflexivity].
  destruct (decode m data); reflexivity.
Qed.

Lemma quiet_format v : quiet (format v).
Proof.
  destruct v as [s|n]; simpl; [apply quiet_ret|].
  destruct (str_of_int n); [apply quiet_ret | apply quiet_raise].
Qed.

Lemma quiet_of_result {A} (r : result A) : quiet (of_result r).
Proof. destruct r; simpl; [apply quiet_ret | apply quiet_raise ..]. Qed.

(** [check_output] starts the process of its arguments, or none. *)
Lemma check_output_spawned args timeout w :
  spawned (snd (check_output m args timeout w)) = spawned w
  \/ spawned (snd (check_output m args timeout w)) = spawned w ++ [args].
Proof.
  unfold check_output.
  destruct (existsb embedded_null args); [left; reflexivity|].
  destruct (run m args (fs w)) as [p|]; [|left; reflexivity].
  destruct timeout as [s|t]; [right; reflexivity|].
  destruct (duration p) as [d|]; [|right; reflexivity].
  destruct (Qle_bool d (inject_Z t)); [|right; reflexivity].
  destruct (Z.eqb (returncode p) 0); right; reflexivity.
Qed.

Lemma invoke_spawned mode tempdir scenario_file consume_resources w :
  let args :=
    command settings mode
      (posixpath.join tempdir (filename scenario_file))
      (posixpath.join tempdir "results.json") consume_resources in
  spawned (snd (invoke m settings mode tempdir scenario_file
                       consume_resources w)) = spawned w
  \/ spawned (snd (invoke m settings mode tempdir scenario_file
                          consume_resources w)) = spawned w ++ [args].
Proof.
  intros args. unfold invoke, try_except. fold args.
  destruct (check_output_spawned args (spacenet_timeout settings) w) as [H|H];
    destruct (check_output m args (spacenet_timeout settings) w)
      as [[out|e] w'] eqn:E; simpl in H;
    try (left; exact H); try (right; exact H).
  - left. destruct e; simpl; try exact H.
    rewrite (quiet_bind (format (spacenet_timeout settings)) _
               (quiet_format _) (fun _ => quiet_raise _) w').
    exact H.
  - right. destruct e; simpl; try exact H.
    rewrite (quiet_bind (format (spacenet_timeout settings)) _
               (quiet_format _) (fun _ => quiet_raise _) w').
    exact H.
Qed.

Lemma analyze_spawned mode model scenario_file consume_resources w :
  let tempdir := mkdtemp m (fs w) in
  let args :=
    command settings mode
      (posixpath.join tempdir (filename scenario_file))
      (posixpath.join tempdir "results.json") consume_resources in
  spawned (snd (analyze m settings mode model scenario_file
                        consume_resources w)) = spawned w
  \/ spawned (snd (analyze m settings mode model scenario_file
                           consume_resources w)) = spawned w ++ [args].
Proof.
  intros tempdir args. unfold analyze.
  set (body := fun tempdir : string =>
                 bind (stage m tempdir scenario_file)
                   (fun _ => bind (invoke m settings mode tempdir scenario_file
                                          consume_resources)
                               (fun _ => read_results m tempdir))).
  assert (forall w0,
             spawned (snd (body tempdir w0)) = spawned w0
             \/ spawned (snd (body tempdir w0)) = spawned w0 ++ [args]) as Hbody.
  { intros w0. unfold body, bind, stage, read_results.
    pose proof (quiet_write_file
                  (posixpath.join tempdir (filename scenario_file))
                  (content scenario_file) w0) as Hw.
    destruct (write_file m _ _ w0) as [[[]|e] w1]; simpl in Hw;
      [|left; exact Hw].
    pose proof (invoke_spawned mode tempdir scenario_file
                  consume_resources w1) as Hi.
    fold args in Hi.
    destruct (invoke m settings mode tempdir scenario_file
                     consume_resources w1) as [[out|e] w2]; simpl in Hi.
    - rewrite (quiet_read_file _ w2). rewrite <- Hw. exact Hi.
    - simpl. rewrite <- Hw. exact Hi. }
  assert (forall A (c : M A) (k : A -> M value) cmds,
             (forall a, quiet (k a)) ->
             forall w0, spawned (snd (c w0)) = cmds ->
                        spawned (snd (bind c k w0)) = cmds) as Hthen.
  { intros A c k cmds Hk w0 Hc. unfold bind.
    destruct (c w0) as [[a|e] w1]; simpl in *; [|exact Hc].
    rewrite (Hk a w1). exact Hc. }
  assert (spawned (snd (TemporaryDirectory m body w)) = spawned w
          \/ spawned (snd (TemporaryDirectory m body w)) = spawned w ++ [args])
    as Htemp.
  { unfold TemporaryDirectory. fold tempdir.
    destruct (namei (fs w) (cwd m) tempdir) as [e|p]; [left; reflexivity|].
    destruct (exists_ (fs w) p); [left; reflexivity|].
    specialize (Hbody (with_fs w (mkdir (fs w) p))).
    destruct (body tempdir (with_fs w (mkdir (fs w) p))) as [r w1].
    simpl in *. exact Hbody. }
  destruct Htemp as [H|H]; [left|right];
    apply Hthen; try exact H; intros a; apply quiet_of_result.
Qed.

End Commands.

(** C3 (amended).  Every analysis request starts at most one process, and
    its command line has ten arguments, the last of which stands for the
    consumeResources option: [-c] when the option is true, the empty string
    when it is false. *)
Theorem consume_flag_or_empty_argument (py : Builtins) (m : Machine)
    (settings : Settings) (scenario_file : UploadFile)
    (consume_resources : bool) (w : World) :
  let tempdir := mkdtemp m (fs w) in
  let args (mode : string) :=
    [ "java"; "-jar"; spacenet_path settings; "-h"; mode; "-i";
      posixpath.join tempdir (filename scenario_file); "-o";
      posixpath.join tempdir "results.json";
      if consume_resources then "-c" else "" ] in
  let after_raw :=
    snd (analyze_raw_demands m settings scenario_file consume_resources w) in
  let after_agg :=
    snd (analyze_aggregated_demands m settings scenario_file
                                    consume_resources w) in
  (spawned after_raw = spawned w
   \/ spawned after_raw = spawned w ++ [args "demands-raw"])
  /\ (spawned after_agg = spawned w
      \/ spawned after_agg = spawned w ++ [args "demands-agg"]).
Proof.
  intros tempdir args after_raw after_agg.
  subst after_raw after_agg.
  rewrite analyze_raw_demands_eq, analyze_aggregated_demands_eq.
  split; apply analyze_spawned.
Qed.

(** C3, as stated, fails: with consumeResources false the engine is given
    an empty string as its last argument. *)
Lemma empty_argument_is_passed :
  spawned (snd (@analyze_raw_demands CPython.builtins
                  (machine (engine 1 0 "" (Some no_demands))) defaults
                  (upload "scenario.xml") false boot))
  = [[ "java"; "-jar"; "/opt/spacenet.jar"; "-h"; "demands-raw"; "-i";
       "/tmp/tmpk3x9/scenario.xml"; "-o"; "/tmp/tmpk3x9/results.json"; "" ]]
  /\ spawned (snd (@analyze_aggregated_demands CPython.builtins
                     (machine (engine 1 0 "" (Some "{}"))) defaults
                     (upload "scenario.xml") false boot))
     = [[ "java"; "-jar"; "/opt/spacenet.jar"; "-h"; "demands-agg"; "-i";
          "/tmp/tmpk3x9/scenario.xml"; "-o"; "/tmp/tmpk3x9/results.json";
          "" ]].
Proof. vm_compute. split; reflexivity. Qed.

(** ** The staged path *)

Lemma split_not_nil path : posixpath.split path <> [].
Proof.
  destruct path as [|c r]; cbn [posixpath.split]; [discriminate|].
  destruct (Ascii.eqb c posixpath.sep); [discriminate|].
  destruct (posixpath.split r); discriminate.
Qed.

Lemma split_app_sep a b :
  posixpath.split (a ++ String posixpath.sep b)%string
  = posixpath.split a ++ posixpath.split b.
Proof.
  induction a as [|c a IH]; cbn [posixpath.split String.append].
  - reflexivity.
  - rewrite IH. destruct (Ascii.eqb c posixpath.sep); [reflexivity|].
    pose proof (split_not_nil a) as Hne.
    destruct (posixpath.split a); [contradiction|reflexivity].
Qed.

Lemma split_plain name :
  any_char (Ascii.eqb posixpath.sep) name = false ->
  posixpath.split name = [name].
Proof.
  induction name as [|c r IH]; cbn [posixpath.split any_char]; intros H;
    [reflexivity|].
  apply orb_false_elim in H as [Hc Hr].
  rewrite Ascii.eqb_sym, Hc, (IH Hr). reflexivity.
Qed.

Lemma endswith_sep_app a :
  posixpath.endswith_sep a = true ->
  exists a', a = (a' ++ String posixpath.sep EmptyString)%string.
Proof.
  induction a as [|c r IH]; cbn [posixpath.endswith_sep]; [discriminate|].
  destruct r as [|c' r'].
  - intros H. apply Ascii.eqb_eq in H as ->. exists EmptyString. reflexivity.
  - intros H. destruct (IH H) as [a' ->]. exists (String c a'). reflexivity.
Qed.

Lemma append_after_sep a name :
  ((a ++ String posixpath.sep EmptyString) ++ name)%string
  = (a ++ String posixpath.sep name)%string.
Proof.
  induction a as [|c a IH]; cbn [String.append]; [reflexivity|].
  rewrite IH. reflexivity.
Qed.

Lemma startswith_sep_app a b :
  a <> EmptyString ->
  posixpath.startswith_sep (a ++ b)%string = posixpath.startswith_sep a.
Proof. destruct a; [contradiction|reflexivity]. Qed.

Lemma walk_app files cur l1 l2 :
  walk files cur (l1 ++ l2)
  = match walk files cur l1 with
    | inr c => walk files c l2
    | inl e => inl e
    end.
Proof.
  revert cur. induction l1 as [|name l1 IH]; intros cur; simpl;
    [reflexivity|].
  destruct (is_dir files (rev cur)); [|reflexivity].
  destruct (NAME_MAX <? String.length name)%nat; [reflexivity | apply IH].
Qed.

Lemma plain_inv name :
  plain name = true ->
  name <> EmptyString
  /\ String.eqb name "." = false
  /\ String.eqb name ".." = false
  /\ any_char (Ascii.eqb posixpath.sep) name = false
  /\ embedded_null name = false
  /\ (NAME_MAX <? String.length name)%nat = false.
Proof.
  unfold plain. intros H.
  apply andb_prop in H as [H H6].
  apply andb_prop in H as [H H5]. apply andb_prop in H as [H H4].
  apply andb_prop in H as [H H3]. apply andb_prop in H as [H1 H2].
  apply negb_true_iff in H1, H2, H3, H4, H5.
  repeat split; try assumption.
  - intros ->. discriminate H1.
  - apply Nat.ltb_ge, Nat.leb_le, H6.
Qed.

Lemma step_plain cur name : plain name = true -> step cur name = name :: cur.
Proof.
  intros H. destruct (plain_inv name H) as (H1 & H2 & H3 & _ & _ & _).
  unfold step. apply String.eqb_neq in H1. rewrite H1, H2, H3. reflexivity.
Qed.

Lemma plain_no_sep name :
  plain name = true ->
  any_char (Ascii.eqb posixpath.sep) name = false
  /\ posixpath.startswith_sep name = false.
Proof.
  intros H. destruct (plain_inv name H) as (_ & _ & _ & H4 & _ & _).
  split; [exact H4|].
  destruct name as [|c r]; [reflexivity|].
  cbn [any_char posixpath.startswith_sep] in *.
  apply orb_false_elim in H4 as [H4 _]. rewrite Ascii.eqb_sym. exact H4.
Qed.



Lemma join_not_empty a b : b <> EmptyString -> posixpath.join a b <> EmptyString.
Proof.
  intros Hb. unfold posixpath.join.
  destruct (posixpath.startswith_sep b); [exact Hb|].
  destruct (_ || _); destruct a; cbn [String.append]; try discriminate;
    exact Hb.
Qed.

Lemma is_prefix_app p q : is_prefix p (p ++ q) = true.
Proof.
  induction p as [|a p IH]; simpl; [reflexivity|].
  rewrite String.eqb_refl. exact IH.
Qed.

Lemma node_eqb_app p a : node_eqb p (p ++ [a]) = false.
Proof.
  unfold node_eqb. destruct (list_eq_dec string_dec p (p ++ [a])) as [E|];
    [|reflexivity].
  apply (f_equal (@List.length string)) in E.
  rewrite length_app in E. simpl in E. lia.
Qed.

Lemma namei_walk files cwd path :
  path <> EmptyString ->
  (String.length path < PATH_MAX)%nat ->
  namei files cwd path
  = match walk files (start cwd path) (posixpath.split path) with
    | inl e => inl e
    | inr p => inr (rev p)
    end.
Proof.
  intros Hne Hlen. destruct path; [contradiction|]. unfold namei.
  apply Nat.leb_gt in Hlen. rewrite Hlen. reflexivity.
Qed.

Lemma namei_short files cwd path p :
  namei files cwd path = inr p ->
  path <> EmptyString /\ (String.length path < PATH_MAX)%nat.
Proof.
  unfold namei. destruct path as [|c0 r]; [discriminate|].
  destruct (PATH_MAX <=? String.length (String c0 r))%nat eqn:E;
    [discriminate|].
  intros _. split; [discriminate | apply Nat.leb_gt, E].
Qed.




(** The node at which a plain name is staged in a directory. *)
Lemma namei_join_plain files cwd tempdir name d :
  namei files cwd tempdir = inr d ->
  is_dir files d = true ->
  plain name = true ->
  (String.length (posixpath.join tempdir name) < PATH_MAX)%nat ->
  namei files cwd (posixpath.join tempdir name) = inr (d ++ [name]).
Proof.
  intros Hd Hdir Hplain Hlen.
  destruct (plain_no_sep name Hplain) as [Hsep Hstart].
  destruct (plain_inv name Hplain) as (Hne & _ & _ & _ & _ & Hshort).
  pose proof (split_plain name Hsep) as Hsplit.
  destruct (namei_short _ _ _ _ Hd) as [Hne0 Hlen0].
  destruct tempdir as [|c0 t0]; [contradiction|].
  rewrite (namei_walk _ _ (posixpath.join _ _))
    by (try apply join_not_empty; assumption).
  rewrite namei_walk in Hd by assumption.
  clear Hlen Hlen0.
  unfold posixpath.join. rewrite Hstart.
  assert (forall c, walk files (start cwd (String c0 t0))
                         (posixpath.split (String c0 t0))
                    = inr c -> rev c = d) as Hc.
  { intros c E. rewrite E in Hd. injection Hd as <-. reflexivity. }
  assert (forall c, rev c = d ->
                    walk files c [name] = inr (name :: c)) as Hlast.
  { intros c E. simpl. rewrite E, Hdir, Hshort, (step_plain c name Hplain).
    reflexivity. }
  cbn [orb]. destruct (posixpath.endswith_sep (String c0 t0)) eqn:Eend.
  - (* the directory is written with a separator at its end *)
    destruct (endswith_sep_app _ Eend) as [a' Ea]. rewrite Ea in *.
    assert (start cwd ((a' ++ String posixpath.sep EmptyString) ++ name)%string
            = start cwd (a' ++ String posixpath.sep EmptyString)%string) as ->.
    { unfold start. rewrite startswith_sep_app; [reflexivity|].
      destruct a'; discriminate. }
    rewrite append_after_sep.
    rewrite split_app_sep, Hsplit, walk_app.
    rewrite split_app_sep, walk_app in Hd, Hc.
    destruct (walk files (start cwd (a' ++ String posixpath.sep EmptyString)%string)
                   (posixpath.split a')) as [e|c1]; [discriminate Hd|].
    cbn [posixpath.split walk] in Hd, Hc.
    destruct (is_dir files (rev c1)) eqn:E1; [|discriminate Hd].
    cbn [String.length] in Hd, Hc.
    change (NAME_MAX <? 0)%nat with false in Hd, Hc. cbv iota in Hd, Hc.
    assert (rev c1 = d) as Hc1 by exact (Hc _ eq_refl).
    rewrite (Hlast c1 Hc1). simpl. rewrite Hc1. reflexivity.
  - assert (start cwd (String c0 t0 ++ String posixpath.sep name)%string
            = start cwd (String c0 t0)) as ->.
    { unfold start. rewrite startswith_sep_app; [reflexivity|discriminate]. }
    rewrite split_app_sep, Hsplit, walk_app.
    destruct (walk files (start cwd (String c0 t0))
                   (posixpath.split (String c0 t0))) as [e|c1];
      [discriminate Hd|].
    rewrite (Hlast c1 (Hc c1 eq_refl)). simpl.
    rewrite (Hc c1 eq_refl). reflexivity.
Qed.

Section Paths.

Variable m : Machine.

Lemma node_eqb_refl p : node_eqb p p = true.
Proof.
  unfold node_eqb. destruct (list_eq_dec string_dec p p); [reflexivity|].
  contradiction.
Qed.

(** A path that resolves keeps resolving to the same node when
    directories are added and files are written. *)
Lemma walk_more files files' cur names c :
  (forall q, is_dir files q = true -> is_dir files' q = true) ->
  walk files cur names = inr c -> walk files' cur names = inr c.
Proof.
  intros Hmore. revert cur.
  induction names as [|name rest IH]; intros cur H; simpl in *; [exact H|].
  destruct (is_dir files (rev cur)) eqn:E; [|discriminate H].
  rewrite (Hmore _ E).
  destruct (NAME_MAX <? String.length name)%nat; [discriminate H|].
  apply IH, H.
Qed.

Lemma namei_more files files' path p :
  (forall q, is_dir files q = true -> is_dir files' q = true) ->
  namei files (cwd m) path = inr p -> namei files' (cwd m) path = inr p.
Proof.
  intros Hmore. unfold namei. destruct path as [|c0 r]; [discriminate|].
  destruct (PATH_MAX <=? _)%nat; [discriminate|].
  destruct (walk files _ _) as [e|c] eqn:E; [discriminate|].
  rewrite (walk_more files files' _ _ c Hmore E). exact (fun H => H).
Qed.


(** The working area as it is once [TemporaryDirectory] has made it. *)
Lemma working_area_made files tempdir d :
  namei files (cwd m) tempdir = inr d ->
  namei (mkdir files d) (cwd m) tempdir = inr d
  /\ is_dir (mkdir files d) d = true.
Proof.
  intros Hd. split.
  - apply (namei_more files); [|exact Hd].
    intros q H. simpl. rewrite H. apply orb_true_r.
  - simpl. rewrite node_eqb_refl. reflexivity.
Qed.

End Paths.


(** ** Outcomes of the engine *)

Lemma rmtree_gone files d : exists_ (rmtree files d) d = false.
Proof.
  unfold exists_, rmtree. simpl.
  assert (is_prefix d d = true) as ->.
  { rewrite <- (app_nil_r d) at 2. apply is_prefix_app. }
  reflexivity.
Qed.

(** What is left of the working area when [TemporaryDirectory] is left. *)
Lemma TemporaryDirectory_removed {A} m (body : string -> M A) w d :
  namei (fs w) (cwd m) (mkdtemp m (fs w)) = inr d ->
  exists_ (fs w) d = false ->
  exists_ (fs (snd (TemporaryDirectory m body w))) d = false.
Proof.
  intros Hd Hnew. unfold TemporaryDirectory. rewrite Hd, Hnew.
  destruct (body _ _) as [r w']. simpl. apply rmtree_gone.
Qed.

Section Outcomes.

Context {py : Builtins}.
Variable m : Machine.
Variable settings : Settings.
Variable mode : string.
Variable model : ty.
Variable scenario_file : UploadFile.
Variable consume_resources : bool.
Variable w w1 : World.
Variable d : node.

Let tempdir := mkdtemp m (fs w).
Let scenario_path := posixpath.join tempdir (filename scenario_file).
Let results_path := posixpath.join tempdir "results.json".
Let args := command settings mode scenario_path results_path consume_resources.

(** The working area is made and the scenario is staged in it. *)
Hypothesis working_area : namei (fs w) (cwd m) tempdir = inr d.
Hypothesis working_area_new : exists_ (fs w) d = false.
Hypothesis staged :
  write_file m scenario_path (content scenario_file)
             (with_fs w (mkdir (fs w) d)) = (Return tt, w1).

Lemma analyze_after_staging :
  analyze m settings mode model scenario_file consume_resources w
  = let (r, w2) :=
      bind (invoke m settings mode tempdir scenario_file consume_resources)
           (fun _ => read_results m tempdir) w1 in
    match r with
    | Return results =>
        of_result (parse_raw model results) (with_fs w2 (rmtree (fs w2) d))
    | Raise e => (Raise e, with_fs w2 (rmtree (fs w2) d))
    end.
Proof.
  unfold analyze. unfold bind at 1. unfold TemporaryDirectory.
  fold tempdir. rewrite working_area, working_area_new.
  unfold bind at 1. unfold stage. fold scenario_path. rewrite staged.
  destruct (bind _ _ w1) as [[results|e] w2]; reflexivity.
Qed.



(** The engine is still running at the deadline: status 422 with the
    timeout in the detail. *)
Lemma analyze_timeout t p text :
  spacenet_timeout settings = EnvInt t ->
  existsb embedded_null args = false ->
  run m args (fs w1) = Some p ->
  match duration p with
  | Some seconds => Qle_bool seconds (inject_Z t) = false
  | None => True
  end ->
  str_of_int t = Some text ->
  fst (analyze m settings mode model scenario_file consume_resources w)
  = Raise (HTTPException 422 ("Timeout exceeded (" ++ text ++ " s)")).
Proof.
  intros Ht Hargs Hrun Hdur Hstr.
  rewrite analyze_after_staging.
  unfold bind, invoke, try_except, check_output.
  fold scenario_path results_path args.
  rewrite Hargs, Hrun, Ht.
  destruct (duration p) as [seconds|]; [rewrite Hdur|];
    simpl; unfold bind; simpl; rewrite Hstr; reflexivity.
Qed.

(** The timeout is a string: a [TypeError], whatever the engine does. *)
Lemma analyze_string_timeout s p :
  spacenet_timeout settings = EnvStr s ->
  existsb embedded_null args = false ->
  run m args (fs w1) = Some p ->
  fst (analyze m settings mode model scenario_file consume_resources w)
  = Raise (Builtin TypeError).
Proof.
  intros Ht Hargs Hrun.
  rewrite analyze_after_staging.
  unfold bind, invoke, try_except, check_output.
  fold scenario_path results_path args.
  rewrite Hargs, Hrun, Ht. reflexivity.
Qed.

End Outcomes.

(** When an endpoint is left the working area is gone, whatever happened
    in it. *)
Lemma analyze_removes_working_area {py : Builtins} m settings mode model
    scenario_file consume_resources w d :
  namei (fs w) (cwd m) (mkdtemp m (fs w)) = inr d ->
  exists_ (fs w) d = false ->
  exists_ (fs (snd (analyze m settings mode model scenario_file
                            consume_resources w))) d = false.
Proof.
  intros Hd Hnew. unfold analyze, bind.
  pose proof (TemporaryDirectory_removed m
                (fun tempdir =>
                   bind (stage m tempdir scenario_file)
                     (fun _ =>
                        bind (invoke m settings mode tempdir scenario_file
                                     consume_resources)
                          (fun _ => read_results m tempdir)))
                w d Hd Hnew) as Hgone.
  unfold bind in Hgone.
  destruct (TemporaryDirectory m _ w) as [[results|e] w2]; simpl in *;
    [|exact Hgone].
  destruct (parse_raw model results); exact Hgone.
Qed.

(** Each endpoint is [analyze] at its mode and some model. *)
Lemma endpoint_analyze {py : Builtins} m settings (raw : bool) :
  exists model,
    (if raw then analyze_raw_demands m settings
     else analyze_aggregated_demands m settings)
    = analyze m settings (if raw then "demands-raw" else "demands-agg") model.
Proof. destruct raw; eexists; reflexivity. Qed.

(** The timeout as the settings hold it after loading. *)
Lemma load_settings_timeout {py : Builtins} m env w settings :
  fst (load_settings m env w) = Return settings ->
  spacenet_timeout settings
  = match getenv env "SPACENET_TIMEOUT" with
    | Some s => EnvStr s
    | None => EnvInt 10
    end.
Proof.
  unfold load_settings.
  destruct (getenv env "SPACENET_PATH") as [path|]; [|discriminate].
  destruct (path_exists m (fs w) path); [|discriminate].
  simpl. intros H. injection H as <-. reflexivity.
Qed.




(** ** The timeout *)

(** C7, as the code has it.  When [SPACENET_TIMEOUT] is set in the
    environment, the configured timeout is the string of the environment.
    Once the scenario is staged and the engine is started, the request ends
    with the [TypeError] of adding that string to the time, whatever the
    engine does and however long it runs: no [TimeoutExpired] is raised, no
    detail names the timeout, and the status is 500.  The working directory
    is removed.  This holds of both endpoints. *)
Theorem string_timeout_is_a_type_error (py : Builtins) (m : Machine)
    (env : environ) (w0 : World) (settings : Settings) (s : string)
    (raw : bool) (scenario_file : UploadFile) (consume_resources : bool)
    (w w1 : World) (d : node) (p : Process) :
  let endpoint :=
    if raw then analyze_raw_demands m settings
    else analyze_aggregated_demands m settings in
  let mode := if raw then "demands-raw" else "demands-agg" in
  let tempdir := mkdtemp m (fs w) in
  let scenario_path := posixpath.join tempdir (filename scenario_file) in
  let results_path := posixpath.join tempdir "results.json" in
  let args :=
    command settings mode scenario_path results_path consume_resources in
  getenv env "SPACENET_TIMEOUT" = Some s ->
  fst (load_settings m env w0) = Return settings ->
  namei (fs w) (cwd m) tempdir = inr d ->
  exists_ (fs w) d = false ->
  write_file m scenario_path (content scenario_file)
             (with_fs w (mkdir (fs w) d)) = (Return tt, w1) ->
  existsb embedded_null args = false ->
  run m args (fs w1) = Some p ->
  fst (endpoint scenario_file consume_resources w)
  = Raise (Builtin TypeError)
  /\ error_status (fst (endpoint scenario_file consume_resources w))
     = Some 500
  /\ exists_ (fs (snd (endpoint scenario_file consume_resources w))) d
     = false.
Proof.
  intros endpoint mode tempdir scenario_path results_path args Henv Hload
         Hd Hnew Hstaged Hargs Hrun.
  pose proof (load_settings_timeout m env w0 settings Hload) as Ht.
  rewrite Henv in Ht.
  destruct (endpoint_analyze m settings raw) as [model E].
  fold mode in E. subst endpoint. rewrite E.
  pose proof (analyze_string_timeout m settings mode model scenario_file
                consume_resources w w1 d Hd Hnew Hstaged s p Ht Hargs Hrun)
    as Hr.
  split; [exact Hr|]. split; [rewrite Hr; reflexivity|].
  apply analyze_removes_working_area; assumption.
Qed.

Lemma string_timeout_is_a_type_error_witness :
  getenv configured "SPACENET_TIMEOUT" = Some "2"
  /\ fst (load_settings (machine (engine 60 0 "" None)) configured boot)
     = Return {| spacenet_path := "/opt/spacenet.jar";
                 spacenet_timeout := EnvStr "2" |}
  /\ namei disk [] "/tmp/tmpk3x9" = inr area
  /\ exists_ disk area = false
  /\ write_file (machine (engine 60 0 "" None)) "/tmp/tmpk3x9/scenario.xml"
                "<scenario>" (with_fs boot (mkdir disk area))
     = (Return tt, staged)
  /\ existsb embedded_null (raw_command "") = false
  /\ engine 60 0 "" None (raw_command "") (fs staged)
     = Some (process 60 0 "" None (raw_command "") (fs staged))
  /\ fst (@analyze_raw_demands CPython.builtins
            (machine (engine 60 0 "" None))
            {| spacenet_path := "/opt/spacenet.jar";
               spacenet_timeout := EnvStr "2" |}
            (upload "scenario.xml") false boot)
     = Raise (Builtin TypeError)
  /\ error_status (fst (@analyze_raw_demands CPython.builtins
                           (machine (engine 60 0 "" None))
                           {| spacenet_path := "/opt/spacenet.jar";
                              spacenet_timeout := EnvStr "2" |}
                           (upload "scenario.xml") false boot)) = Some 500
  /\ exists_ (fs (snd (@analyze_raw_demands CPython.builtins
                         (machine (engine 60 0 "" None))
                         {| spacenet_path := "/opt/spacenet.jar";
                            spacenet_timeout := EnvStr "2" |}
                         (upload "scenario.xml") false boot))) area = false.
Proof.
  assert (getenv configured "SPACENET_TIMEOUT" = Some "2") as H1
    by reflexivity.
  assert (fst (load_settings (machine (engine 60 0 "" None)) configured boot)
          = Return {| spacenet_path := "/opt/spacenet.jar";
                      spacenet_timeout := EnvStr "2" |}) as H2
    by (vm_compute; reflexivity).
  assert (namei disk [] "/tmp/tmpk3x9" = inr area) as H3
    by (vm_compute; reflexivity).
  assert (exists_ disk area = false) as H4 by (vm_compute; reflexivity).
  assert (write_file (machine (engine 60 0 "" None))
            "/tmp/tmpk3x9/scenario.xml" "<scenario>"
            (with_fs boot (mkdir disk area)) = (Return tt, staged)) as H5
    by reflexivity.
  assert (existsb embedded_null (raw_command "") = false) as H6
    by (vm_compute; reflexivity).
  assert (engine 60 0 "" None (raw_command "") (fs staged)
          = Some (process 60 0 "" None (raw_command "") (fs staged))) as H7
    by reflexivity.
  split; [exact H1|]. split; [exact H2|]. split; [exact H3|].
  split; [exact H4|]. split; [exact H5|]. split; [exact H6|].
  split; [exact H7|].
  exact (string_timeout_is_a_type_error CPython.builtins
           (machine (engine 60 0 "" None)) configured boot
           {| spacenet_path := "/opt/spacenet.jar";
              spacenet_timeout := EnvStr "2" |} "2" true
           (upload "scenario.xml") false boot staged area
           (process 60 0 "" None (raw_command "") (fs staged))
           H1 H2 H3 H4 H5 H6 H7).
Defined.

(** C7, at the failing input.  With [SPACENET_TIMEOUT=2] in the
    environment the timeout is the string ["2"], and a request ends with
    the [TypeError] of adding it to the time, status 500: for an engine
    that sleeps a minute as for one that answers in a second.  The working
    directory is removed. *)
Lemma configured_timeout_is_a_type_error :
  fst (load_settings (machine (engine 60 0 "" None)) configured boot)
  = Return {| spacenet_path := "/opt/spacenet.jar";
              spacenet_timeout := EnvStr "2" |}
  /\ fst (@analyze_raw_demands CPython.builtins
            (machine (engine 60 0 "" None))
            {| spacenet_path := "/opt/spacenet.jar";
               spacenet_timeout := EnvStr "2" |}
            (upload "scenario.xml") false boot)
     = Raise (Builtin TypeError)
  /\ error_status (fst (@analyze_raw_demands CPython.builtins
                           (machine (engine 60 0 "" None))
                           {| spacenet_path := "/opt/spacenet.jar";
                              spacenet_timeout := EnvStr "2" |}
                           (upload "scenario.xml") false boot)) = Some 500
  /\ fst (@analyze_raw_demands CPython.builtins
            (machine (engine 1 0 "" (Some no_demands)))
            {| spacenet_path := "/opt/spacenet.jar";
               spacenet_timeout := EnvStr "2" |}
            (upload "scenario.xml") false boot)
     = Raise (Builtin TypeError)
  /\ exists_ (fs (snd (@analyze_raw_demands CPython.builtins
                         (machine (engine 60 0 "" None))
                         {| spacenet_path := "/opt/spacenet.jar";
                            spacenet_timeout := EnvStr "2" |}
                         (upload "scenario.xml") false boot))) area = false.
Proof. vm_compute. repeat split; reflexivity. Qed.

(** With the default timeout of ten seconds, an engine that sleeps a
    minute makes the request end with status 422 and a detail that names
    the ten seconds, and the working directory is removed. *)
Lemma default_timeout_is_reported :
  fst (load_settings (machine (engine 60 0 "" None))
         [("SPACENET_PATH", "/opt/spacenet.jar")] boot)
  = Return defaults
  /\ fst (@analyze_raw_demands CPython.builtins
            (machine (engine 60 0 "" None)) defaults
            (upload "scenario.xml") false boot)
     = Raise (HTTPException 422 "Timeout exceeded (10 s)")
  /\ exists_ (fs (snd (@analyze_raw_demands CPython.builtins
                         (machine (engine 60 0 "" None)) defaults
                         (upload "scenario.xml") false boot))) area = false.
Proof. vm_compute. repeat split; reflexivity. Qed.

(** The engine writes a result without demands: the raw analysis is
    returned, with no demands. *)
Lemma empty_analysis_is_returned :
  fst (@analyze_raw_demands CPython.builtins
         (machine (engine 1 0 "" (Some no_demands))) defaults
         (upload "scenario.xml") false boot)
  = Return (VModel [("demands", VList [])]).
Proof. vm_compute. reflexivity. Qed.
(* ================================================================== *)
(** * More on the endpoints of app/main.py *)
(* ================================================================== *)

Section Requests.

Context {py : Builtins}.
Variable m : Machine.
Variable settings : Settings.

Lemma endpoint_eq raw :
  endpoint m settings raw
  = analyze m settings (mode_of raw) (model_of raw).
Proof. destruct raw; reflexivity. Qed.

(** A request that is staged goes on with the engine, on the world that
    staging leaves. *)
Lemma endpoint_after_staging raw scenario_file consume_resources w w1 d :
  staged_in m scenario_file w w1 d ->
  endpoint m settings raw scenario_file consume_resources w
  = let (r, w2) :=
      bind (invoke m settings (mode_of raw) (mkdtemp m (fs w)) scenario_file
                   consume_resources)
           (fun _ => read_results m (mkdtemp m (fs w))) w1 in
    match r with
    | Return results =>
        of_result (parse_raw (model_of raw) results)
                  (with_fs w2 (rmtree (fs w2) d))
    | Raise e => (Raise e, with_fs w2 (rmtree (fs w2) d))
    end.
Proof.
  intros [[Hd Hnew] Hstaged]. rewrite endpoint_eq.
  apply (analyze_after_staging m settings _ _ _ _ w w1 d Hd Hnew Hstaged).
Qed.


(** What [check_output] does once the process is started. *)
Lemma check_output_started args timeout w p :
  existsb embedded_null args = false ->
  run m args (fs w) = Some p ->
  check_output m args timeout w
  = let started files := {| fs := files; spawned := spawned w ++ [args] |} in
    match timeout with
    | EnvStr _ => (Raise (Builtin TypeError), started (fs_killed p 0%Q))
    | EnvInt t =>
        match duration p with
        | Some seconds =>
            if Qle_bool seconds (inject_Z t) then
              if Z.eqb (returncode p) 0
              then (Return (universal_newlines (output p)),
                    started (fs_exit p))
              else (Raise (CalledProcessError
                             (returncode p) (universal_newlines (output p))),
                    started (fs_exit p))
            else (Raise TimeoutExpired, started (fs_killed p (inject_Z t)))
        | None => (Raise TimeoutExpired, started (fs_killed p (inject_Z t)))
        end
    end.
Proof. intros Hargs Hrun. unfold check_output. rewrite Hargs, Hrun. reflexivity. Qed.

Lemma staged_spawned scenario_file w w1 d :
  staged_in m scenario_file w w1 d -> spawned w1 = spawned w.
Proof.
  intros [_ H].
  pose proof (quiet_write_file m (scenario_path_of m scenario_file w)
                (content scenario_file) (with_fs w (mkdir (fs w) d))) as Hq.
  rewrite H in Hq. exact Hq.
Qed.

(** Invocation and classification once the engine is started. *)
Lemma invoke_started raw scenario_file consume_resources w w1 d p :
  engine_started m settings raw scenario_file consume_resources w w1 d p ->
  invoke m settings (mode_of raw) (mkdtemp m (fs w)) scenario_file
         consume_resources w1
  = let started files :=
      {| fs := files;
         spawned := spawned w
                    ++ [command_of m settings raw scenario_file
                                   consume_resources w] |} in
    match spacenet_timeout settings with
    | EnvStr _ => (Raise (Builtin TypeError), started (fs_killed p 0%Q))
    | EnvInt t =>
        match duration p with
        | Some seconds =>
            if Qle_bool seconds (inject_Z t) then
              if Z.eqb (returncode p) 0
              then (Return (universal_newlines (output p)),
                    started (fs_exit p))
              else (Raise (HTTPException 422 (universal_newlines (output p))),
                    started (fs_exit p))
            else (Raise (timeout_exceeded t), started (fs_killed p (inject_Z t)))
        | None =>
            (Raise (timeout_exceeded t), started (fs_killed p (inject_Z t)))
        end
    end.
Proof.
  intros (Hstaged & Hargs & Hrun).
  pose proof (staged_spawned _ _ _ _ Hstaged) as Hsp.
  unfold invoke, try_except.
  change (command settings (mode_of raw)
            (posixpath.join (mkdtemp m (fs w)) (filename scenario_file))
            (posixpath.join (mkdtemp m (fs w)) "results.json")
            consume_resources)
    with (command_of m settings raw scenario_file consume_resources w).
  rewrite (check_output_started _ _ w1 p Hargs Hrun). rewrite Hsp.
  cbv zeta.
  destruct (spacenet_timeout settings) as [text|t] eqn:Ht; [reflexivity|].
  destruct (duration p) as [seconds|].
  - destruct (Qle_bool seconds (inject_Z t)).
    + destruct (Z.eqb (returncode p) 0); reflexivity.
    + unfold bind, format, timeout_exceeded.
      destruct (str_of_int t); reflexivity.
  - unfold bind, format, timeout_exceeded.
    destruct (str_of_int t); reflexivity.
Qed.




End Requests.





(** X2.  With a timeout that is an integer, the default of ten seconds,
    an engine that has not ended at the deadline is killed then, and the
    request ends with status 422 and the detail [Timeout exceeded (t s)].
    What is left of the file system is what the killed engine left, without
    the working directory.  This holds of both endpoints. *)
Theorem integer_timeout_is_reported (py : Builtins) (m : Machine)
    (settings : Settings) (raw : bool) (scenario_file : UploadFile)
    (consume_resources : bool) (w w1 : World) (d : node) (p : Process)
    (t : Z) (text : string) :
  engine_started m settings raw scenario_file consume_resources w w1 d p ->
  spacenet_timeout settings = EnvInt t ->
  ~ in_time p t ->
  str_of_int t = Some text ->
  let after := endpoint m settings raw scenario_file consume_resources w in
  fst after
  = Raise (HTTPException 422 ("Timeout exceeded (" ++ text ++ " s)"))
  /\ fs (snd after) = rmtree (fs_killed p (inject_Z t)) d
  /\ exists_ (fs (snd after)) d = false.
Proof.
  intros Hstarted Ht Hlate Htext after.
  assert (after
          = (Raise (HTTPException 422 ("Timeout exceeded (" ++ text ++ " s)")),
             {| fs := rmtree (fs_killed p (inject_Z t)) d;
                spawned := spawned w
                           ++ [command_of m settings raw scenario_file
                                          consume_resources w] |})) as Hr.
  { subst after.
    rewrite (endpoint_after_staging m settings raw _ _ w w1 d
               (proj1 Hstarted)).
    unfold bind. rewrite (invoke_started m settings _ _ _ _ _ _ _ Hstarted).
    rewrite Ht. unfold timeout_exceeded. rewrite Htext.
    destruct (duration p) as [seconds|] eqn:Hdur; [|reflexivity].
    destruct (Qle_bool seconds (inject_Z t)) eqn:Hle; [|reflexivity].
    exfalso. apply Hlate. exists seconds. split; [exact Hdur | exact Hle]. }
  rewrite Hr. split; [reflexivity|]. split; [reflexivity|].
  apply rmtree_gone.
Qed.

Lemma integer_timeout_is_reported_witness :
  engine_started (machine (engine 60 0 "" None)) defaults true
    (upload "scenario.xml") false boot staged area
    (process 60 0 "" None (raw_command "") (fs staged))
  /\ ~ in_time (process 60 0 "" None (raw_command "") (fs staged)) 10
  /\ CPython.str_of_int 10 = Some "10"
  /\ fst (@endpoint CPython.builtins (machine (engine 60 0 "" None)) defaults
            true (upload "scenario.xml") false boot)
     = Raise (HTTPException 422 "Timeout exceeded (10 s)").
Proof.
  assert (engine_started (machine (engine 60 0 "" None)) defaults true
            (upload "scenario.xml") false boot staged area
            (process 60 0 "" None (raw_command "") (fs staged))) as H1
    by (repeat split; vm_compute; reflexivity).
  assert (~ in_time (process 60 0 "" None (raw_command "") (fs staged)) 10)
    as H2.
  { intros (seconds & Hdur & Hle). simpl in Hdur. injection Hdur as <-.
    vm_compute in Hle. discriminate Hle. }
  assert (CPython.str_of_int 10 = Some "10") as H3
    by (vm_compute; reflexivity).
  split; [exact H1|]. split; [exact H2|]. split; [exact H3|].
  exact (proj1 (integer_timeout_is_reported CPython.builtins
                  (machine (engine 60 0 "" None)) defaults true
                  (upload "scenario.xml") false boot staged area
                  (process 60 0 "" None (raw_command "") (fs staged))
                  10 "10" H1 eq_refl H2 H3)).
Defined.



(** X4.  The working directory never outlives the request.  Whatever the
    upload, the engine and the outcome are, once the temporary directory is
    made nothing exists at its place when the endpoint is left. *)
Theorem working_area_is_always_removed (py : Builtins) (m : Machine)
    (settings : Settings) (raw : bool) (scenario_file : UploadFile)
    (consume_resources : bool) (w : World) (d : node) :
  working_area m w d ->
  exists_ (fs (snd (endpoint m settings raw scenario_file
                             consume_resources w))) d = false.
Proof.
  intros [Hd Hnew]. rewrite endpoint_eq.
  apply analyze_removes_working_area; assumption.
Qed.

Lemma working_area_is_always_removed_witness :
  working_area (machine (engine 1 0 "" (Some no_demands))) boot area
  /\ exists_ (fs (snd (@endpoint CPython.builtins
                         (machine (engine 1 0 "" (Some no_demands)))
                         defaults false (upload "../escaped.xml") true
                         boot))) area = false.
Proof.
  assert (working_area (machine (engine 1 0 "" (Some no_demands))) boot area)
    as H by (split; vm_compute; reflexivity).
  split; [exact H|].
  exact (working_area_is_always_removed CPython.builtins
           (machine (engine 1 0 "" (Some no_demands))) defaults false
           (upload "../escaped.xml") true boot area H).
Defined.

Section Classification.

Context {py : Builtins}.
Variable m : Machine.
Variable settings : Settings.

(** Writing and reading a file raise built-in exceptions only. *)
Lemma write_file_raises path data w e :
  fst (write_file m path data w) = Raise e -> exists b, e = Builtin b.
Proof.
  unfold write_file. destruct (embedded_null path); [intros [= <-]; eauto|].
  destruct (posixpath.endswith_sep path); [intros [= <-]; eauto|].
  destruct (namei (fs w) (cwd m) path) as [err|p]; [intros [= <-]; eauto|].
  destruct (is_dir (fs w) p); [intros [= <-]; eauto | discriminate].
Qed.

Lemma read_file_raises path w e :
  fst (read_file m path w) = Raise e -> exists b, e = Builtin b.
Proof.
  unfold read_file. destruct (embedded_null path); [intros [= <-]; eauto|].
  destruct (namei (fs w) (cwd m) path) as [err|p]; [intros [= <-]; eauto|].
  destruct (file (fs w) p) as [data|]; [|intros [= <-]; eauto].
  destruct (decode m data); [discriminate | intros [= <-]; eauto].
Qed.

Variable mode : string.
Variable model : ty.
Variable scenario_file : UploadFile.
Variable consume_resources : bool.

(** What may leave a computation that started on [w0] and ended on [w1]
    and whose command line is [args]: a built-in exception, a
    [ValidationError], or status 422 after the engine was started. *)
Let leaves (args : list string) (e : exception) (w0 w1 : World) : Prop :=
  match e with
  | Builtin _ | ValidationError _ => True
  | HTTPException status_code _ =>
      status_code = 422 /\ spawned w1 = spawned w0 ++ [args]
  | CalledProcessError _ _ | TimeoutExpired => False
  end.

Let args (tempdir : string) : list string :=
  command settings mode (posixpath.join tempdir (filename scenario_file))
          (posixpath.join tempdir "results.json") consume_resources.

Lemma invoke_leaves tempdir w0 :
  match invoke m settings mode tempdir scenario_file consume_resources w0 with
  | (Return _, _) => True
  | (Raise e, w1) => leaves (args tempdir) e w0 w1
  end.
Proof.
  unfold invoke, try_except, check_output. fold (args tempdir).
  destruct (existsb embedded_null (args tempdir)); [exact I|].
  destruct (run m (args tempdir) (fs w0)) as [p|]; [|exact I].
  destruct (spacenet_timeout settings) as [text|t] eqn:Ht; [exact I|].
  assert (forall files,
             match bind (format (EnvInt t))
                        (fun text : string =>
                           @raise string
                             (HTTPException 422
                                ("Timeout exceeded (" ++ text ++ " s)")))
                        {| fs := files;
                           spawned := spawned w0 ++ [args tempdir] |}
             with
             | (Return _, _) => True
             | (Raise e, w1) => leaves (args tempdir) e w0 w1
             end) as Hlate.
  { intros files. unfold bind, format.
    destruct (str_of_int t); simpl; [split; reflexivity | exact I]. }
  destruct (duration p) as [seconds|]; [|apply Hlate].
  destruct (Qle_bool seconds (inject_Z t)); [|apply Hlate].
  destruct (Z.eqb (returncode p) 0); simpl; [exact I | split; reflexivity].
Qed.

Lemma body_leaves tempdir w0 :
  match bind (stage m tempdir scenario_file)
             (fun _ =>
                bind (invoke m settings mode tempdir scenario_file
                             consume_resources)
                     (fun _ => read_results m tempdir)) w0 with
  | (Return _, _) => True
  | (Raise e, w1) => leaves (args tempdir) e w0 w1
  end.
Proof.
  unfold bind at 1. unfold stage.
  pose proof (quiet_write_file m
                (posixpath.join tempdir (filename scenario_file))
                (content scenario_file) w0) as Hq.
  pose proof (write_file_raises
                (posixpath.join tempdir (filename scenario_file))
                (content scenario_file) w0) as Hw.
  destruct (write_file m _ _ w0) as [[[]|e] w1]; simpl in Hq, Hw.
  - unfold bind. pose proof (invoke_leaves tempdir w1) as Hi.
    destruct (invoke m settings mode tempdir scenario_file
                     consume_resources w1) as [[out|e] w2].
    + unfold read_results.
      pose proof (read_file_raises (posixpath.join tempdir "results.json") w2)
        as Hr.
      destruct (read_file m _ w2) as [[results|e] w3]; [exact I|].
      destruct (Hr e eq_refl) as [b ->]. exact I.
    + destruct e; simpl in *; try exact Hi.
      rewrite <- Hq. exact Hi.
  - destruct (Hw e eq_refl) as [b ->]. exact I.
Qed.

Lemma analyze_leaves w :
  match analyze m settings mode model scenario_file consume_resources w with
  | (Return _, _) => True
  | (Raise e, w1) => leaves (args (mkdtemp m (fs w))) e w w1
  end.
Proof.
  unfold analyze. unfold bind at 1. unfold TemporaryDirectory.
  destruct (namei (fs w) (cwd m) (mkdtemp m (fs w))) as [err|d]; [exact I|].
  destruct (exists_ (fs w) d); [exact I|].
  pose proof (body_leaves (mkdtemp m (fs w)) (with_fs w (mkdir (fs w) d)))
    as Hb.
  destruct (bind (stage m (mkdtemp m (fs w)) scenario_file) _ _)
    as [[results|e] w1].
  - destruct (parse_raw model results); exact I.
  - destruct e; simpl in *; exact Hb.
Qed.

End Classification.

(** X5.  The errors of the child process never leave an endpoint as they
    are: no request ends with a [CalledProcessError] or a [TimeoutExpired].
    The one status an endpoint sets itself is 422, and it does so only
    after the engine was started; every other failure is a built-in
    exception or a [ValidationError], which the framework answers with
    status 500. *)
Theorem subprocess_errors_never_escape (py : Builtins) (m : Machine)
    (settings : Settings) (raw : bool) (scenario_file : UploadFile)
    (consume_resources : bool) (w : World) :
  match endpoint m settings raw scenario_file consume_resources w with
  | (Return _, _) => True
  | (Raise (Builtin _), _) | (Raise (ValidationError _), _) => True
  | (Raise (HTTPException status_code _), w1) =>
      status_code = 422
      /\ spawned w1
         = spawned w
           ++ [command_of m settings raw scenario_file consume_resources w]
  | (Raise (CalledProcessError _ _), _) | (Raise TimeoutExpired, _) => False
  end.
Proof.
  rewrite endpoint_eq.
  pose proof (analyze_leaves m settings (mode_of raw) (model_of raw)
                scenario_file consume_resources w) as H.
  destruct (analyze m settings (mode_of raw) (model_of raw) scenario_file
                    consume_resources w) as [[v|e] w1]; [exact I|].
  destruct e; exact H.
Qed.

(** X6.  A request that is staged and whose command can be started starts
    the engine exactly once, whatever happens next, with the command line
    [java -jar <jar> -h <mode> -i <scenario> -o <results> <flag>]: the
    scenario and the results path lie under the temporary directory as
    [os.path.join] places them, and the flag is [-c] with consumeResources
    and the empty string without. *)
Theorem engine_is_started_once (py : Builtins) (m : Machine)
    (settings : Settings) (raw : bool) (scenario_file : UploadFile)
    (consume_resources : bool) (w w1 : World) (d : node) (p : Process) :
  engine_started m settings raw scenario_file consume_resources w w1 d p ->
  spawned (snd (endpoint m settings raw scenario_file consume_resources w))
  = spawned w
    ++ [[ "java"; "-jar"; spacenet_path settings; "-h";
          if raw then "demands-raw" else "demands-agg"; "-i";
          posixpath.join (mkdtemp m (fs w)) (filename scenario_file); "-o";
          posixpath.join (mkdtemp m (fs w)) "results.json";
          if consume_resources then "-c" else "" ]].
Proof.
  intros Hstarted.
  change ([ "java"; "-jar"; spacenet_path settings; "-h";
            if raw then "demands-raw" else "demands-agg"; "-i";
            posixpath.join (mkdtemp m (fs w)) (filename scenario_file); "-o";
            posixpath.join (mkdtemp m (fs w)) "results.json";
            if consume_resources then "-c" else "" ])
    with (command_of m settings raw scenario_file consume_resources w).
  rewrite (endpoint_after_staging m settings raw _ _ w w1 d (proj1 Hstarted)).
  unfold bind. rewrite (invoke_started m settings _ _ _ _ _ _ _ Hstarted).
  cbv zeta.
  assert (forall files,
             spawned
               (snd (let (r, w2) :=
                       read_results m (mkdtemp m (fs w))
                         {| fs := files;
                            spawned :=
                              spawned w
                              ++ [command_of m settings raw scenario_file
                                             consume_resources w] |} in
                     match r with
                     | Return results =>
                         of_result (parse_raw (model_of raw) results)
                                   (with_fs w2 (rmtree (fs w2) d))
                     | Raise e => (Raise e, with_fs w2 (rmtree (fs w2) d))
                     end))
             = spawned w
               ++ [command_of m settings raw scenario_file
                              consume_resources w]) as Hread.
  { intros files. unfold read_results.
    pose proof (quiet_read_file m
                  (posixpath.join (mkdtemp m (fs w)) "results.json")
                  {| fs := files;
                     spawned := spawned w
                                ++ [command_of m settings raw scenario_file
                                               consume_resources w] |}) as Hq.
    destruct (read_file m _ _) as [[results|e] w2]; simpl in Hq |- *;
      [|exact Hq].
    rewrite (quiet_of_result (parse_raw (model_of raw) results)). exact Hq. }
  destruct (spacenet_timeout settings) as [text|t]; [reflexivity|].
  destruct (duration p) as [seconds|]; [|reflexivity].
  destruct (Qle_bool seconds (inject_Z t)); [|reflexivity].
  destruct (Z.eqb (returncode p) 0); [|reflexivity].
  apply Hread.
Qed.

Lemma engine_is_started_once_witness :
  engine_started (machine (engine 1 0 "" (Some no_demands))) defaults true
    (upload "scenario.xml") true boot staged area
    (process 1 0 "" (Some no_demands) (raw_command "-c") (fs staged))
  /\ spawned (snd (@endpoint CPython.builtins
                     (machine (engine 1 0 "" (Some no_demands))) defaults
                     true (upload "scenario.xml") true boot))
     = spawned boot
       ++ [[ "java"; "-jar"; "/opt/spacenet.jar"; "-h"; "demands-raw"; "-i";
             posixpath.join "/tmp/tmpk3x9" "scenario.xml"; "-o";
             posixpath.join "/tmp/tmpk3x9" "results.json"; "-c" ]].
Proof.
  assert (engine_started (machine (engine 1 0 "" (Some no_demands))) defaults
            true (upload "scenario.xml") true boot staged area
            (process 1 0 "" (Some no_demands) (raw_command "-c") (fs staged)))
    as H by (repeat split; vm_compute; reflexivity).
  split; [exact H|].
  exact (engine_is_started_once CPython.builtins
           (machine (engine 1 0 "" (Some no_demands))) defaults true
           (upload "scenario.xml") true boot staged area
           (process 1 0 "" (Some no_demands) (raw_command "-c") (fs staged))
           H).
Defined.

(** X7.  When the scenario cannot be written in the working directory, the
    request ends with the exception of the write, as an unexpected failure
    with status 500; the engine is not started, and the working directory is
    removed.  An upload without a file name is one such case: its path is
    the working directory itself. *)
Theorem failed_staging_starts_no_engine (py : Builtins) (m : Machine)
    (settings : Settings) (raw : bool) (scenario_file : UploadFile)
    (consume_resources : bool) (w w1 : World) (d : node) (e : exception) :
  working_area m w d ->
  write_file m (scenario_path_of m scenario_file w) (content scenario_file)
             (with_fs w (mkdir (fs w) d)) = (Raise e, w1) ->
  let after := endpoint m settings raw scenario_file consume_resources w in
  fst after = Raise e
  /\ error_status (fst after) = Some 500
  /\ spawned (snd after) = spawned w
  /\ exists_ (fs (snd after)) d = false.
Proof.
  intros Harea Hwrite after.
  pose proof (write_file_raises m _ _ _ e (f_equal fst Hwrite)) as [b ->].
  pose proof (quiet_write_file m (scenario_path_of m scenario_file w)
                (content scenario_file) (with_fs w (mkdir (fs w) d))) as Hq.
  rewrite Hwrite in Hq. simpl in Hq.
  assert (after = (Raise (Builtin b), with_fs w1 (rmtree (fs w1) d))) as Hr.
  { subst after. rewrite endpoint_eq. destruct Harea as [Hd Hnew].
    unfold analyze. unfold bind at 1. unfold TemporaryDirectory.
    rewrite Hd, Hnew. unfold bind at 1. unfold stage.
    change (posixpath.join (mkdtemp m (fs w)) (filename scenario_file))
      with (scenario_path_of m scenario_file w).
    rewrite Hwrite. reflexivity. }
  rewrite Hr. split; [reflexivity|]. split; [reflexivity|].
  split; [exact Hq | apply rmtree_gone].
Qed.

Lemma failed_staging_starts_no_engine_witness :
  working_area (machine (engine 1 0 "" (Some no_demands))) boot area
  /\ write_file (machine (engine 1 0 "" (Some no_demands)))
       (scenario_path_of (machine (engine 1 0 "" (Some no_demands)))
                         (upload "") boot)
       "<scenario>" (with_fs boot (mkdir disk area))
     = (Raise (Builtin (OSError EISDIR "/tmp/tmpk3x9/")),
        with_fs boot (mkdir disk area))
  /\ fst (@endpoint CPython.builtins
            (machine (engine 1 0 "" (Some no_demands))) defaults true
            (upload "") false boot)
     = Raise (Builtin (OSError EISDIR "/tmp/tmpk3x9/")).
Proof.
  assert (working_area (machine (engine 1 0 "" (Some no_demands))) boot area)
    as H1 by (split; vm_compute; reflexivity).
  assert (write_file (machine (engine 1 0 "" (Some no_demands)))
            (scenario_path_of (machine (engine 1 0 "" (Some no_demands)))
                              (upload "") boot)
            "<scenario>" (with_fs boot (mkdir disk area))
          = (Raise (Builtin (OSError EISDIR "/tmp/tmpk3x9/")),
             with_fs boot (mkdir disk area))) as H2
    by (vm_compute; reflexivity).
  split; [exact H1|]. split; [exact H2|].
  exact (proj1 (failed_staging_starts_no_engine CPython.builtins
                  (machine (engine 1 0 "" (Some no_demands))) defaults true
                  (upload "") false boot (with_fs boot (mkdir disk area))
                  area _ H1 H2)).
Defined.

(** X8.  When the command cannot be started, as when there is no [java]
    to run, the staged request ends with the [FileNotFoundError] of the
    program, an unexpected failure with status 500 and not the status 422 of
    an engine failure.  No process is started and the working directory is
    removed. *)
Theorem missing_program_is_a_server_error (py : Builtins) (m : Machine)
    (settings : Settings) (raw : bool) (scenario_file : UploadFile)
    (consume_resources : bool) (w w1 : World) (d : node) :
  staged_in m scenario_file w w1 d ->
  existsb embedded_null
          (command_of m settings raw scenario_file consume_resources w)
  = false ->
  run m (command_of m settings raw scenario_file consume_resources w) (fs w1)
  = None ->
  let after := endpoint m settings raw scenario_file consume_resources w in
  fst after = Raise (Builtin (OSError ENOENT "java"))
  /\ error_status (fst after) = Some 500
  /\ spawned (snd after) = spawned w
  /\ exists_ (fs (snd after)) d = false.
Proof.
  intros Hstaged Hargs Hrun after.
  pose proof (staged_spawned m _ _ _ _ Hstaged) as Hsp.
  assert (after = (Raise (Builtin (OSError ENOENT "java")),
                   with_fs w1 (rmtree (fs w1) d))) as Hr.
  { subst after.
    rewrite (endpoint_after_staging m settings raw _ _ w w1 d Hstaged).
    unfold bind, invoke, try_except, check_output.
    change (command settings (mode_of raw)
              (posixpath.join (mkdtemp m (fs w)) (filename scenario_file))
              (posixpath.join (mkdtemp m (fs w)) "results.json")
              consume_resources)
      with (command_of m settings raw scenario_file consume_resources w).
    rewrite Hargs, Hrun. reflexivity. }
  rewrite Hr. split; [reflexivity|]. split; [reflexivity|].
  split; [exact Hsp | apply rmtree_gone].
Qed.

Lemma missing_program_is_a_server_error_witness :
  staged_in (machine (fun _ _ => None)) (upload "scenario.xml") boot staged
            area
  /\ existsb embedded_null
       (@command_of (machine (fun _ _ => None)) defaults true
                    (upload "scenario.xml") false boot) = false
  /\ fst (@endpoint CPython.builtins (machine (fun _ _ => None)) defaults
            true (upload "scenario.xml") false boot)
     = Raise (Builtin (OSError ENOENT "java")).
Proof.
  assert (staged_in (machine (fun _ _ => None)) (upload "scenario.xml") boot
                    staged area) as H1
    by (repeat split; vm_compute; reflexivity).
  assert (existsb embedded_null
            (@command_of (machine (fun _ _ => None)) defaults true
                         (upload "scenario.xml") false boot) = false) as H2
    by (vm_compute; reflexivity).
  split; [exact H1|]. split; [exact H2|].
  exact (proj1 (missing_program_is_a_server_error CPython.builtins
                  (machine (fun _ _ => None)) defaults true
                  (upload "scenario.xml") false boot staged area
                  H1 H2 eq_refl)).
Defined.

(** ** Start-up *)

(** X9.  The module loads exactly when [SPACENET_PATH] is set to a path
    that names something on the disk, a file or a directory: nothing asks
    that it be a JAR.  The settings then hold that path as it is written
    and the timeout of the environment, unchecked.  Without the variable
    loading fails with the [TypeError] of [os.path.exists(None)]; with a
    path that names nothing, with the [RuntimeError] that names the path.
    Loading leaves the disk as it is. *)
Theorem startup_requires_an_existing_path (py : Builtins) (m : Machine)
    (env : environ) (w : World) :
  (forall settings,
      fst (load_settings m env w) = Return settings
      <-> exists path node,
            getenv env "SPACENET_PATH" = Some path
            /\ embedded_null path = false
            /\ namei (fs w) (cwd m) path = inr node
            /\ exists_ (fs w) node = true
            /\ settings
               = {| spacenet_path := path;
                    spacenet_timeout :=
                      match getenv env "SPACENET_TIMEOUT" with
                      | Some s => EnvStr s
                      | None => EnvInt 10
                      end |})
  /\ (getenv env "SPACENET_PATH" = None ->
      fst (load_settings m env w) = Raise (Builtin TypeError))
  /\ (forall path,
        getenv env "SPACENET_PATH" = Some path ->
        (forall node, namei (fs w) (cwd m) path = inr node ->
                      exists_ (fs w) node = false) ->
        fst (load_settings m env w)
        = Raise (Builtin (RuntimeError ("SpaceNet JAR not found at: " ++ path))))
  /\ snd (load_settings m env w) = w.
Proof.
  unfold load_settings, path_exists.
  destruct (getenv env "SPACENET_PATH") as [path|].
  - split; [|split; [discriminate|split]].
    + intros settings. split.
      * destruct (embedded_null path) eqn:Hnul; [discriminate|].
        destruct (namei (fs w) (cwd m) path) as [err|node] eqn:Hnode;
          [discriminate|].
        destruct (exists_ (fs w) node) eqn:Hex; [|discriminate].
        intros [= <-]. exists path, node. repeat split; assumption.
      * intros (path' & node & [= <-] & Hnul & Hnode & Hex & ->).
        rewrite Hnul, Hnode, Hex. reflexivity.
    + intros path' [= <-] Hnone.
      destruct (embedded_null path); [reflexivity|].
      destruct (namei (fs w) (cwd m) path) as [err|node]; [reflexivity|].
      rewrite (Hnone node eq_refl). reflexivity.
    + destruct (embedded_null path); [reflexivity|].
      destruct (namei (fs w) (cwd m) path) as [err|node]; [reflexivity|].
      destruct (exists_ (fs w) node); reflexivity.
  - split; [|split; [reflexivity|split; [discriminate|reflexivity]]].
    intros settings. split; [discriminate|].
    intros (path & node & H & _). discriminate H.
Qed.

(** ** The paths of a request *)

(** X10.  Whatever the upload is called and whatever becomes of the
    request, an endpoint starts no process but the engine, at most once, and
    the path it gives the engine after [-o] is the path it reads the result
    from: [results.json] joined to the name of the working directory.  That
    path names the node [results.json] of the directory that
    [TemporaryDirectory] made, inside it, when it is shorter than
    [PATH_MAX].  This holds of both endpoints. *)
Theorem results_path_stays_inside (py : Builtins) (m : Machine)
    (settings : Settings) (raw : bool) (scenario_file : UploadFile)
    (consume_resources : bool) (w : World) (d : node) :
  let made := mkdir (fs w) d in
  let after := endpoint m settings raw scenario_file consume_resources w in
  let args := command_of m settings raw scenario_file consume_resources w in
  working_area m w d ->
  (String.length (results_path_of m w) < PATH_MAX)%nat ->
  (spawned (snd after) = spawned w
   \/ spawned (snd after) = spawned w ++ [args])
  /\ nth_error args 7 = Some "-o"
  /\ nth_error args 8 = Some (results_path_of m w)
  /\ read_results m (mkdtemp m (fs w)) = read_file m (results_path_of m w)
  /\ namei made (cwd m) (results_path_of m w) = inr (d ++ ["results.json"])
  /\ inside made (cwd m) (mkdtemp m (fs w)) (results_path_of m w) = true.
Proof.
  intros made after args [Hd Hnew] Hlen.
  destruct (working_area_made m (fs w) _ d Hd) as [Hd' Hdir].
  fold made in Hd', Hdir.
  assert (namei made (cwd m) (results_path_of m w)
          = inr (d ++ ["results.json"])) as Hpath
    by (apply namei_join_plain;
        [exact Hd' | exact Hdir | reflexivity | exact Hlen]).
  split.
  { subst after. rewrite endpoint_eq.
    exact (analyze_spawned m settings (mode_of raw) (model_of raw)
             scenario_file consume_resources w). }
  split; [reflexivity|]. split; [reflexivity|]. split; [reflexivity|].
  split; [exact Hpath|].
  unfold inside. rewrite Hd', Hpath, is_prefix_app, node_eqb_app.
  reflexivity.
Qed.

Lemma results_path_stays_inside_witness :
  let host := machine (engine 1 0 "" (Some no_demands)) in
  working_area host boot area
  /\ (String.length (results_path_of host boot) < PATH_MAX)%nat
  /\ spawned (snd (@endpoint CPython.builtins host defaults true
                     (upload "../escaped.xml") true boot))
     = [ [ "java"; "-jar"; "/opt/spacenet.jar"; "-h"; "demands-raw"; "-i";
           "/tmp/tmpk3x9/../escaped.xml"; "-o"; "/tmp/tmpk3x9/results.json";
           "-c" ] ]
  /\ namei (mkdir disk area) [] "/tmp/tmpk3x9/results.json"
     = inr (area ++ ["results.json"]).
Proof.
  intros host.
  assert (working_area host boot area) as H
    by (split; vm_compute; reflexivity).
  assert (String.length (results_path_of host boot) < PATH_MAX)%nat as Hlen
    by (vm_compute; lia).
  split; [exact H|]. split; [exact Hlen|].
  split; [vm_compute; reflexivity|].
  exact (proj1 (proj2 (proj2 (proj2 (proj2
           (results_path_stays_inside CPython.builtins host defaults true
              (upload "../escaped.xml") true boot area H Hlen)))))).
Defined.



(* ================================================================== *)
(** * More on the models of app/demands_analysis.py *)
(* ================================================================== *)

Section Models.

Context {py : Builtins}.

Lemma validate_enum members j v :
  validate (Enum members) j = Ok v
  <-> exists s, j = JStr s /\ v = VEnum s /\ In s (map snd members).
Proof.
  split.
  - destruct j; simpl; try discriminate.
    destruct (existsb (fun mem => String.eqb s (snd mem)) members) eqn:E;
      [|discriminate].
    intros [= <-]. exists s. split; [reflexivity|]. split; [reflexivity|].
    apply existsb_exists in E as (mem & Hin & Heq).
    apply String.eqb_eq in Heq as ->. apply in_map, Hin.
  - intros (s & -> & -> & Hin). simpl.
    apply in_map_iff in Hin as (mem & <- & Hin).
    assert (existsb (fun mem' => String.eqb (snd mem) (snd mem')) members
            = true) as ->; [|reflexivity].
    apply existsb_exists. exists mem. split; [exact Hin|].
    apply String.eqb_refl.
Qed.

Lemma model_well_formed cls : In cls models -> well_formed cls = true.
Proof. apply (listed_well_formed cls models models_well_formed). Qed.

(** The attributes of an instance carry the names of the fields, in
    order. *)
Lemma instances_names fs attrs :
  instances fs attrs = true -> map fst attrs = map fst fs.
Proof.
  revert attrs. induction fs as [|f fs IH]; intros [|a attrs] H;
    simpl in *; try discriminate; [reflexivity|].
  apply andb_prop in H as [H Hrest]. apply andb_prop in H as [Hname _].
  apply String.eqb_eq in Hname. rewrite (IH attrs Hrest), Hname.
  reflexivity.
Qed.

End Models.

(** X12.  A field of type [ResourceTypeType] accepts the three strings
    [Generic], [Continuous] and [Discrete] and nothing else, and a field of
    type [Environment] the two strings [Pressurized] and [Unpressurized]:
    a member is given by its value, in that spelling, not by the name it has
    in the class. *)
Theorem enumerations_accept_their_values (py : Builtins) (j : json)
    (v : value) :
  (validate ResourceTypeType j = Ok v
   <-> exists s, j = JStr s /\ v = VEnum s
                 /\ (s = "Generic" \/ s = "Continuous" \/ s = "Discrete"))
  /\ (validate Environment j = Ok v
      <-> exists s, j = JStr s /\ v = VEnum s
                    /\ (s = "Pressurized" \/ s = "Unpressurized")).
Proof.
  unfold ResourceTypeType, Environment. rewrite !validate_enum. simpl.
  split; split; intros (s & Hj & Hv & Hs); exists s;
    (split; [exact Hj|]); (split; [exact Hv|]);
    intuition congruence.
Qed.

(** X13.  What validation returns is an instance of the class: every
    declared field is there, under its name and in declaration order, an
    [int] field holds an [int], a [float] field a [float], a [str] field a
    [str], an enumeration field one of its members, a list field a list of
    instances, and [element] an [Element] or [None].  This holds of the nine
    models, for validation of a value as for [parse_raw] of a text. *)
Theorem validated_values_are_instances (py : Builtins) (cls : ty) :
  In cls models ->
  (forall j v, validate cls j = Ok v -> isinstance cls v = true)
  /\ (forall text v, parse_raw cls text = Ok v -> isinstance cls v = true).
Proof.
  intros Hcls. pose proof (model_well_formed cls Hcls) as Hwf.
  split.
  - apply validate_isinstance, Hwf.
  - intros text v. unfold parse_raw, parse_obj, construct.
    destruct (json_loads text) as [obj|];
      [|destruct (json_too_deep text); discriminate].
    destruct (to_kwargs obj) as [kw| |]; try discriminate.
    apply validate_isinstance, Hwf.
Qed.

Lemma validated_values_are_instances_witness :
  In RawDemandsAnalysis models
  /\ isinstance RawDemandsAnalysis
       (demand_at nan (water "Generic") infinity neg_infinity) = true.
Proof.
  assert (In RawDemandsAnalysis models) as H by (simpl; tauto).
  split; [exact H|].
  apply (proj2 (validated_values_are_instances CPython.builtins
                  RawDemandsAnalysis H) not_finite).
  vm_compute. reflexivity.
Defined.

(** X14.  A validated object of any of the nine models is serialised by
    alias as a dictionary with one key for each declared field, in
    declaration order and in camel case, whether the field was in the input
    or took its default: no field is left out and none is added. *)
Theorem serialised_keys_are_the_aliases (py : Builtins)
    (fields : list (string * (ty * default))) (j : json) (v : value) :
  In (CamelModel fields) models ->
  validate (CamelModel fields) j = Ok v ->
  exists kw, dict_by_alias v = JDict kw /\ map fst kw = aliases fields.
Proof.
  intros Hcls Hv.
  pose proof (validate_isinstance _ (model_well_formed _ Hcls) _ _ Hv) as Hi.
  destruct v as [ | | | | | | attrs]; try discriminate Hi.
  rewrite isinstance_model in Hi. apply instances_names in Hi.
  eexists. split; [reflexivity|].
  rewrite map_map. cbn [fst]. unfold aliases, alias.
  rewrite <- (map_map fst camelize attrs), Hi, map_map. reflexivity.
Qed.

Lemma serialised_keys_are_the_aliases_witness :
  In RawDemand models
  /\ @validate CPython.builtins RawDemand
       (JDict [ ("time", JInt 2); ("location", dict_by_alias KSC);
                ("totalMass", JFloat 2.5); ("totalVolume", JStr "0.5") ])
     = Ok (VModel [ ("time", VFloat 2); ("location", KSC);
                    ("element", VNone); ("consumption", VList []);
                    ("production", VList []); ("total_mass", VFloat 2.5);
                    ("total_volume", VFloat 0.5) ])
  /\ exists kw,
       dict_by_alias
         (VModel [ ("time", VFloat 2); ("location", KSC);
                   ("element", VNone); ("consumption", VList []);
                   ("production", VList []); ("total_mass", VFloat 2.5);
                   ("total_volume", VFloat 0.5) ]) = JDict kw
       /\ map fst kw
          = [ "time"; "location"; "element"; "consumption"; "production";
              "totalMass"; "totalVolume" ].
Proof.
  assert (In RawDemand models) as H1 by (simpl; tauto).
  assert (@validate CPython.builtins RawDemand
            (JDict [ ("time", JInt 2); ("location", dict_by_alias KSC);
                     ("totalMass", JFloat 2.5); ("totalVolume", JStr "0.5") ])
          = Ok (VModel [ ("time", VFloat 2); ("location", KSC);
                         ("element", VNone); ("consumption", VList []);
                         ("production", VList []); ("total_mass", VFloat 2.5);
                         ("total_volume", VFloat 0.5) ])) as H2
    by (vm_compute; reflexivity).
  split; [exact H1|]. split; [exact H2|].
  exact (serialised_keys_are_the_aliases CPython.builtins _ _ _ H1 H2).
Defined.

Section Lookups.

Context {py : Builtins}.

Lemma get_skip k' k x kw1 kw2 :
  k' <> k -> get k' (kw1 ++ (k, x) :: kw2) = get k' (kw1 ++ kw2).
Proof.
  intros Hne. induction kw1 as [|[k0 v0] kw1 IH]; simpl.
  - apply String.eqb_neq in Hne. rewrite Hne. reflexivity.
  - rewrite IH. reflexivity.
Qed.

(** The fields are validated from what is looked up under their aliases
    and names, and from nothing else. *)
Lemma validate_fields_ext kw kw' fs :
  (forall f, In f fs ->
     lookup (camelize (fst f)) (fst f) kw
     = lookup (camelize (fst f)) (fst f) kw') ->
  validate_fields kw fs = validate_fields kw' fs.
Proof.
  induction fs as [|f fs IH]; intros H; simpl; [reflexivity|].
  unfold field_result. rewrite (H f (or_introl eq_refl)).
  rewrite IH; [reflexivity|]. intros f' Hin. apply H. right. exact Hin.
Qed.

End Lookups.

(** X15.  Keys that name no field are ignored.  An entry of the input
    whose key is neither the alias nor the name of a field of the model
    changes nothing: the model is constructed, or refused with the same
    errors, as without the entry. *)
Theorem unknown_keys_are_ignored (py : Builtins)
    (fields : list (string * (ty * default)))
    (kw1 kw2 : list (string * json)) (k : string) (x : json) :
  (forall f, In f fields -> alias f <> k /\ fst f <> k) ->
  construct (CamelModel fields) (kw1 ++ (k, x) :: kw2)
  = construct (CamelModel fields) (kw1 ++ kw2).
Proof.
  intros Hk. unfold construct. rewrite !validate_model_dict. f_equal.
  apply validate_fields_ext. intros f Hin.
  destruct (Hk f Hin) as [Halias Hname]. unfold alias in Halias.
  unfold lookup. rewrite !get_skip by assumption. reflexivity.
Qed.

Lemma unknown_keys_are_ignored_witness :
  (forall f,
      In f [ field "id" int_ Required; field "name" str_ Required ] ->
      alias f <> "status" /\ fst f <> "status")
  /\ @construct CPython.builtins Location
       ([("id", JInt 1)] ++ ("status", JStr "done") :: [("name", JStr "KSC")])
     = @construct CPython.builtins Location
         ([("id", JInt 1)] ++ [("name", JStr "KSC")]).
Proof.
  assert (forall f,
             In f [ field "id" int_ Required; field "name" str_ Required ] ->
             alias f <> "status" /\ fst f <> "status") as H.
  { intros f [<-|[<-|[]]]; split; vm_compute; discriminate. }
  split; [exact H|].
  exact (unknown_keys_are_ignored CPython.builtins _
           [("id", JInt 1)] [("name", JStr "KSC")] "status" (JStr "done") H).
Defined.

Section Defaults.

Context {py : Builtins}.

Lemma distinct_names fs :
  distinct (map (fun f : string * (ty * default) => camelize (fst f)) fs)
  = true ->
  distinct (map fst fs) = true.
Proof.
  induction fs as [|f fs IH]; [reflexivity|].
  intros H.
  change (distinct (camelize (fst f)
                      :: map (fun f : string * (ty * default) =>
                                camelize (fst f)) fs) = true) in H.
  destruct (distinct_cons _ _ H) as [Hfresh Hrest].
  simpl. rewrite (IH Hrest), andb_true_r.
  apply negb_true_iff. destruct (existsb (String.eqb (fst f)) (map fst fs))
    eqn:E; [|reflexivity].
  apply existsb_exists in E as (n & Hin & Heq).
  apply String.eqb_eq in Heq as <-.
  apply in_map_iff in Hin as (f' & Hname & Hin).
  exfalso. apply (Hfresh (camelize (fst f'))).
  - apply in_map_iff. exists f'. split; [reflexivity | exact Hin].
  - rewrite Hname. reflexivity.
Qed.

(** An absent field with a default has its default as attribute. *)
Lemma default_taken kw fs attrs name ft dv :
  distinct (map fst fs) = true ->
  validate_fields kw fs = Ok attrs ->
  In (field name ft (Default dv)) fs ->
  lookup (camelize name) name kw = None ->
  attr name attrs = Some dv.
Proof.
  revert attrs. induction fs as [|f fs IH]; intros attrs Hd Hv Hin Hget;
    [contradiction|].
  simpl in Hv. apply collect_ok in Hv as (a & l & Ha & Hl & ->).
  destruct (distinct_cons _ _ Hd) as [Hfresh Hrest].
  destruct Hin as [->|Hin].
  - unfold field_result, field in Ha. cbn [fst snd] in Ha.
    rewrite Hget in Ha. injection Ha as <-.
    simpl. rewrite String.eqb_refl. reflexivity.
  - simpl.
    assert (name <> fst f) as Hne.
    { intros ->. apply (Hfresh (fst f)); [|reflexivity].
      apply in_map_iff. exists (field (fst f) ft (Default dv)).
      split; [reflexivity | exact Hin]. }
    apply String.eqb_neq in Hne. rewrite Hne.
    apply (IH l Hrest Hl Hin Hget).
Qed.

(** Construction from no argument. *)
Lemma validate_fields_nil fs :
  validate_fields [] fs
  = match required fs with
    | [] => Ok (default_attrs fs)
    | missing =>
        Invalid (map (fun a => mk_error [Key a] value_error_missing) missing)
    end.
Proof.
  induction fs as [|[name [ft [|dv]]] fs IH]; [reflexivity| |].
  - cbn [validate_fields required]. rewrite IH.
    unfold field_result, lookup. cbn [fst snd get].
    destruct (required fs); reflexivity.
  - cbn [validate_fields required default_attrs]. rewrite IH.
    unfold field_result, lookup. cbn [fst snd get].
    destruct (required fs); reflexivity.
Qed.

End Defaults.

(** X16.  In each of the nine models a field that is declared with a
    default and is absent from the input, under its alias and under its
    name, has that default in the constructed object: the empty list for
    [consumption] and [production] of raw, node and edge demands and for
    [demands], [nodes] and [edges], and [None] for [element]. *)
Theorem absent_fields_take_their_defaults (py : Builtins)
    (fields : list (string * (ty * default))) (kw : list (string * json))
    (v : value) (name : string) (ft : ty) (dv : value) :
  In (CamelModel fields) models ->
  In (field name ft (Default dv)) fields ->
  lookup (camelize name) name kw = None ->
  construct (CamelModel fields) kw = Ok v ->
  getattr v name = Some dv.
Proof.
  intros Hcls Hin Hget Hv.
  pose proof (model_well_formed _ Hcls) as Hwf.
  rewrite well_formed_model in Hwf. apply andb_prop in Hwf as [Hd _].
  unfold construct in Hv. rewrite validate_model_dict in Hv.
  apply map_result_ok in Hv as (attrs & Hv & ->).
  exact (default_taken kw fields attrs name ft dv (distinct_names _ Hd)
                       Hv Hin Hget).
Qed.

Lemma absent_fields_take_their_defaults_witness :
  In NodeDemand models
  /\ lookup (camelize "production") "production"
       [ ("time", JFloat 1.5); ("location", dict_by_alias KSC);
         ("totalMass", JFloat 2.5); ("totalVolume", JFloat 0.5) ] = None
  /\ @construct CPython.builtins NodeDemand
       [ ("time", JFloat 1.5); ("location", dict_by_alias KSC);
         ("totalMass", JFloat 2.5); ("totalVolume", JFloat 0.5) ]
     = Ok (VModel [ ("time", VFloat 1.5); ("location", KSC);
                    ("consumption", VList []); ("production", VList []);
                    ("total_mass", VFloat 2.5); ("total_volume", VFloat 0.5) ])
  /\ getattr (VModel [ ("time", VFloat 1.5); ("location", KSC);
                       ("consumption", VList []); ("production", VList []);
                       ("total_mass", VFloat 2.5);
                       ("total_volume", VFloat 0.5) ]) "production"
     = Some (VList []).
Proof.
  assert (In NodeDemand models) as H1 by (simpl; tauto).
  assert (lookup (camelize "production") "production"
            [ ("time", JFloat 1.5); ("location", dict_by_alias KSC);
              ("totalMass", JFloat 2.5); ("totalVolume", JFloat 0.5) ] = None)
    as H2 by (vm_compute; reflexivity).
  assert (@construct CPython.builtins NodeDemand
            [ ("time", JFloat 1.5); ("location", dict_by_alias KSC);
              ("totalMass", JFloat 2.5); ("totalVolume", JFloat 0.5) ]
          = Ok (VModel [ ("time", VFloat 1.5); ("location", KSC);
                         ("consumption", VList []); ("production", VList []);
                         ("total_mass", VFloat 2.5);
                         ("total_volume", VFloat 0.5) ])) as H3
    by (vm_compute; reflexivity).
  split; [exact H1|]. split; [exact H2|]. split; [exact H3|].
  refine (absent_fields_take_their_defaults CPython.builtins _ _ _
            "production" (List_ Resource) (VList []) H1 _ H2 H3).
  simpl. tauto.
Defined.

(** X17.  Construction from no argument reports every required field at
    once: the errors are one [field required] for each required field, in
    declaration order and under its alias; a model without required fields
    is constructed with its defaults.  An [EdgeDemand] so gets eleven
    errors, a [ResourceType] eight. *)
Theorem empty_input_lists_required_fields (py : Builtins) :
  (forall fields,
      construct (CamelModel fields) []
      = match required fields with
        | [] => Ok (VModel (default_attrs fields))
        | missing =>
            Invalid (map (fun a => mk_error [Key a] value_error_missing)
                         missing)
        end)
  /\ construct EdgeDemand []
     = Invalid (map (fun a => mk_error [Key a] value_error_missing)
                    [ "startTime"; "endTime"; "origin"; "destination";
                      "location"; "totalMass"; "totalVolume"; "maxCargoMass";
                      "netCargoMass"; "maxCargoVolume"; "netCargoVolume" ])
  /\ construct ResourceType []
     = Invalid (map (fun a => mk_error [Key a] value_error_missing)
                    [ "type"; "name"; "classOfSupply"; "environment"; "units";
                      "unitMass"; "unitVolume"; "packingFactor" ]).
Proof.
  assert (forall fields,
             construct (CamelModel fields) []
             = match required fields with
               | [] => Ok (VModel (default_attrs fields))
               | missing =>
                   Invalid (map (fun a => mk_error [Key a] value_error_missing)
                                missing)
               end) as H.
  { intros fields. unfold construct.
    rewrite validate_model_dict, validate_fields_nil.
    destruct (required fields); reflexivity. }
  split; [exact H|]. split.
  - unfold EdgeDemand. rewrite H. reflexivity.
  - unfold ResourceType. rewrite H. reflexivity.
Qed.

(** X18.  Validation is idempotent on each of the nine models: the
    serialisation by alias of a validated object validates to the same
    object, with the same floats, NaN and the infinities included, and the
    same members of the enumerations. *)
Theorem validation_is_idempotent (py : Builtins) (cls : ty) (j : json)
    (v : value) :
  In cls models ->
  validate cls j = Ok v ->
  validate cls (dict_by_alias v) = Ok v.
Proof.
  intros Hcls Hv. pose proof (model_well_formed cls Hcls) as Hwf.
  apply (validate_dict_by_alias cls Hwf).
  exact (validate_isinstance cls Hwf j v Hv).
Qed.

Lemma validation_is_idempotent_witness :
  In Resource models
  /\ @validate CPython.builtins Resource
       (JDict [ ("resource", JDict [
                   ("type", JStr "Discrete"); ("name", JInt 7);
                   ("classOfSupply", JStr " 201 ");
                   ("environment", JStr "Pressurized");
                   ("units", JStr "kg"); ("unitMass", JInt 1);
                   ("unitVolume", JStr "nan");
                   ("packingFactor", JStr "1e400") ]);
                ("amount", JBool true); ("mass", JStr "2.5");
                ("volume", JInt 0) ])
     = Ok (VModel [
             ("resource", VModel [
                ("type", VEnum "Discrete"); ("name", VStr "7");
                ("class_of_supply", VInt 201);
                ("environment", VEnum "Pressurized");
                ("units", VStr "kg"); ("unit_mass", VFloat 1);
                ("unit_volume", VFloat nan);
                ("packing_factor", VFloat infinity) ]);
             ("amount", VFloat 1); ("mass", VFloat 2.5);
             ("volume", VFloat 0) ])
  /\ @validate CPython.builtins Resource
       (dict_by_alias (VModel [
             ("resource", VModel [
                ("type", VEnum "Discrete"); ("name", VStr "7");
                ("class_of_supply", VInt 201);
                ("environment", VEnum "Pressurized");
                ("units", VStr "kg"); ("unit_mass", VFloat 1);
                ("unit_volume", VFloat nan);
                ("packing_factor", VFloat infinity) ]);
             ("amount", VFloat 1); ("mass", VFloat 2.5);
             ("volume", VFloat 0) ]))
     = Ok (VModel [
             ("resource", VModel [
                ("type", VEnum "Discrete"); ("name", VStr "7");
                ("class_of_supply", VInt 201);
                ("environment", VEnum "Pressurized");
                ("units", VStr "kg"); ("unit_mass", VFloat 1);
                ("unit_volume", VFloat nan);
                ("packing_factor", VFloat infinity) ]);
             ("amount", VFloat 1); ("mass", VFloat 2.5);
             ("volume", VFloat 0) ]).
Proof.
  assert (In Resource models) as H1 by (simpl; tauto).
  assert (@validate CPython.builtins Resource
       (JDict [ ("resource", JDict [
                   ("type", JStr "Discrete"); ("name", JInt 7);
                   ("classOfSupply", JStr " 201 ");
                   ("environment", JStr "Pressurized");
                   ("units", JStr "kg"); ("unitMass", JInt 1);
                   ("unitVolume", JStr "nan");
                   ("packingFactor", JStr "1e400") ]);
                ("amount", JBool true); ("mass", JStr "2.5");
                ("volume", JInt 0) ])
     = Ok (VModel [
             ("resource", VModel [
                ("type", VEnum "Discrete"); ("name", VStr "7");
                ("class_of_supply", VInt 201);
                ("environment", VEnum "Pressurized");
                ("units", VStr "kg"); ("unit_mass", VFloat 1);
                ("unit_volume", VFloat nan);
                ("packing_factor", VFloat infinity) ]);
             ("amount", VFloat 1); ("mass", VFloat 2.5);
             ("volume", VFloat 0) ])) as H2 by (vm_compute; reflexivity).
  split; [exact H1|]. split; [exact H2|].
  exact (validation_is_idempotent CPython.builtins Resource _ _ H1 H2).
Defined.

Section By_name.

Context {py : Builtins}.

Lemma names_apart_model fields :
  names_apart (CamelModel fields)
  = distinct (map fst fields)
    && forallb (fun f =>
                  String.eqb (camelize (fst f)) (fst f)
                  || negb (existsb (String.eqb (camelize (fst f)))
                                   (map fst fields))) fields
    && forallb (fun f => names_apart (fst (snd f))) fields.
Proof.
  simpl. f_equal.
  induction fields as [|[name [ft d]] rest IH]; simpl; [reflexivity|].
  rewrite IH. reflexivity.
Qed.

(** An object yields, under the name of each field, the serialised
    attribute of that field. *)
Lemma get_by_name fs attrs :
  instances fs attrs = true ->
  distinct (map fst fs) = true ->
  forall f a, In (f, a) (combine fs attrs) ->
    get (fst f) (map (fun a => (fst a, dict_by_name (snd a))) attrs)
    = Some (dict_by_name (snd a)).
Proof.
  revert attrs.
  induction fs as [|f0 rest IH]; intros [|a0 attrs] Hinst Hd f a Hin;
    simpl in Hinst, Hin; try contradiction; try discriminate.
  apply andb_prop in Hinst as [Hinst Hrest].
  apply andb_prop in Hinst as [Hname _].
  apply String.eqb_eq in Hname.
  destruct (distinct_cons _ _ Hd) as [Hfresh Hd'].
  cbn [map get fst snd].
  destruct Hin as [[= <- <-]|Hin].
  - rewrite Hname, String.eqb_refl. reflexivity.
  - assert (fst f <> fst a0) as Hne.
    { rewrite <- Hname. intros E. apply (Hfresh (fst f)); [|auto].
      apply in_map, (in_combine_l _ _ _ _ Hin). }
    apply String.eqb_neq in Hne. rewrite Hne.
    apply IH; assumption.
Qed.

(** A key that is the name of no field is not in the serialisation. *)
Lemma get_no_name k fs attrs :
  instances fs attrs = true ->
  existsb (String.eqb k) (map fst fs) = false ->
  get k (map (fun a => (fst a, dict_by_name (snd a))) attrs) = None.
Proof.
  revert attrs.
  induction fs as [|f0 rest IH]; intros [|a0 attrs] Hinst Hk;
    simpl in Hinst; try discriminate; [reflexivity|].
  apply andb_prop in Hinst as [Hinst Hrest].
  apply andb_prop in Hinst as [Hname _].
  apply String.eqb_eq in Hname.
  simpl in Hk. apply orb_false_elim in Hk as [Hk0 Hk].
  cbn [map get fst snd]. rewrite <- Hname, Hk0.
  apply IH; assumption.
Qed.

Lemma fields_by_name kw fs attrs :
  Forall (fun f => forall v, isinstance (fst (snd f)) v = true ->
                             validate (fst (snd f)) (dict_by_name v) = Ok v) fs ->
  instances fs attrs = true ->
  (forall f a, In (f, a) (combine fs attrs) ->
     lookup (camelize (fst f)) (fst f) kw = Some (dict_by_name (snd a))) ->
  validate_fields kw fs = Ok attrs.
Proof.
  intros Hall. revert attrs.
  induction Hall as [|f rest Hf _ IH]; intros [|[n x] attrs] Hinst Hget;
    simpl in *; try discriminate; [reflexivity|].
  apply andb_prop in Hinst as [Hinst Hrest].
  apply andb_prop in Hinst as [Hname Hx].
  apply String.eqb_eq in Hname.
  unfold field_result.
  rewrite (Hget f (n, x) (or_introl eq_refl)). simpl.
  rewrite (Hf x Hx). simpl.
  rewrite (IH attrs Hrest (fun f' a' H => Hget f' a' (or_intror H))).
  simpl. rewrite Hname. reflexivity.
Qed.

Lemma items_by_name elem l :
  (forall v, isinstance elem v = true ->
             validate elem (dict_by_name v) = Ok v) ->
  forallb (isinstance elem) l = true ->
  forall i, validate_items elem i (map dict_by_name l) = Ok l.
Proof.
  intros Helem. induction l as [|x l IH]; intros Hall i; simpl in *;
    [reflexivity|].
  apply andb_prop in Hall as [Hx Hl].
  rewrite (Helem x Hx). simpl. rewrite (IH Hl). reflexivity.
Qed.

(** Validating [obj.dict()] gives the object back, when field names can
    stand for their aliases. *)
Lemma validate_dict_by_name t :
  names_apart t = true ->
  forall v, isinstance t v = true -> validate t (dict_by_name v) = Ok v.
Proof.
  induction t as [ | | | members | elem IH | t IH | fields IH]
    using ty_nested_ind; intros Hwf v Hv.
  - destruct v; try discriminate Hv. reflexivity.
  - destruct v; try discriminate Hv. reflexivity.
  - destruct v; try discriminate Hv. reflexivity.
  - destruct v; try discriminate Hv. simpl in *. rewrite Hv. reflexivity.
  - destruct v as [ | | | | | l | ]; try discriminate Hv.
    cbn [dict_by_name]. rewrite validate_list.
    rewrite (items_by_name elem l (IH Hwf) Hv). reflexivity.
  - destruct v; try reflexivity;
      (rewrite validate_optional; [apply (IH Hwf), Hv | discriminate]).
  - destruct v as [ | | | | | | attrs]; try discriminate Hv.
    rewrite isinstance_model in Hv. rewrite names_apart_model in Hwf.
    apply andb_prop in Hwf as [Hwf Hfs]. apply andb_prop in Hwf as [Hd Ha].
    cbn [dict_by_name]. rewrite validate_model_dict.
    rewrite (fields_by_name _ fields attrs); [reflexivity| |exact Hv|].
    + rewrite Forall_forall in IH |- *. intros f Hin.
      apply (IH f Hin).
      exact (proj1 (forallb_forall _ _) Hfs f Hin).
    + intros f a Hin.
      pose proof (get_by_name fields attrs Hv Hd f a Hin) as Hname.
      pose proof (proj1 (forallb_forall _ _) Ha f
                    (in_combine_l _ _ _ _ Hin)) as Hf.
      unfold lookup. apply orb_prop in Hf as [Hf|Hf].
      * apply String.eqb_eq in Hf. rewrite Hf, Hname. reflexivity.
      * apply negb_true_iff in Hf.
        rewrite (get_no_name _ fields attrs Hv Hf). exact Hname.
Qed.

Lemma models_names_apart : forallb names_apart models = true.
Proof. vm_compute. reflexivity. Qed.

End By_name.

(** X19.  The models are populated by field name as well as by alias: for
    each of the nine models, an instance is constructed again from its own
    [dict()], where the attributes stand under their field names in snake
    case, at every level of nesting. *)
Theorem models_populate_by_field_name (py : Builtins) (cls : ty)
    (v : value) :
  In cls models ->
  isinstance cls v = true ->
  validate cls (dict_by_name v) = Ok v
  /\ parse_obj cls (dict_by_name v) = Ok v.
Proof.
  intros Hcls Hv.
  assert (names_apart cls = true) as Hwf
    by exact (proj1 (forallb_forall _ _) models_names_apart cls Hcls).
  pose proof (validate_dict_by_name cls Hwf v Hv) as H.
  split; [exact H|].
  assert (exists fields, cls = CamelModel fields) as [fields ->].
  { simpl in Hcls.
    repeat (destruct Hcls as [<-|Hcls]; [eexists; reflexivity|]).
    contradiction. }
  destruct v as [ | | | | | | attrs]; try discriminate Hv.
  exact H.
Qed.

Lemma models_populate_by_field_name_witness :
  In EdgeDemand models
  /\ isinstance EdgeDemand overloaded_edge = true
  /\ get "max_cargo_mass"
         match dict_by_name overloaded_edge with
         | JDict kw => kw
         | _ => []
         end = Some (JFloat 100)
  /\ @validate CPython.builtins EdgeDemand (dict_by_name overloaded_edge)
     = Ok overloaded_edge.
Proof.
  assert (In EdgeDemand models) as H1 by (simpl; tauto).
  assert (isinstance EdgeDemand overloaded_edge = true) as H2
    by (vm_compute; reflexivity).
  split; [exact H1|]. split; [exact H2|]. split; [vm_compute; reflexivity|].
  exact (proj1 (models_populate_by_field_name CPython.builtins EdgeDemand
                  overloaded_edge H1 H2)).
Defined.

Section Order.

Context {py : Builtins}.

(** A dictionary holds one value for a key, wherever the entry stands. *)
Lemma get_permutation k (kw kw' : list (string * json)) :
  Permutation kw kw' -> NoDup (map fst kw) -> get k kw = get k kw'.
Proof.
  induction 1 as [|[k0 v0] l l' Hp IH|[k1 v1] [k0 v0] l|l l' l'' Hp1 IH1 Hp2 IH2];
    intros Hnd; simpl.
  - reflexivity.
  - simpl in Hnd. inversion Hnd as [|? ? _ Hnd']. rewrite (IH Hnd').
    reflexivity.
  - simpl in Hnd. inversion Hnd as [|? ? Hfresh _].
    destruct (String.eqb k k0) eqn:E0, (String.eqb k k1) eqn:E1;
      try reflexivity.
    apply String.eqb_eq in E0, E1. subst. exfalso. apply Hfresh.
    left. reflexivity.
  - rewrite (IH1 Hnd). apply IH2.
    apply (Permutation_NoDup (Permutation_map fst Hp1) Hnd).
Qed.

End Order.

(** X20.  The order of the keys of the input does not matter: two
    dictionaries with the same entries, each key once, construct the same
    object or are refused with the same errors, in the same order, that of
    the declaration of the fields. *)
Theorem key_order_is_irrelevant (py : Builtins)
    (fields : list (string * (ty * default)))
    (kw kw' : list (string * json)) :
  Permutation kw kw' ->
  NoDup (map fst kw) ->
  construct (CamelModel fields) kw = construct (CamelModel fields) kw'.
Proof.
  intros Hp Hnd. unfold construct. rewrite !validate_model_dict. f_equal.
  apply validate_fields_ext. intros f _. unfold lookup.
  rewrite !(get_permutation _ kw kw' Hp Hnd). reflexivity.
Qed.

Lemma key_order_is_irrelevant_witness :
  Permutation [("id", JInt 1); ("name", JStr "KSC")]
              [("name", JStr "KSC"); ("id", JInt 1)]
  /\ NoDup (map fst [("id", JInt 1); ("name", JStr "KSC")])
  /\ @construct CPython.builtins Location
       [("id", JInt 1); ("name", JStr "KSC")]
     = @construct CPython.builtins Location
         [("name", JStr "KSC"); ("id", JInt 1)].
Proof.
  assert (Permutation [("id", JInt 1); ("name", JStr "KSC")]
                      [("name", JStr "KSC"); ("id", JInt 1)]) as H1
    by apply perm_swap.
  assert (NoDup (map fst [("id", JInt 1); ("name", JStr "KSC")])) as H2.
  { simpl. constructor; [|constructor; [|constructor]]; simpl.
    - intros [H|[]]. discriminate H.
    - intros []. }
  split; [exact H1|]. split; [exact H2|].
  exact (key_order_is_irrelevant CPython.builtins _ _ _ H1 H2).
Defined.

Section Precedence.

Context {py : Builtins}.

Lemma distinct_in_eq (fs : list (string * (ty * default))) f g :
  distinct (map fst fs) = true ->
  In f fs -> In g fs -> fst f = fst g -> f = g.
Proof.
  induction fs as [|f0 fs IH]; intros Hd Hf Hg Heq; [contradiction|].
  destruct (distinct_cons _ _ Hd) as [Hfresh Hrest].
  destruct Hf as [->|Hf], Hg as [->|Hg].
  - reflexivity.
  - exfalso. apply (Hfresh (fst g)); [apply in_map, Hg | exact Heq].
  - exfalso. apply (Hfresh (fst f)); [apply in_map, Hf | auto].
  - apply IH; assumption.
Qed.

End Precedence.

(** X21.  The alias takes precedence over the field name.  In each of the
    nine models, when the input holds a field under its alias in camel
    case, an entry under the field name in snake case is not looked at:
    the outcome is that of the input without it. *)
Theorem alias_takes_precedence (py : Builtins)
    (fields : list (string * (ty * default)))
    (kw1 kw2 : list (string * json)) (f : string * (ty * default))
    (x : json) :
  In (CamelModel fields) models ->
  In f fields ->
  alias f <> fst f ->
  get (alias f) (kw1 ++ kw2) <> None ->
  construct (CamelModel fields) (kw1 ++ (fst f, x) :: kw2)
  = construct (CamelModel fields) (kw1 ++ kw2).
Proof.
  intros Hcls Hf Hne Hget.
  pose proof (proj1 (forallb_forall _ _) models_names_apart _ Hcls) as Hwf.
  rewrite names_apart_model in Hwf.
  apply andb_prop in Hwf as [Hwf _]. apply andb_prop in Hwf as [Hd Ha].
  unfold construct. rewrite !validate_model_dict. f_equal.
  apply validate_fields_ext. intros g Hg. unfold lookup.
  assert (camelize (fst g) <> fst f) as Halias.
  { intros E.
    pose proof (proj1 (forallb_forall _ _) Ha g Hg) as Hgn.
    apply orb_prop in Hgn as [Hgn|Hgn].
    - apply String.eqb_eq in Hgn.
      assert (g = f) as ->
        by (apply (distinct_in_eq fields); try assumption; congruence).
      apply Hne. exact E.
    - apply negb_true_iff in Hgn.
      assert (existsb (String.eqb (camelize (fst g))) (map fst fields) = true)
        as Hex; [|congruence].
      apply existsb_exists. exists (fst f). split; [apply in_map, Hf|].
      apply String.eqb_eq, E. }
  rewrite (get_skip _ _ x kw1 kw2 Halias).
  destruct (get (camelize (fst g)) (kw1 ++ kw2)) as [y|] eqn:Ey;
    [reflexivity|].
  assert (fst g <> fst f) as Hname.
  { intros E.
    assert (g = f) as ->
      by (apply (distinct_in_eq fields); assumption).
    apply Hget. exact Ey. }
  apply (get_skip _ _ x kw1 kw2 Hname).
Qed.

Lemma alias_takes_precedence_witness :
  In ResourceType models
  /\ get "classOfSupply"
       ([ ("type", JStr "Generic"); ("name", JStr "Water") ]
        ++ [ ("classOfSupply", JInt 201); ("environment", JStr "Unpressurized");
             ("units", JStr "kg"); ("unitMass", JFloat 1);
             ("unitVolume", JFloat 0.125); ("packingFactor", JFloat 0.5) ])
     <> None
  /\ @construct CPython.builtins ResourceType
       ([ ("type", JStr "Generic"); ("name", JStr "Water") ]
        ++ ("class_of_supply", JStr "five")
        :: [ ("classOfSupply", JInt 201); ("environment", JStr "Unpressurized");
             ("units", JStr "kg"); ("unitMass", JFloat 1);
             ("unitVolume", JFloat 0.125); ("packingFactor", JFloat 0.5) ])
     = @construct CPython.builtins ResourceType
         ([ ("type", JStr "Generic"); ("name", JStr "Water") ]
          ++ [ ("classOfSupply", JInt 201);
               ("environment", JStr "Unpressurized");
               ("units", JStr "kg"); ("unitMass", JFloat 1);
               ("unitVolume", JFloat 0.125); ("packingFactor", JFloat 0.5) ]).
Proof.
  assert (In ResourceType models) as H1 by (simpl; tauto).
  assert (get "classOfSupply"
            ([ ("type", JStr "Generic"); ("name", JStr "Water") ]
             ++ [ ("classOfSupply", JInt 201);
                  ("environment", JStr "Unpressurized");
                  ("units", JStr "kg"); ("unitMass", JFloat 1);
                  ("unitVolume", JFloat 0.125);
                  ("packingFactor", JFloat 0.5) ])
          <> None) as H2 by (vm_compute; discriminate).
  split; [exact H1|]. split; [exact H2|].
  refine (alias_takes_precedence CPython.builtins _ _ _
            (field "class_of_supply" int_ Required) (JStr "five") H1 _ _ H2).
  - simpl. tauto.
  - vm_compute. discriminate.
Defined.
